(** * Nyx native HTTP server (native/nyx_httpd.c): model and properties

    The development follows the C file top-down: the C string routines the
    server relies on, the internal structures, the request-line and header
    parsers, the response helpers, the registries and the per-connection
    pipeline [handle_client].

    Conventions.
    - A C string is a [string] without NUL; a [const char *] that may be NULL
      is an [option string]; a pointer into a string is an offset ([nat]).
    - Dereferencing NULL (or an address computed from NULL) is a fault: the
      functions that can do so return [option], [None] being the fault.
    - [calloc], [malloc] and [str_dup] succeed, except in
      [nyx_http_response_file], whose allocation outcome is an input. *)

From Stdlib Require Import ZArith String Ascii Lia Bool DecimalString DecimalNat.
From stdpp Require Import base option list strings.

(** ** C string routines *)

Module CStr.

Definition NUL : ascii := Ascii.zero.
Definition CRLF : string := String "013" (String "010" "").
Definition SP : ascii := " "%char.
Definition TAB : ascii := "009"%char.

(** The C string held by a byte buffer: the bytes before the first NUL. *)
Fixpoint c_str (bytes : string) : string :=
  match bytes with
  | "" => ""
  | String c rest => if Ascii.eqb c NUL then "" else String c (c_str rest)
  end.

(** [memcpy(dst, s, n); dst[n] = 0]: the first [n] bytes of [s]. *)
Fixpoint str_prefix (n : nat) (s : string) : string :=
  match n, s with
  | S n', String c rest => String c (str_prefix n' rest)
  | _, _ => ""
  end.

(** The string at [s + n]. *)
Fixpoint str_from (n : nat) (s : string) : string :=
  match n, s with
  | S n', String _ rest => str_from n' rest
  | _, _ => s
  end.

(** [strchr(s, c)] for [c <> 0]: offset of the first [c]. *)
Fixpoint strchr (s : string) (c : ascii) : option nat :=
  match s with
  | "" => None
  | String a rest => if Ascii.eqb a c then Some 0 else S <$> strchr rest c
  end.

(** [strrchr(s, c)] for [c <> 0]: offset of the last [c]. *)
Fixpoint strrchr (s : string) (c : ascii) : option nat :=
  match s with
  | "" => None
  | String a rest =>
      match strrchr rest c with
      | Some i => Some (S i)
      | None => if Ascii.eqb a c then Some 0 else None
      end
  end.

(** Does [s] begin with [needle]? *)
Fixpoint starts_with (needle s : string) : bool :=
  match needle, s with
  | "", _ => true
  | String a needle', String b s' => Ascii.eqb a b && starts_with needle' s'
  | String _ _, "" => false
  end.

(** [strstr(s, needle)]: offset of the first occurrence of [needle]. *)
Fixpoint strstr (s needle : string) : option nat :=
  match s with
  | "" => if starts_with needle "" then Some 0 else None
  | String _ rest =>
      if starts_with needle s then Some 0 else S <$> strstr rest needle
  end.

(** [strcmp(a, b) == 0]; either argument NULL is a fault. *)
Definition strcmp0 (a b : option string) : option bool :=
  match a, b with
  | Some x, Some y => Some (String.eqb x y)
  | _, _ => None
  end.

(** [tolower] in the C locale. *)
Definition tolower (c : ascii) : ascii :=
  let n := nat_of_ascii c in
  if (65 <=? n)%nat && (n <=? 90)%nat then ascii_of_nat (n + 32) else c.

(** [strcasecmp(a, b) == 0] on non-NULL strings. *)
Fixpoint strcasecmp0 (a b : string) : bool :=
  match a, b with
  | "", "" => true
  | String x a', String y b' =>
      Ascii.eqb (tolower x) (tolower y) && strcasecmp0 a' b'
  | _, _ => false
  end.

(** [strncpy(dst, src, n)] into a zero-filled [dst] of more than [n]
    bytes: the C string left in [dst] is the first [n] bytes of [src].
    Every destination in the server is a slot of a [calloc]ed array that
    is written once, so byte [n] of the slot is still 0. *)
Definition strncpy (n : nat) (src : string) : string := str_prefix n src.

(** [snprintf(dst, size, ...)] where the format expands to [s]:
    what is stored (at most [size - 1] bytes) and the value returned. *)
Definition snprintf (size : nat) (s : string) : string * nat :=
  (str_prefix (size - 1) s, String.length s).

(** Conversions [%d] (an [int]) and [%zu] (a [size_t]). *)
Definition fmt_d (z : Z) : string := NilZero.string_of_int (Z.to_int z).
Definition fmt_zu (n : nat) : string := NilZero.string_of_uint (Nat.to_uint n).

Definition isspace (c : ascii) : bool :=
  let n := nat_of_ascii c in (n =? 32)%nat || ((9 <=? n)%nat && (n <=? 13)%nat).

Definition isdigit (c : ascii) : bool :=
  let n := nat_of_ascii c in (48 <=? n)%nat && (n <=? 57)%nat.

Fixpoint skip_space (s : string) : string :=
  match s with
  | String c rest => if isspace c then skip_space rest else s
  | "" => ""
  end.

Fixpoint digits_value (acc : Z) (s : string) : Z :=
  match s with
  | String c rest =>
      if isdigit c
      then digits_value (10 * acc + (Z.of_nat (nat_of_ascii c) - 48)) rest
      else acc
  | "" => acc
  end.

(** The number a string starts with, as [strtol] and [atoi] read it: white
    space, an optional sign, decimal digits. *)
Definition numeral (s : string) : Z :=
  match skip_space s with
  | String "-" rest => - digits_value 0 rest
  | String "+" rest => digits_value 0 rest
  | t => digits_value 0 t
  end.

Definition LONG_MAX : Z := 2 ^ 63 - 1.
Definition LONG_MIN : Z := - 2 ^ 63.

(** [strtol(s, NULL, 10)]: the numeral, held to the range of [long]. *)
Definition strtol (s : string) : Z :=
  Z.max LONG_MIN (Z.min LONG_MAX (numeral s)).

(** The conversion of a [long] to [int]: its low 32 bits, in two's
    complement. *)
Definition int_of_long (z : Z) : Z :=
  let r := (z mod 2 ^ 32)%Z in
  if (r <? 2 ^ 31)%Z then r else (r - 2 ^ 32)%Z.

(** [atoi(s)], an [int]: the C library computes it as
    [(int) strtol(s, NULL, 10)]. For a numeral in the range of [int] this
    is its value; beyond it, where the C standard leaves the result open,
    it is what the library returns with a [long] of 64 bits. *)
Definition atoi (s : string) : Z := int_of_long (strtol s).

End CStr.

Import CStr.

(** ** Internal structures and the public request/response records *)

Module Nyx.

Definition MAX_ROUTES : nat := 256.
Definition MAX_MIDDLEWARE : nat := 32.
Definition MAX_HEADERS : nat := 64.
Definition BUFFER_SIZE : nat := 8 * 1024.

(** [struct HttpHeader { char name[128]; char value[512]; }] *)
Record HttpHeader := { name : string; value : string }.

(** [struct HttpHeaderDict { HttpHeader headers[MAX_HEADERS]; int count; }] *)
Record HttpHeaderDict := { headers : list HttpHeader; count : nat }.

Definition zero_header : HttpHeader := {| name := ""; value := "" |}.

(** [calloc(1, sizeof(HttpHeaderDict))] *)
Definition zero_dict : HttpHeaderDict :=
  {| headers := replicate MAX_HEADERS zero_header; count := 0 |}.

(** What [const char *body] can point to: nothing, the static buffer of
    [nyx_http_response_error], or memory supplied by the caller (a literal,
    a handler's buffer, the block [nyx_http_response_file] allocates). *)
Inductive body_ptr :=
| BodyNull
| BodyErrorPage
| BodyMem (bytes : string).

(** [struct NyxHttpRequest] *)
Record NyxHttpRequest := {
  method : option string;
  path : option string;
  query_string : option string;
  protocol : option string;
  host : option string;
  content_type : option string;
  content_length : Z;
  req_headers : option HttpHeaderDict;
  req_body : option string;
  req_body_length : nat;
  remote_addr : option string;
  remote_port : Z
}.

(** [struct NyxHttpResponse] *)
Record NyxHttpResponse := {
  status_code : Z;
  status_text : option string;
  resp_headers : option HttpHeaderDict;
  body : body_ptr;
  body_length : nat;
  close_connection : Z
}.

(** Static storage: [static char error_body[1024]] of
    [nyx_http_response_error], as a C string. *)
Record Statics := { error_body : string }.

Definition initial_statics : Statics := {| error_body := "" |}.

(** The callback type [NyxHttpHandler]: a handler receives the request
    (read-only), the response and its [user_data]; it may write the
    response and, through the response helpers, the static storage. *)
Definition NyxHttpHandler : Type :=
  NyxHttpRequest -> NyxHttpResponse -> Z -> Statics -> NyxHttpResponse * Statics.

(** [struct HttpRoute { char method[16]; char path[256]; handler; user_data; }] *)
Record HttpRoute := {
  route_method : string;
  route_path : string;
  route_handler : option NyxHttpHandler;
  route_user_data : Z
}.

Definition zero_route : HttpRoute :=
  {| route_method := ""; route_path := ""; route_handler := None;
     route_user_data := 0 |}.

(** [struct NyxHttpServer], without the configuration, the socket and the
    log sinks, which the pipeline below does not consult. *)
Record NyxHttpServer := {
  running : Z;
  routes : list HttpRoute;
  route_count : nat;
  middlewares : list (option NyxHttpHandler);
  middleware_data : list Z;
  middleware_count : nat
}.

(** ** HTTP parsing *)

(** [parse_request_line]: [Some (method, path, query, protocol)] when the C
    function returns 0, [None] when it returns -1. The output arrays are
    locals of the caller and are read only after a return of 0. *)
Definition parse_request_line (line : string)
  : option (string * string * string * string) :=
  match strchr line SP with
  | None => None
  | Some space1 =>
      let method_len := space1 in
      if (16 <=? method_len)%nat then None else
      let method := str_prefix method_len line in
      let p := str_from (space1 + 1) line in
      match strchr p SP with
      | None => None
      | Some space2 =>
          let with_query (q : nat) :=
            let path_len := q in
            if (256 <=? path_len)%nat then None else
            let query_len := space2 - q - 1 in
            if (512 <=? query_len)%nat then None else
            Some (str_prefix path_len p,
                  str_prefix query_len (str_from (q + 1) p)) in
          let without_query :=
            let path_len := space2 in
            if (256 <=? path_len)%nat then None else
            Some (str_prefix path_len p, "") in
          let path_query :=
            match strchr p "?" with
            | Some q => if (q <? space2)%nat then with_query q else without_query
            | None => without_query
            end in
          match path_query with
          | None => None
          | Some (path, query) =>
              let p' := str_from (space2 + 1) p in
              let proto_len := String.length p' in
              if (16 <=? proto_len)%nat then None
              else Some (method, path, query, p')
          end
      end
  end.

(** The loop of [parse_header] that advances [val] over spaces and tabs. *)
Fixpoint skip_blanks (val : string) : string :=
  match val with
  | String c rest =>
      if Ascii.eqb c SP || Ascii.eqb c TAB then skip_blanks rest else val
  | "" => ""
  end.

(** [parse_header]: [Some (name, value)] for 0, [None] for -1. *)
Definition parse_header (line : string) : option (string * string) :=
  match strchr line ":" with
  | None => None
  | Some colon =>
      let name_len := colon in
      if (128 <=? name_len)%nat then None else
      let name := str_prefix name_len line in
      let val := skip_blanks (str_from (colon + 1) line) in
      let val_len := String.length val in
      if (512 <=? val_len)%nat then None else Some (name, val)
  end.

(** ** Request/response management *)

(** [create_request]: a zeroed request with a zeroed header container. *)
Definition create_request : NyxHttpRequest :=
  {| method := None; path := None; query_string := None; protocol := None;
     host := None; content_type := None; content_length := 0;
     req_headers := Some zero_dict; req_body := None; req_body_length := 0;
     remote_addr := None; remote_port := 0 |}.

(** [create_response]: status 200, text OK, zeroed otherwise. *)
Definition create_response : NyxHttpResponse :=
  {| status_code := 200; status_text := Some "OK";
     resp_headers := Some zero_dict; body := BodyNull; body_length := 0;
     close_connection := 0 |}.

Definition set_remote (req : NyxHttpRequest) (addr : option string) (port : Z)
  : NyxHttpRequest :=
  {| method := method req; path := path req;
     query_string := query_string req; protocol := protocol req;
     host := host req; content_type := content_type req;
     content_length := content_length req; req_headers := req_headers req;
     req_body := req_body req; req_body_length := req_body_length req;
     remote_addr := addr; remote_port := port |}.

Definition set_request_line (req : NyxHttpRequest)
    (m p q pr : option string) : NyxHttpRequest :=
  {| method := m; path := p; query_string := q; protocol := pr;
     host := host req; content_type := content_type req;
     content_length := content_length req; req_headers := req_headers req;
     req_body := req_body req; req_body_length := req_body_length req;
     remote_addr := remote_addr req; remote_port := remote_port req |}.

Definition set_req_headers (req : NyxHttpRequest) (d : HttpHeaderDict)
  : NyxHttpRequest :=
  {| method := method req; path := path req;
     query_string := query_string req; protocol := protocol req;
     host := host req; content_type := content_type req;
     content_length := content_length req; req_headers := Some d;
     req_body := req_body req; req_body_length := req_body_length req;
     remote_addr := remote_addr req; remote_port := remote_port req |}.

Definition set_host (req : NyxHttpRequest) (h : option string)
  : NyxHttpRequest :=
  {| method := method req; path := path req;
     query_string := query_string req; protocol := protocol req;
     host := h; content_type := content_type req;
     content_length := content_length req; req_headers := req_headers req;
     req_body := req_body req; req_body_length := req_body_length req;
     remote_addr := remote_addr req; remote_port := remote_port req |}.

Definition set_content_type (req : NyxHttpRequest) (t : option string)
  : NyxHttpRequest :=
  {| method := method req; path := path req;
     query_string := query_string req; protocol := protocol req;
     host := host req; content_type := t;
     content_length := content_length req; req_headers := req_headers req;
     req_body := req_body req; req_body_length := req_body_length req;
     remote_addr := remote_addr req; remote_port := remote_port req |}.

Definition set_content_length (req : NyxHttpRequest) (n : Z)
  : NyxHttpRequest :=
  {| method := method req; path := path req;
     query_string := query_string req; protocol := protocol req;
     host := host req; content_type := content_type req;
     content_length := n; req_headers := req_headers req;
     req_body := req_body req; req_body_length := req_body_length req;
     remote_addr := remote_addr req; remote_port := remote_port req |}.

Definition set_resp_headers (resp : NyxHttpResponse) (d : HttpHeaderDict)
  : NyxHttpResponse :=
  {| status_code := status_code resp; status_text := status_text resp;
     resp_headers := Some d; body := body resp;
     body_length := body_length resp;
     close_connection := close_connection resp |}.

(** [resp->status_code = status; resp->body = b; resp->body_length = len] *)
Definition set_status_body (resp : NyxHttpResponse) (status : Z)
    (b : body_ptr) (len : nat) : NyxHttpResponse :=
  {| status_code := status; status_text := status_text resp;
     resp_headers := resp_headers resp; body := b; body_length := len;
     close_connection := close_connection resp |}.

(** ** Response helpers *)

(** [nyx_http_response_set_header]; the response itself is never NULL
    here, its container and the two strings may be. *)
Definition nyx_http_response_set_header (resp : NyxHttpResponse)
    (n v : option string) : NyxHttpResponse :=
  match resp_headers resp, n, v with
  | Some dict, Some n, Some v =>
      if (MAX_HEADERS <=? count dict)%nat then resp
      else
        let entry := {| name := strncpy 127 n; value := strncpy 511 v |} in
        set_resp_headers resp
          {| headers := <[count dict := entry]> (headers dict);
             count := count dict + 1 |}
  | _, _, _ => resp
  end.

Definition body_of (s : option string) : body_ptr :=
  match s with
  | Some b => BodyMem b
  | None => BodyNull
  end.

Definition nyx_http_response_json (resp : NyxHttpResponse) (status : Z)
    (json : option string) : NyxHttpResponse :=
  nyx_http_response_set_header
    (set_status_body resp status (body_of json)
       (from_option String.length 0 json))
    (Some "Content-Type") (Some "application/json").

Definition nyx_http_response_html (resp : NyxHttpResponse) (status : Z)
    (html : option string) : NyxHttpResponse :=
  nyx_http_response_set_header
    (set_status_body resp status (body_of html)
       (from_option String.length 0 html))
    (Some "Content-Type") (Some "text/html; charset=utf-8").

Definition nyx_http_response_text (resp : NyxHttpResponse) (status : Z)
    (text : option string) : NyxHttpResponse :=
  nyx_http_response_set_header
    (set_status_body resp status (body_of text)
       (from_option String.length 0 text))
    (Some "Content-Type") (Some "text/plain; charset=utf-8").

(** The expansion of the format of [nyx_http_response_error]. *)
Definition error_page (status : Z) (message : string) : string :=
  "<html><head><title>" +:+ fmt_d status +:+ " Error</title></head>" +:+
  "<body><h1>" +:+ fmt_d status +:+ " Error</h1><p>" +:+ message +:+
  "</p></body></html>".

(** [nyx_http_response_error]: renders into the static buffer and makes the
    response body point to it. *)
Definition nyx_http_response_error (st : Statics) (resp : NyxHttpResponse)
    (status : Z) (message : option string) : NyxHttpResponse * Statics :=
  let rendered :=
    fst (snprintf 1024 (error_page status (default "Unknown error" message))) in
  (nyx_http_response_set_header
     (set_status_body resp status BodyErrorPage (String.length rendered))
     (Some "Content-Type") (Some "text/html"),
   {| error_body := rendered |}).

(** [nyx_http_response_file]. [fopen_rb path] is the content of the file when
    it can be opened; [malloc_ok] tells whether the buffer is obtained. *)
Definition nyx_http_response_file (fopen_rb : string -> option string)
    (malloc_ok : bool) (st : Statics) (resp : NyxHttpResponse)
    (file_path : string) : Z * NyxHttpResponse * Statics :=
  match fopen_rb file_path with
  | None =>
      let '(r, st') :=
        nyx_http_response_error st resp 404 (Some "File not found") in
      (-1, r, st')%Z
  | Some content =>
      let size := String.length content in
      if negb malloc_ok then
        let '(r, st') :=
          nyx_http_response_error st resp 500
            (Some "Memory allocation failed") in
        (-1, r, st')%Z
      else
        let resp1 := set_status_body resp 200 (BodyMem content) size in
        let resp2 :=
          match strrchr file_path "." with
          | Some dot =>
              let ext := str_from dot file_path in
              if String.eqb ext ".html" || String.eqb ext ".htm" then
                nyx_http_response_set_header resp1
                  (Some "Content-Type") (Some "text/html")
              else if String.eqb ext ".css" then
                nyx_http_response_set_header resp1
                  (Some "Content-Type") (Some "text/css")
              else if String.eqb ext ".js" then
                nyx_http_response_set_header resp1
                  (Some "Content-Type") (Some "application/javascript")
              else if String.eqb ext ".json" then
                nyx_http_response_set_header resp1
                  (Some "Content-Type") (Some "application/json")
              else if String.eqb ext ".png" then
                nyx_http_response_set_header resp1
                  (Some "Content-Type") (Some "image/png")
              else if String.eqb ext ".jpg" || String.eqb ext ".jpeg" then
                nyx_http_response_set_header resp1
                  (Some "Content-Type") (Some "image/jpeg")
              else resp1
          | None => resp1
          end in
        (0, resp2, st)%Z
  end.

(** ** Request helpers *)

(** The scan of [nyx_http_request_get_header] over [headers[i .. i+n-1]]. *)
Fixpoint get_header_from (hs : list HttpHeader) (n i : nat) (key : string)
  : option string :=
  match n with
  | 0 => None
  | S n' =>
      match hs !! i with
      | Some h =>
          if strcasecmp0 (name h) key then Some (value h)
          else get_header_from hs n' (S i) key
      | None => None
      end
  end.

(** [nyx_http_request_get_header]: [None] is the NULL result. *)
Definition nyx_http_request_get_header (req : NyxHttpRequest)
    (key : option string) : option string :=
  match req_headers req, key with
  | Some dict, Some key => get_header_from (headers dict) (count dict) 0 key
  | _, _ => None
  end.

(** ** Server core *)

(** [nyx_httpd_create]: the zeroed server. *)
Definition nyx_httpd_create : NyxHttpServer :=
  {| running := 0;
     routes := replicate MAX_ROUTES zero_route; route_count := 0;
     middlewares := replicate MAX_MIDDLEWARE None;
     middleware_data := replicate MAX_MIDDLEWARE 0%Z;
     middleware_count := 0 |}.

(** [nyx_httpd_route]: the result and the server afterwards. *)
Definition nyx_httpd_route (server : NyxHttpServer)
    (m p : option string) (handler : option NyxHttpHandler) (user_data : Z)
  : Z * NyxHttpServer :=
  match m, p, handler with
  | Some m, Some p, Some h =>
      if (MAX_ROUTES <=? route_count server)%nat then (-1, server)%Z
      else
        let route :=
          {| route_method := strncpy 15 m; route_path := strncpy 255 p;
             route_handler := Some h; route_user_data := user_data |} in
        (0%Z,
         {| running := running server;
            routes := <[route_count server := route]> (routes server);
            route_count := route_count server + 1;
            middlewares := middlewares server;
            middleware_data := middleware_data server;
            middleware_count := middleware_count server |})
  | _, _, _ => (-1, server)%Z
  end.

(** [nyx_httpd_middleware] *)
Definition nyx_httpd_middleware (server : NyxHttpServer)
    (middleware : option NyxHttpHandler) (user_data : Z)
  : Z * NyxHttpServer :=
  match middleware with
  | Some mw =>
      if (MAX_MIDDLEWARE <=? middleware_count server)%nat
      then (-1, server)%Z
      else
        (0%Z,
         {| running := running server;
            routes := routes server; route_count := route_count server;
            middlewares :=
              <[middleware_count server := Some mw]> (middlewares server);
            middleware_data :=
              <[middleware_count server := user_data]> (middleware_data server);
            middleware_count := middleware_count server + 1 |})
  | None => (-1, server)%Z
  end.

(** ** Serialisation *)

(** One [len += snprintf(buffer + len, sizeof(buffer) - len, ...)] of
    [send_response], on the pair (text in [buffer], [len]). Once [len]
    exceeds the buffer, the size argument wraps around and the write
    lands outside the array: the run leaves what the C language defines,
    which [None] stands for here and below; what the machine does from
    there on is not described. *)
Definition buf_snprintf (acc : string * nat) (s : string)
  : option (string * nat) :=
  let '(buffer, len) := acc in
  if (BUFFER_SIZE <? len)%nat then None
  else
    let '(stored, ret) := snprintf (BUFFER_SIZE - len) s in
    Some (buffer +:+ stored, len + ret).

(** The header loop of [send_response] over [headers[i .. i+n-1]]. *)
Fixpoint render_headers (hs : list HttpHeader) (n i : nat)
    (acc : string * nat) : option (string * nat) :=
  match n with
  | 0 => Some acc
  | S n' =>
      h ← hs !! i;
      acc' ← buf_snprintf acc (name h +:+ ": " +:+ value h +:+ CRLF);
      render_headers hs n' (S i) acc'
  end.

(** The conversion [(int)resp->body_length]. *)
Definition int_of_size_t (n : nat) : Z :=
  let r := (Z.of_nat n mod 2 ^ 32)%Z in
  if (r <? 2 ^ 31)%Z then r else (r - 2 ^ 32)%Z.

(** The text a body pointer designates. *)
Definition body_text (st : Statics) (b : body_ptr) : option string :=
  match b with
  | BodyNull => None
  | BodyErrorPage => Some (error_body st)
  | BodyMem bytes => Some bytes
  end.

(** The first [n] bytes at a body pointer. Only the text the pointer
    designates is known; a read that goes past it is not described
    ([None]). *)
Definition read_body (st : Statics) (b : body_ptr) (n : nat) : option string :=
  match body_text st b with
  | Some text =>
      if (n <=? String.length text)%nat then Some (str_prefix n text) else None
  | None => None
  end.

Definition is_null (b : body_ptr) : bool :=
  match b with
  | BodyNull => true
  | _ => false
  end.

(** The first part of [send_response]: the header block rendered into
    [buffer], as the [len] bytes the first [send] is given. With [len]
    above the size of the array, [send] reads past it: not described
    ([None]). *)
Definition render_head (resp : NyxHttpResponse) : option string :=
  acc0 ← buf_snprintf ("", 0)
           ("HTTP/1.1 " +:+ fmt_d (status_code resp) +:+ " " +:+
            default "OK" (status_text resp) +:+ CRLF);
  dict ← resp_headers resp;
  acc1 ← render_headers (headers dict) (count dict) 0 acc0;
  acc2 ← buf_snprintf acc1
           ("Content-Length: " +:+ fmt_zu (body_length resp) +:+ CRLF);
  acc3 ← buf_snprintf acc2 CRLF;
  let '(buffer, len) := acc3 in
  if (BUFFER_SIZE <? len)%nat then None
  else Some (str_prefix len (buffer +:+ String NUL "")).

(** [send_response]: the byte strings given to the successive [send]
    calls as far as they are described, and whether the function got to
    its end within what the C language defines. *)
Definition send_response (st : Statics) (resp : NyxHttpResponse)
  : list string * bool :=
  match render_head resp with
  | None => ([], false)
  | Some head =>
      if negb (is_null (body resp)) && (0 <? body_length resp)%nat then
        let n := int_of_size_t (body_length resp) in
        if (n <? 0)%Z then ([head], false)
        else
          match read_body st (body resp) (Z.to_nat n) with
          | Some bytes => ([head; bytes], true)
          | None => ([head], false)
          end
      else ([head], true)
  end.

(** ** The per-connection pipeline *)

(** What a connection does that is visible from outside, in order. *)
Inductive Event :=
| EvMiddleware (i : nat)
| EvHandler (i : nat)
| EvSend (bytes : string).

Record Conn := {
  c_req : NyxHttpRequest;
  c_resp : NyxHttpResponse;
  c_statics : Statics;
  c_trace : list Event
}.

(** A stage of the pipeline acts on the connection and either yields a
    value or faults ([None]); the connection it returns is the one
    reached at that point. *)
Definition Stage (A : Type) : Type := Conn -> option A * Conn.

Definition ret {A : Type} (a : A) : Stage A := fun c => (Some a, c).

Definition fault {A : Type} : Stage A := fun c => (None, c).

Definition bind {A B : Type} (m : Stage A) (k : A -> Stage B) : Stage B :=
  fun c =>
    match m c with
    | (Some a, c') => k a c'
    | (None, c') => (None, c')
    end.

Notation "x <- m ;; k" := (bind m (fun x => k))
  (at level 100, m at next level, right associativity).
Notation "m ;; k" := (bind m (fun _ => k))
  (at level 100, right associativity).

(** A read that faults when there is nothing to read. *)
Definition of_option {A : Type} (o : option A) : Stage A :=
  match o with
  | Some a => ret a
  | None => fault
  end.

Definition request : Stage NyxHttpRequest := fun c => (Some (c_req c), c).

Definition update (f : Conn -> Conn) : Stage unit := fun c => (Some tt, f c).

(** The block of [handle_client] run when a header line has parsed. *)
Definition store_header (req : NyxHttpRequest) (n v : string)
  : option NyxHttpRequest :=
  hdict ← req_headers req;
  if (count hdict <? MAX_HEADERS)%nat then
    let req1 :=
      set_req_headers req
        {| headers := <[count hdict := {| name := n; value := v |}]> (headers hdict);
           count := count hdict + 1 |} in
    Some
      (if strcasecmp0 n "Host" then set_host req1 (Some v)
       else if strcasecmp0 n "Content-Type" then set_content_type req1 (Some v)
       else if strcasecmp0 n "Content-Length"
            then set_content_length req1 (atoi v mod 2 ^ 64)%Z
       else req1)
  else Some req.

(** The header loop of [handle_client], [header_line] being the text at
    the pointer of that name. Every turn consumes at least three bytes, so
    [fuel] above the length of [header_line] is never exhausted. *)
Fixpoint parse_headers (fuel : nat) (header_line : string)
    (req : NyxHttpRequest) : option NyxHttpRequest :=
  match fuel with
  | 0 => Some req
  | S fuel' =>
      match strstr header_line CRLF with
      | None => Some req
      | Some 0 => Some req
      | Some line_end =>
          req' ← match parse_header (str_prefix line_end header_line) with
                 | Some (n, v) => store_header req n v
                 | None => Some req
                 end;
          parse_headers fuel' (str_from (line_end + 2) header_line) req'
      end
  end.

(** The parsing part of [handle_client], on the request. Without a CRLF in
    the buffer, [line_end] is NULL and the header loop searches from
    [line_end + 2]: a fault. *)
Definition parse_request (buffer : string) (req : NyxHttpRequest)
  : option NyxHttpRequest :=
  match strstr buffer CRLF with
  | None => None
  | Some line_end =>
      let req1 :=
        match parse_request_line (str_prefix line_end buffer) with
        | Some (m, p, q, pr) =>
            set_request_line req (Some m) (Some p) (Some q) (Some pr)
        | None => req
        end in
      parse_headers (S (String.length buffer))
        (str_from (line_end + 2) buffer) req1
  end.

Definition parse_stage (buffer : string) : Stage unit :=
  req <- request ;;
  req' <- of_option (parse_request buffer req) ;;
  update (fun c =>
            {| c_req := req'; c_resp := c_resp c; c_statics := c_statics c;
               c_trace := c_trace c |}).

(** The test of the route loop,
    [strcmp(route->method, req->method) == 0 &&
     strcmp(route->path, req->path) == 0]: the path is compared only when
    the methods are equal. *)
Definition route_matches (route : HttpRoute) (req : NyxHttpRequest)
  : option bool :=
  match strcmp0 (Some (route_method route)) (method req) with
  | None => None
  | Some false => Some false
  | Some true => strcmp0 (Some (route_path route)) (path req)
  end.

(** The call [h(req, resp, user_data)], recorded as event [ev]. *)
Definition invoke (h : NyxHttpHandler) (user_data : Z) (ev : Event)
    (c : Conn) : Conn :=
  let '(resp, st) := h (c_req c) (c_resp c) user_data (c_statics c) in
  {| c_req := c_req c; c_resp := resp; c_statics := st;
     c_trace := c_trace c ++ [ev] |}.

(** A call through a function pointer, which faults when it is NULL. *)
Definition call (h : option NyxHttpHandler) (user_data : Z) (ev : Event)
  : Stage unit :=
  h' <- of_option h ;; update (invoke h' user_data ev).

(** The middleware loop, over entries [i .. i+n-1]. *)
Fixpoint run_middlewares (server : NyxHttpServer) (n i : nat) : Stage unit :=
  match n with
  | 0 => ret tt
  | S n' =>
      mw <- of_option (middlewares server !! i) ;;
      data <- of_option (middleware_data server !! i) ;;
      call mw data (EvMiddleware i) ;;
      run_middlewares server n' (S i)
  end.

(** The route loop, over entries [i .. i+n-1]; the value is [handled]. *)
Fixpoint match_route (server : NyxHttpServer) (n i : nat) : Stage bool :=
  match n with
  | 0 => ret false
  | S n' =>
      route <- of_option (routes server !! i) ;;
      req <- request ;;
      same <- of_option (route_matches route req) ;;
      if same then
        call (route_handler route) (route_user_data route) (EvHandler i) ;;
        ret true
      else match_route server n' (S i)
  end.

(** The default 404 of [handle_client]. *)
Definition default_404 (c : Conn) : Conn :=
  let '(resp, st) :=
    nyx_http_response_error (c_statics c) (c_resp c) 404 (Some "Not Found") in
  {| c_req := c_req c; c_resp := resp; c_statics := st;
     c_trace := c_trace c |}.

(** Route matching followed by the default 404. *)
Definition dispatch (server : NyxHttpServer) : Stage unit :=
  handled <- match_route server (route_count server) 0 ;;
  if handled then ret tt else update default_404.

(** The call of [send_response], each [send] recorded in the trace. *)
Definition send_stage : Stage unit :=
  fun c =>
    let '(writes, finished) := send_response (c_statics c) (c_resp c) in
    ((if finished then Some tt else None),
     {| c_req := c_req c; c_resp := c_resp c; c_statics := c_statics c;
        c_trace := c_trace c ++ (EvSend <$> writes) |}).

(** [handle_client] from the parsing on. *)
Definition pipeline (server : NyxHttpServer) (buffer : string) : Stage unit :=
  parse_stage buffer ;;
  run_middlewares server (middleware_count server) 0 ;;
  dispatch server ;;
  send_stage.

(** How [handle_client] ends: without a response (nothing usable was read),
    at a fault (a step the C language does not define: a NULL pointer
    dereferenced, an access outside an array), or after the cleanup; in
    the last two cases with the connection as it was then. *)
Inductive Outcome :=
| Dropped
| Crashed (c : Conn)
| Completed (c : Conn).

(** [handle_client]. [received] is what [recv] delivers: [None] when it
    fails, otherwise the bytes pending on the socket, of which at most
    [BUFFER_SIZE - 1] are read. *)
Definition handle_client (server : NyxHttpServer) (st : Statics)
    (received : option string) (client_addr : string) (client_port : Z)
  : Outcome :=
  match received with
  | None => Dropped
  | Some pending =>
      let bytes := str_prefix (BUFFER_SIZE - 1) pending in
      if (String.length bytes =? 0)%nat then Dropped
      else
        let c0 :=
          {| c_req := set_remote create_request (Some client_addr) client_port;
             c_resp := create_response; c_statics := st; c_trace := [] |} in
        match pipeline server (c_str bytes) c0 with
        | (Some _, c) => Completed c
        | (None, c) => Crashed c
        end
  end.

End Nyx.

Import Nyx.

(** ** Vocabulary of the statements *)

(** A header container as the server keeps it: the array has its declared
    size, the count stays within it, and the slots from [count] on are still
    the zeroes of [calloc]. The arrays of a server have their declared
    sizes. *)
Definition wf_dict (d : HttpHeaderDict) : Prop :=
  length (headers d) = MAX_HEADERS /\ count d <= MAX_HEADERS /\
  drop (count d) (headers d) = replicate (MAX_HEADERS - count d) zero_header.

Definition wf_server (server : NyxHttpServer) : Prop :=
  length (routes server) = MAX_ROUTES /\
  length (middlewares server) = MAX_MIDDLEWARE /\
  length (middleware_data server) = MAX_MIDDLEWARE.

(** Both counts of a server stay within their arrays. *)
Definition counts_bounded (server : NyxHttpServer) : Prop :=
  route_count server <= MAX_ROUTES /\
  middleware_count server <= MAX_MIDDLEWARE.

(** Entry [j] is the first of the stored entries whose name is [key], up to
    case. *)
Definition first_match (d : HttpHeaderDict) (key : string) (j : nat)
    (h : HttpHeader) : Prop :=
  j < count d /\ headers d !! j = Some h /\ strcasecmp0 (name h) key = true /\
  forall k h', k < j -> headers d !! k = Some h' ->
               strcasecmp0 (name h') key = false.

Definition no_match (d : HttpHeaderDict) (key : string) : Prop :=
  forall k h', k < count d -> headers d !! k = Some h' ->
               strcasecmp0 (name h') key = false.

(** The calls that write the registries of a server. *)
Inductive ServerOp :=
| OpRoute (m p : option string) (handler : option NyxHttpHandler) (user_data : Z)
| OpMiddleware (middleware : option NyxHttpHandler) (user_data : Z).

Definition apply_op (server : NyxHttpServer) (op : ServerOp) : NyxHttpServer :=
  match op with
  | OpRoute m p h ud => snd (nyx_httpd_route server m p h ud)
  | OpMiddleware mw ud => snd (nyx_httpd_middleware server mw ud)
  end.

Definition run_ops (ops : list ServerOp) (server : NyxHttpServer)
  : NyxHttpServer :=
  foldl apply_op server ops.

(** A request whose request line has been parsed to method [m] and path [p]. *)
Definition request_for (m p : string) : NyxHttpRequest :=
  set_request_line create_request (Some m) (Some p) (Some "") (Some "HTTP/1.1").

(** A request line with a query string, and one without. *)
Definition line_with_query (m p q pr : string) : string :=
  m +:+ " " +:+ p +:+ "?" +:+ q +:+ " " +:+ pr.

Definition line_without_query (m p pr : string) : string :=
  m +:+ " " +:+ p +:+ " " +:+ pr.

(** A string of spaces and tabs. *)
Fixpoint blank (ws : string) : bool :=
  match ws with
  | "" => true
  | String c rest => (Ascii.eqb c SP || Ascii.eqb c TAB) && blank rest
  end.

(** The first byte of a header value is neither a space nor a tab. *)
Definition trimmed (v : string) : Prop :=
  match v with
  | String c _ => c <> SP /\ c <> TAB
  | "" => True
  end.

(** A header line: name, colon, blanks, value. *)
Definition header_line (n ws v : string) : string := n +:+ ":" +:+ ws +:+ v.

(** The fields of the request line agree in two requests. *)
Definition same_request_line (a b : NyxHttpRequest) : Prop :=
  method b = method a /\ path b = path a /\
  query_string b = query_string a /\ protocol b = protocol a.

(** Folding a string to lower case, as [strcasecmp] does byte by byte. *)
Fixpoint lower (s : string) : string :=
  match s with
  | "" => ""
  | String c rest => String (tolower c) (lower rest)
  end.

(** The container after the append of an entry. *)
Definition dict_append (d : HttpHeaderDict) (n v : string) : HttpHeaderDict :=
  {| headers := <[count d := {| name := n; value := v |}]> (headers d);
     count := count d + 1 |}.

(** Every registered entry of a server carries a handler. *)
Definition registered (server : NyxHttpServer) : Prop :=
  (forall i, i < middleware_count server ->
     exists mw data, middlewares server !! i = Some (Some mw) /\
                     middleware_data server !! i = Some data) /\
  (forall i, i < route_count server ->
     exists route h, routes server !! i = Some route /\
                     route_handler route = Some h).

(** Route [i] is the first registered route for method [m] and path [p]. *)
Definition first_route (server : NyxHttpServer) (m p : string) (i : nat)
    (route : HttpRoute) : Prop :=
  i < route_count server /\ routes server !! i = Some route /\
  route_method route = m /\ route_path route = p /\
  forall k r, k < i -> routes server !! k = Some r ->
              ~ (route_method r = m /\ route_path r = p).

Definition no_route (server : NyxHttpServer) (m p : string) : Prop :=
  forall k r, k < route_count server -> routes server !! k = Some r ->
              ~ (route_method r = m /\ route_path r = p).

(** The route the route loop settles on among entries [i .. i+n-1], as a
    function of the server and the request alone. *)
Fixpoint selected_route (server : NyxHttpServer) (n i : nat)
    (req : NyxHttpRequest) : option (option nat) :=
  match n with
  | 0 => Some None
  | S n' =>
      match routes server !! i with
      | None => None
      | Some route =>
          match route_matches route req with
          | None => None
          | Some true =>
              match route_handler route with
              | Some _ => Some (Some i)
              | None => None
              end
          | Some false => selected_route server n' (S i) req
          end
      end
  end.

(** The header block of a response on the wire. *)
Definition header_text (h : HttpHeader) : string :=
  name h +:+ ": " +:+ value h +:+ CRLF.

Fixpoint headers_text (hs : list HttpHeader) : string :=
  match hs with
  | [] => ""
  | h :: rest => header_text h +:+ headers_text rest
  end.

Definition status_line (resp : NyxHttpResponse) : string :=
  "HTTP/1.1 " +:+ fmt_d (status_code resp) +:+ " " +:+
  default "OK" (status_text resp) +:+ CRLF.

Definition head_text (resp : NyxHttpResponse) (dict : HttpHeaderDict) : string :=
  status_line resp +:+ headers_text (take (count dict) (headers dict)) +:+
  "Content-Length: " +:+ fmt_zu (body_length resp) +:+ CRLF +:+ CRLF.

(** The suffix-to-MIME table of the file helper, as the specification
    words it: the extension is the part of the path from its last dot. *)
Definition mime_table : list (string * string) :=
  [(".html", "text/html"); (".htm", "text/html"); (".css", "text/css");
   (".js", "application/javascript"); (".json", "application/json");
   (".png", "image/png"); (".jpg", "image/jpeg"); (".jpeg", "image/jpeg")].

Fixpoint table_lookup (table : list (string * string)) (ext : string)
  : option string :=
  match table with
  | [] => None
  | (suffix, mime) :: rest =>
      if String.eqb ext suffix then Some mime else table_lookup rest ext
  end.

Definition mime_of_path (file_path : string) : option string :=
  match strrchr file_path "." with
  | Some dot => table_lookup mime_table (str_from dot file_path)
  | None => None
  end.

(** The text [nyx_http_response_error] leaves in its static buffer. *)
Definition rendered_error (status : Z) (message : option string) : string :=
  str_prefix 1023 (error_page status (default "Unknown error" message)).

(** The lookup of [nyx_http_request_get_header], on the container of a
    response. *)
Definition response_header (resp : NyxHttpResponse) (key : string)
  : option string :=
  match resp_headers resp with
  | Some d => get_header_from (headers d) (count d) 0 key
  | None => None
  end.

(** ** Sample handlers, servers and responses *)

(** [n] copies of a byte. *)
Fixpoint pad (n : nat) (c : ascii) : string :=
  match n with
  | 0 => ""
  | S n' => String c (pad n' c)
  end.

(** The shape of the handlers of test_httpd.c. *)
Definition h_hello : NyxHttpHandler :=
  fun _ resp _ st => (nyx_http_response_html resp 200 (Some "hello"), st).

Definition h_status : NyxHttpHandler :=
  fun _ resp _ st => (nyx_http_response_json resp 200 (Some "{}"), st).

Definition h_no_content : NyxHttpHandler :=
  fun _ resp _ st => (nyx_http_response_text resp 204 (Some ""), st).

Definition logging_middleware : NyxHttpHandler :=
  fun _ resp _ st => (resp, st).

(** One middleware and one route, as in the test program. *)
Definition sample_server : NyxHttpServer :=
  run_ops [OpMiddleware (Some logging_middleware) 0;
           OpRoute (Some "GET") (Some "/") (Some h_hello) 0]
    nyx_httpd_create.

(** The same route registered twice, with different handlers. *)
Definition twice_server : NyxHttpServer :=
  run_ops [OpRoute (Some "GET") (Some "/a") (Some h_hello) 1;
           OpRoute (Some "GET") (Some "/a") (Some h_status) 2]
    nyx_httpd_create.

Definition no_content_server : NyxHttpServer :=
  run_ops [OpRoute (Some "GET") (Some "/") (Some h_no_content) 0]
    nyx_httpd_create.

(** Both registries filled to capacity. *)
Definition full_server : NyxHttpServer :=
  run_ops (replicate MAX_ROUTES (OpRoute (Some "GET") (Some "/") (Some h_hello) 0)
           ++ replicate MAX_MIDDLEWARE (OpMiddleware (Some logging_middleware) 0))
    nyx_httpd_create.

(** A response whose header container is full. *)
Definition full_response : NyxHttpResponse :=
  Nat.iter MAX_HEADERS
    (fun r => nyx_http_response_set_header r (Some "X-Pad") (Some "1"))
    create_response.

(** A response carrying 64 headers of 511-byte values. *)
Definition big_response : NyxHttpResponse :=
  Nat.iter MAX_HEADERS
    (fun r => nyx_http_response_set_header r (Some "X-Pad") (Some (pad 511 "x")))
    create_response.

(** A file system holding one style sheet. *)
Definition one_file (file_path : string) : option string :=
  if String.eqb file_path "style.css" then Some "body{}" else None.

Definition sample_conn (req : NyxHttpRequest) : Conn :=
  {| c_req := req; c_resp := create_response; c_statics := initial_statics;
     c_trace := [] |}.

(** ** Vocabulary of the further properties *)

(** A header line as it arrives, given by name, blanks and value; a block of
    such lines, each closed by CRLF. *)
Definition line_text (l : string * string * string) : string :=
  header_line l.1.1 l.1.2 l.2.

Fixpoint header_block (lines : list (string * string * string)) : string :=
  match lines with
  | [] => ""
  | l :: rest => line_text l +:+ CRLF +:+ header_block rest
  end.

(** A line [parse_header] accepts, which holds no line end. *)
Definition wf_line (l : string * string * string) : Prop :=
  strchr l.1.1 ":" = None /\ blank l.1.2 = true /\ trimmed l.2 /\
  String.length l.1.1 < 128 /\ String.length l.2 < 512 /\
  strstr (line_text l) CRLF = None.

Definition field_of (l : string * string * string) : string * string :=
  (l.1.1, l.2).

(** The store block of the header loop, over parsed (name, value) pairs in
    order. *)
Fixpoint store_headers (req : NyxHttpRequest) (fields : list (string * string))
  : option NyxHttpRequest :=
  match fields with
  | [] => Some req
  | f :: rest =>
      match store_header req f.1 f.2 with
      | Some req' => store_headers req' rest
      | None => None
      end
  end.

(** The request after the request-line block of [handle_client]. *)
Definition with_request_line (line : string) (req : NyxHttpRequest)
  : NyxHttpRequest :=
  match parse_request_line line with
  | Some (m, p, q, pr) =>
      set_request_line req (Some m) (Some p) (Some q) (Some pr)
  | None => req
  end.

(** The entry the store block writes for a parsed pair. *)
Definition header_of (f : string * string) : HttpHeader :=
  {| name := f.1; value := f.2 |}.

(** The entries a container holds. *)
Definition entries (d : HttpHeaderDict) : list HttpHeader :=
  take (count d) (headers d).

(** The value of the first pair whose name is [key], up to case. *)
Fixpoint find_header (fields : list (string * string)) (key : string)
  : option string :=
  match fields with
  | [] => None
  | f :: rest =>
      if strcasecmp0 f.1 key then Some f.2 else find_header rest key
  end.

(** The value of the last such pair. *)
Definition last_header (fields : list (string * string)) (key : string)
  : option string :=
  find_header (reverse fields) key.

(** Every slot of a container holds strings that fit the arrays of
    [HttpHeader] with their terminators. *)
Definition fits (d : HttpHeaderDict) : Prop :=
  Forall (fun h => String.length (name h) < 128 /\
                   String.length (value h) < 512) (headers d).

(** The calls a handler makes on its response. *)
Inductive ResponseOp :=
| RSetHeader (n v : option string)
| RJson (status : Z) (json : option string)
| RHtml (status : Z) (html : option string)
| RText (status : Z) (text : option string)
| RError (status : Z) (message : option string)
| RFile (fopen_rb : string -> option string) (malloc_ok : bool)
        (file_path : string).

Definition apply_response_op (rs : NyxHttpResponse * Statics)
    (op : ResponseOp) : NyxHttpResponse * Statics :=
  match op with
  | RSetHeader n v => (nyx_http_response_set_header rs.1 n v, rs.2)
  | RJson status json => (nyx_http_response_json rs.1 status json, rs.2)
  | RHtml status html => (nyx_http_response_html rs.1 status html, rs.2)
  | RText status text => (nyx_http_response_text rs.1 status text, rs.2)
  | RError status message => nyx_http_response_error rs.2 rs.1 status message
  | RFile fopen_rb malloc_ok file_path =>
      let '(_, resp, st) :=
        nyx_http_response_file fopen_rb malloc_ok rs.2 rs.1 file_path in
      (resp, st)
  end.

Definition run_response_ops (ops : list ResponseOp)
    (rs : NyxHttpResponse * Statics) : NyxHttpResponse * Statics :=
  foldl apply_response_op rs ops.

(** [body_length] is the length of the text [body] designates. *)
Definition body_consistent (st : Statics) (resp : NyxHttpResponse) : Prop :=
  body_length resp = from_option String.length 0 (body_text st (body resp)).

(** A response as the helpers keep it. *)
Definition response_ok (rs : NyxHttpResponse * Statics) : Prop :=
  (exists d, resp_headers rs.1 = Some d /\ wf_dict d /\ fits d) /\
  status_text rs.1 = Some "OK" /\ body_consistent rs.2 rs.1.

(** What [send_response] writes after the header block: the whole body
    text, when there is one and it is not empty. *)
Definition body_writes (st : Statics) (resp : NyxHttpResponse) : list string :=
  match body_text st (body resp) with
  | Some text => if (0 <? String.length text)%nat then [text] else []
  | None => []
  end.

(** The middleware a registration call brings, when it is accepted for its
    arguments; the chain a sequence of calls leaves in a new server. *)
Definition middleware_of (op : ServerOp) : option (NyxHttpHandler * Z) :=
  match op with
  | OpMiddleware (Some mw) ud => Some (mw, ud)
  | _ => None
  end.

Definition accepted_middlewares (ops : list ServerOp)
  : list (NyxHttpHandler * Z) :=
  take MAX_MIDDLEWARE (omap middleware_of ops).

(** The server holds the middlewares [l], in this order. *)
Definition holds_middlewares (server : NyxHttpServer)
    (l : list (NyxHttpHandler * Z)) : Prop :=
  middleware_count server = length l /\
  forall i mw, l !! i = Some mw ->
               middlewares server !! i = Some (Some mw.1) /\
               middleware_data server !! i = Some mw.2.

(** Calling the middlewares [mws] one after the other, the first in slot
    [i], each on the connection the one before left. *)
Fixpoint chain (mws : list (NyxHttpHandler * Z)) (i : nat) (c : Conn) : Conn :=
  match mws with
  | [] => c
  | mw :: rest => chain rest (S i) (invoke mw.1 mw.2 (EvMiddleware i) c)
  end.

(** The connection [handle_client] starts with. *)
Definition fresh_conn (st : Statics) (client_addr : string) (client_port : Z)
  : Conn :=
  {| c_req := set_remote create_request (Some client_addr) client_port;
     c_resp := create_response; c_statics := st; c_trace := [] |}.

Definition with_request (c : Conn) (req : NyxHttpRequest) : Conn :=
  {| c_req := req; c_resp := c_resp c; c_statics := c_statics c;
     c_trace := c_trace c |}.

(** How a run of the pipeline ends. *)
Definition outcome_of (r : option unit * Conn) : Outcome :=
  match r with
  | (Some _, c) => Completed c
  | (None, c) => Crashed c
  end.

(** A response whose header block is exactly as long as the buffer of
    [send_response]: fifteen headers of 520 bytes on the wire and one of
    354, between the 17-byte status line and the 21 bytes of the
    Content-Length line and the blank line. *)
Definition brimful_response : NyxHttpResponse :=
  nyx_http_response_set_header
    (Nat.iter 15
       (fun r =>
          nyx_http_response_set_header r (Some "X-Pad") (Some (pad 511 "x")))
       create_response)
    (Some "X") (Some (pad 349 "x")).

(** ** Facts about the C string routines *)

#[local] Arguments String.append !_ _ / : simpl nomatch.

Section CStrFacts.

Lemma length_app (a b : string) :
  String.length (a +:+ b) = String.length a + String.length b.
Proof. induction a as [|c a IH]; simpl; [done | by rewrite IH]. Qed.

Lemma str_prefix_length (n : nat) (s : string) :
  String.length (str_prefix n s) = n `min` String.length s.
Proof.
  revert s; induction n as [|n IH]; intros [|c s]; simpl; try done.
  by rewrite IH.
Qed.

Lemma str_prefix_all (n : nat) (s : string) :
  String.length s <= n -> str_prefix n s = s.
Proof.
  revert s; induction n as [|n IH]; intros [|c s]; simpl; try done; try lia.
  intros H. rewrite IH; [done | lia].
Qed.

Lemma str_prefix_app (a b : string) :
  str_prefix (String.length a) (a +:+ b) = a.
Proof.
  induction a as [|c a IH]; simpl; [done | by rewrite IH].
Qed.

Lemma str_from_app (a b : string) : str_from (String.length a) (a +:+ b) = b.
Proof. induction a as [|c a IH]; simpl; done. Qed.

Lemma str_from_app_S (a : string) (c : ascii) (b : string) :
  str_from (String.length a + 1) (a +:+ String c b) = b.
Proof.
  induction a as [|x a IH]; simpl; done.
Qed.

Lemma str_from_app_2 (a : string) (c d : ascii) (b : string) :
  str_from (String.length a + 2) (a +:+ String c (String d b)) = b.
Proof.
  induction a as [|x a IH]; simpl; done.
Qed.

Lemma strchr_app_None (a b : string) (c : ascii) :
  strchr a c = None ->
  strchr (a +:+ b) c = (fun i => String.length a + i) <$> strchr b c.
Proof.
  induction a as [|x a IH]; simpl.
  - intros _. by destruct (strchr b c).
  - destruct (Ascii.eqb x c); [done |].
    destruct (strchr a c) eqn:E; [done |]. intros _.
    rewrite IH; [| done]. by destruct (strchr b c).
Qed.

Lemma strchr_app_hit (a b : string) (c : ascii) :
  strchr a c = None -> strchr (a +:+ String c b) c = Some (String.length a).
Proof.
  intros H. rewrite strchr_app_None; [| done]. simpl.
  rewrite Ascii.eqb_refl. simpl. f_equal. lia.
Qed.

Lemma strchr_app_skip (a b : string) (c d : ascii) :
  strchr a c = None -> d <> c ->
  strchr (a +:+ String d b) c = (fun i => String.length a + 1 + i) <$> strchr b c.
Proof.
  intros H Hd. rewrite strchr_app_None; [| done]. simpl.
  destruct (Ascii.eqb_spec d c); [done |].
  destruct (strchr b c); simpl; [f_equal; lia | done].
Qed.

Lemma strcasecmp0_refl (s : string) : strcasecmp0 s s = true.
Proof.
  induction s as [|c s IH]; simpl; [done |]. by rewrite Ascii.eqb_refl, IH.
Qed.

Lemma strcasecmp0_lower (a b : string) :
  strcasecmp0 a b = true <-> lower a = lower b.
Proof.
  revert b; induction a as [|x a IH]; intros [|y b]; simpl; try done.
  rewrite andb_true_iff, IH. split.
  - intros [->%Ascii.eqb_eq ->]. done.
  - intros [= -> ->]. by rewrite Ascii.eqb_refl.
Qed.

End CStrFacts.

(** Rewriting with the facts on prefixes, suffixes and lengths. *)
Create Rewrite HintDb cstr.
#[local] Hint Rewrite length_app str_prefix_app str_from_app str_from_app_S
  str_from_app_2 : cstr.

(** Case analysis on every bound test of the goal; the cases where a test
    succeeds must be immediate. *)
Ltac case_bounds :=
  repeat match goal with
         | |- context [?a <=? ?b] => destruct (Nat.leb_spec a b); [done |]
         end.

(** ** The parsers on lines assembled from their fields *)

Section Parsing.

Lemma str_from_add (a b : nat) (s : string) :
  str_from (a + b) s = str_from b (str_from a s).
Proof.
  revert s; induction a as [|a IH]; intros s; simpl; [done |].
  destruct s as [|c s]; [by destruct b | apply IH].
Qed.

Lemma parse_request_line_with_query (m p q pr : string) :
  strchr m SP = None -> strchr p SP = None -> strchr p "?" = None ->
  strchr q SP = None ->
  parse_request_line (line_with_query m p q pr) =
    if 16 <=? String.length m then None
    else if 256 <=? String.length p then None
    else if 512 <=? String.length q then None
    else if 16 <=? String.length pr then None
    else Some (m, p, q, pr).
Proof.
  intros Hm Hp Hpq Hq. unfold line_with_query, parse_request_line.
  change (m +:+ " " +:+ p +:+ "?" +:+ q +:+ " " +:+ pr)
    with (m +:+ String SP (p +:+ String "?" (q +:+ String SP pr))).
  rewrite strchr_app_hit by done.
  destruct (16 <=? String.length m); [done |].
  rewrite str_from_app_S, str_prefix_app.
  rewrite (strchr_app_skip p _ SP "?") by done.
  rewrite strchr_app_hit by done. simpl fmap.
  rewrite (strchr_app_hit p _ "?") by done.
  replace (String.length p <? String.length p + 1 + String.length q)
    with true by (symmetry; apply Nat.ltb_lt; lia).
  destruct (256 <=? String.length p); [done |].
  replace (String.length p + 1 + String.length q - String.length p - 1)
    with (String.length q) by lia.
  destruct (512 <=? String.length q); [done |].
  rewrite str_prefix_app, str_from_app_S, str_prefix_app.
  replace (String.length p + 1 + String.length q + 1)
    with ((String.length p + 1) + (String.length q + 1)) by lia.
  rewrite str_from_add, !str_from_app_S.
  by destruct (16 <=? String.length pr).
Qed.

Lemma parse_request_line_without_query (m p pr : string) :
  strchr m SP = None -> strchr p SP = None -> strchr p "?" = None ->
  parse_request_line (line_without_query m p pr) =
    if 16 <=? String.length m then None
    else if 256 <=? String.length p then None
    else if 16 <=? String.length pr then None
    else Some (m, p, "", pr).
Proof.
  intros Hm Hp Hpq. unfold line_without_query, parse_request_line.
  change (m +:+ " " +:+ p +:+ " " +:+ pr)
    with (m +:+ String SP (p +:+ String SP pr)).
  rewrite strchr_app_hit by done.
  destruct (16 <=? String.length m); [done |].
  rewrite str_from_app_S, str_prefix_app.
  rewrite (strchr_app_hit p _ SP) by done.
  rewrite (strchr_app_skip p _ "?" SP) by done.
  assert (Hnoq :
    match (fun i => String.length p + 1 + i) <$> strchr pr "?" with
    | Some q0 =>
        if q0 <? String.length p
        then
          if 256 <=? q0 then None
          else if 512 <=? String.length p - q0 - 1 then None
          else Some (str_prefix q0 (p +:+ String SP pr),
                     str_prefix (String.length p - q0 - 1)
                       (str_from (q0 + 1) (p +:+ String SP pr)))
        else
          if 256 <=? String.length p then None
          else Some (str_prefix (String.length p) (p +:+ String SP pr), "")
    | None =>
        if 256 <=? String.length p then None
        else Some (str_prefix (String.length p) (p +:+ String SP pr), "")
    end =
    if 256 <=? String.length p then None else Some (p, "")).
  { rewrite str_prefix_app.
    destruct (strchr pr "?") as [i|]; simpl; [| done].
    replace (String.length p + 1 + i <? String.length p)
      with false by (symmetry; apply Nat.ltb_ge; lia). done. }
  rewrite Hnoq. clear Hnoq.
  destruct (256 <=? String.length p); [done |].
  autorewrite with cstr.
  by destruct (16 <=? String.length pr).
Qed.

Lemma skip_blanks_id (v : string) : trimmed v -> skip_blanks v = v.
Proof.
  destruct v as [|c v]; [done |]. intros [H1 H2]. simpl.
  destruct (Ascii.eqb_spec c SP); [done |].
  by destruct (Ascii.eqb_spec c TAB).
Qed.

Lemma skip_blanks_app (ws v : string) :
  blank ws = true -> trimmed v -> skip_blanks (ws +:+ v) = v.
Proof.
  induction ws as [|c ws IH]; simpl.
  - intros _. apply skip_blanks_id.
  - intros [Hc Hws]%andb_true_iff Hv. rewrite Hc. by apply IH.
Qed.

Lemma parse_header_line (n ws v : string) :
  strchr n ":" = None -> blank ws = true -> trimmed v ->
  parse_header (header_line n ws v) =
    if 128 <=? String.length n then None
    else if 512 <=? String.length v then None
    else Some (n, v).
Proof.
  intros Hn Hws Hv. unfold header_line, parse_header.
  change (n +:+ ":" +:+ ws +:+ v) with (n +:+ String ":" (ws +:+ v)).
  rewrite strchr_app_hit by done.
  destruct (128 <=? String.length n); [done |].
  autorewrite with cstr. rewrite skip_blanks_app by done.
  by destruct (512 <=? String.length v).
Qed.

End Parsing.

(** ** The parsing stage of the pipeline *)

Section ParseStage.

Lemma str_from_length (n : nat) (s : string) :
  String.length (str_from n s) = String.length s - n.
Proof.
  revert s; induction n as [|n IH]; intros [|c s]; simpl; try done; lia.
Qed.

Lemma strstr_CRLF_bound (s : string) (i : nat) :
  strstr s CRLF = Some i -> i + 2 <= String.length s.
Proof.
  revert i; induction s as [|c s IH]; intros i; [done |].
  cbn [strstr]. destruct (starts_with CRLF (String c s)) eqn:E.
  - intros [= <-]. destruct s as [|d s]; simpl in *; [| lia].
    by rewrite andb_false_r in E.
  - destruct (strstr s CRLF) as [j|]; [| done]. intros [= <-].
    specialize (IH j eq_refl). simpl. lia.
Qed.

Lemma strstr_app_CRLF (line rest : string) :
  strstr line CRLF = None ->
  strstr (line +:+ CRLF +:+ rest) CRLF = Some (String.length line).
Proof.
  induction line as [|c line IH]; [done |].
  cbn [strstr]. destruct (starts_with CRLF (String c line)) eqn:E; [done |].
  destruct (strstr line CRLF) eqn:E'; [done |]. intros _.
  change (String c line +:+ CRLF +:+ rest)
    with (String c (line +:+ CRLF +:+ rest)).
  cbn [strstr]. rewrite IH by done.
  replace (starts_with CRLF (String c (line +:+ CRLF +:+ rest)))
    with false; [done |].
  destruct line as [|d line]; simpl in E |- *.
  - by rewrite andb_false_r.
  - by rewrite andb_true_r in *.
Qed.

Lemma store_header_request_line (req req' : NyxHttpRequest) (n v : string) :
  store_header req n v = Some req' -> same_request_line req req'.
Proof.
  unfold store_header, same_request_line.
  destruct (req_headers req) as [d|]; [| done]. simpl.
  destruct (count d <? MAX_HEADERS); [| by intros [= <-]].
  intros [= <-].
  by destruct (strcasecmp0 n "Host"), (strcasecmp0 n "Content-Type"),
    (strcasecmp0 n "Content-Length").
Qed.

Lemma parse_headers_request_line (fuel : nat) (s : string)
    (req req' : NyxHttpRequest) :
  parse_headers fuel s req = Some req' -> same_request_line req req'.
Proof.
  revert s req; induction fuel as [|fuel IH]; intros s req; simpl.
  { by intros [= <-]. }
  destruct (strstr s CRLF) as [[|k]|]; try by intros [= <-].
  destruct (parse_header _) as [[n v]|]; simpl.
  - destruct (store_header req n v) as [r|] eqn:E; [| done]. simpl.
    intros H%IH. apply store_header_request_line in E.
    destruct E as (?&?&?&?), H as (?&?&?&?).
    repeat split; congruence.
  - apply IH.
Qed.

Lemma store_header_has_dict (req : NyxHttpRequest) (n v : string) :
  is_Some (req_headers req) ->
  exists req', store_header req n v = Some req' /\ is_Some (req_headers req').
Proof.
  intros [d Hd]. unfold store_header. rewrite Hd. simpl.
  destruct (count d <? MAX_HEADERS); [| by eauto].
  eexists; split; [done |].
  by destruct (strcasecmp0 n "Host"), (strcasecmp0 n "Content-Type"),
    (strcasecmp0 n "Content-Length").
Qed.

Lemma parse_headers_total (fuel : nat) (s : string) (req : NyxHttpRequest) :
  is_Some (req_headers req) ->
  exists req', parse_headers fuel s req = Some req'.
Proof.
  revert s req; induction fuel as [|fuel IH]; intros s req Hd; simpl.
  { by eauto. }
  destruct (strstr s CRLF) as [[|k]|]; try by eauto.
  destruct (parse_header _) as [[n v]|]; simpl; [| by apply IH].
  destruct (store_header_has_dict req n v Hd) as (r & -> & Hr). simpl.
  by apply IH.
Qed.

(** Fuel above the length of the text is never used up. *)
Lemma parse_headers_fuel (fuel1 fuel2 : nat) (s : string)
    (req : NyxHttpRequest) :
  String.length s < fuel1 -> String.length s < fuel2 ->
  parse_headers fuel1 s req = parse_headers fuel2 s req.
Proof.
  revert fuel2 s req; induction fuel1 as [|fuel1 IH];
    intros [|fuel2] s req H1 H2; try lia.
  cbn [parse_headers]. destruct (strstr s CRLF) as [[|k]|] eqn:E; try done.
  apply strstr_CRLF_bound in E.
  assert (String.length (str_from (S k + 2) s) < String.length s)
    by (rewrite str_from_length; lia).
  destruct (match parse_header _ with Some _ => _ | None => _ end);
    cbn [mbind option_bind]; [| done].
  apply IH; lia.
Qed.

(** One turn of the header loop on a line that does not parse. *)
Lemma parse_headers_skip (fuel : nat) (line rest : string)
    (req : NyxHttpRequest) :
  strstr line CRLF = None -> line <> "" -> parse_header line = None ->
  parse_headers (S fuel) (line +:+ CRLF +:+ rest) req =
  parse_headers fuel rest req.
Proof.
  intros Hl Hne Hp. cbn [parse_headers].
  rewrite strstr_app_CRLF by done.
  destruct (String.length line) as [|k] eqn:Ek.
  { by destruct line. }
  rewrite <- Ek.
  change (line +:+ CRLF +:+ rest)
    with (line +:+ String "013" (String "010" rest)).
  autorewrite with cstr. by rewrite Hp.
Qed.

(** When the first line does not parse, the request leaves the parsing
    stage with the request-line fields it came with. *)
Lemma parse_request_unparsed (line rest : string) (req req' : NyxHttpRequest) :
  strstr line CRLF = None -> parse_request_line line = None ->
  parse_request (line +:+ CRLF +:+ rest) req = Some req' ->
  same_request_line req req'.
Proof.
  intros Hl Hp. unfold parse_request. rewrite strstr_app_CRLF by done.
  change (line +:+ CRLF +:+ rest)
    with (line +:+ String "013" (String "010" rest)).
  rewrite str_prefix_app, Hp. apply parse_headers_request_line.
Qed.

Lemma parse_request_total (line rest : string) (req : NyxHttpRequest) :
  strstr line CRLF = None -> is_Some (req_headers req) ->
  exists req', parse_request (line +:+ CRLF +:+ rest) req = Some req'.
Proof.
  intros Hl Hd. unfold parse_request. rewrite strstr_app_CRLF by done.
  apply parse_headers_total.
  by destruct (parse_request_line _) as [[[[??]?]?]|].
Qed.

End ParseStage.

(** ** The route and middleware registries *)

Section Registries.

Lemma nyx_httpd_route_full (server : NyxHttpServer) (m p : option string)
    (h : option NyxHttpHandler) (ud : Z) :
  MAX_ROUTES <= route_count server ->
  nyx_httpd_route server m p h ud = ((-1)%Z, server).
Proof.
  intros H%Nat.leb_le. unfold nyx_httpd_route. rewrite H.
  by destruct m, p, h.
Qed.

Lemma nyx_httpd_middleware_full (server : NyxHttpServer)
    (mw : option NyxHttpHandler) (ud : Z) :
  MAX_MIDDLEWARE <= middleware_count server ->
  nyx_httpd_middleware server mw ud = ((-1)%Z, server).
Proof.
  intros H%Nat.leb_le. unfold nyx_httpd_middleware. rewrite H.
  by destruct mw.
Qed.

Lemma apply_op_bounded (server : NyxHttpServer) (op : ServerOp) :
  counts_bounded server -> counts_bounded (apply_op server op).
Proof.
  intros [Hr Hm]. destruct op as [m p h ud | mw ud]; simpl.
  - unfold nyx_httpd_route. destruct m, p, h; try done.
    destruct (Nat.leb_spec MAX_ROUTES (route_count server)); [done |].
    split; simpl; [lia | done].
  - unfold nyx_httpd_middleware. destruct mw; try done.
    destruct (Nat.leb_spec MAX_MIDDLEWARE (middleware_count server));
      [done |].
    split; simpl; [done | lia].
Qed.

Lemma run_ops_bounded (ops : list ServerOp) (server : NyxHttpServer) :
  counts_bounded server -> counts_bounded (run_ops ops server).
Proof.
  revert server; induction ops as [|op ops IH]; intros server H; [done |].
  apply IH. by apply apply_op_bounded.
Qed.

Lemma apply_op_wf (server : NyxHttpServer) (op : ServerOp) :
  wf_server server -> wf_server (apply_op server op).
Proof.
  intros (Hr & Hm & Hd). destruct op as [m p h ud | mw ud]; simpl.
  - unfold nyx_httpd_route. destruct m, p, h; try done.
    destruct (MAX_ROUTES <=? route_count server); [done |].
    repeat split; simpl; [by rewrite length_insert | done | done].
  - unfold nyx_httpd_middleware. destruct mw; try done.
    destruct (MAX_MIDDLEWARE <=? middleware_count server); [done |].
    repeat split; simpl; [done | by rewrite length_insert ..].
Qed.

Lemma run_ops_wf (ops : list ServerOp) (server : NyxHttpServer) :
  wf_server server -> wf_server (run_ops ops server).
Proof.
  revert server; induction ops as [|op ops IH]; intros server H; [done |].
  apply IH. by apply apply_op_wf.
Qed.

Lemma nyx_httpd_create_wf : wf_server nyx_httpd_create.
Proof. repeat split; apply length_replicate. Qed.

(** A successful registration appends: the new entry goes to the slot at
    the old count and the entries before it stay, so the order of the
    array is the order of registration. *)
Lemma nyx_httpd_route_appends (server server' : NyxHttpServer)
    (m p : option string) (h : option NyxHttpHandler) (ud : Z) :
  nyx_httpd_route server m p h ud = (0%Z, server') ->
  route_count server' = route_count server + 1 /\
  forall i, i < route_count server ->
            routes server' !! i = routes server !! i.
Proof.
  unfold nyx_httpd_route. destruct m, p, h; try done.
  destruct (MAX_ROUTES <=? route_count server); [done |].
  intros [= <-]. split; [done |]. intros i Hi. simpl.
  apply list_lookup_insert_ne. lia.
Qed.

Lemma nyx_httpd_middleware_appends (server server' : NyxHttpServer)
    (mw : option NyxHttpHandler) (ud : Z) :
  nyx_httpd_middleware server mw ud = (0%Z, server') ->
  middleware_count server' = middleware_count server + 1 /\
  forall i, i < middleware_count server ->
            middlewares server' !! i = middlewares server !! i /\
            middleware_data server' !! i = middleware_data server !! i.
Proof.
  unfold nyx_httpd_middleware. destruct mw; try done.
  destruct (MAX_MIDDLEWARE <=? middleware_count server); [done |].
  intros [= <-]. split; [done |]. intros i Hi. simpl.
  split; apply list_lookup_insert_ne; lia.
Qed.

Lemma str_prefix_shorter (n : nat) (s : string) :
  n < String.length s -> str_prefix n s <> s.
Proof.
  intros H E. pose proof (str_prefix_length n s) as L.
  rewrite E in L. lia.
Qed.

End Registries.

(** ** The header container *)

Section HeaderContainer.

Lemma lookup_None_above (hs : list HttpHeader) (i k : nat) (h : HttpHeader) :
  hs !! i = None -> i <= k -> hs !! k = Some h -> False.
Proof.
  intros Hi Hk Hs. apply lookup_ge_None in Hi.
  apply lookup_lt_Some in Hs. lia.
Qed.

Lemma get_header_from_Some (hs : list HttpHeader) (n i : nat)
    (key v : string) :
  get_header_from hs n i key = Some v <->
  exists j h,
    i <= j < i + n /\ hs !! j = Some h /\
    strcasecmp0 (name h) key = true /\ value h = v /\
    forall k h', i <= k < j -> hs !! k = Some h' ->
                 strcasecmp0 (name h') key = false.
Proof.
  revert i; induction n as [|n IH]; intros i; simpl.
  { split; [done | intros (j & h & ? & _); lia]. }
  destruct (hs !! i) as [h0|] eqn:E.
  - destruct (strcasecmp0 (name h0) key) eqn:M.
    + split.
      * intros [= <-]. exists i, h0.
        repeat split; try done; try lia; intros k h' ?; lia.
      * intros (j & h & Hj & Hl & Hm & Hv & Hmin).
        destruct (decide (j = i)) as [-> | Hne]; [congruence |].
        rewrite (Hmin i h0) in M; [done | lia | done].
    + rewrite IH. split.
      * intros (j & h & Hj & Hl & Hm & Hv & Hmin).
        exists j, h. repeat split; try done; try lia.
        intros k h' Hk Hk'. destruct (decide (k = i)) as [-> | Hne];
          [congruence | apply (Hmin k h'); [lia | done]].
      * intros (j & h & Hj & Hl & Hm & Hv & Hmin).
        destruct (decide (j = i)) as [-> | Hne]; [congruence |].
        exists j, h. repeat split; try done; try lia.
        intros k h' Hk Hk'. apply (Hmin k h'); [lia | done].
  - split; [done |]. intros (j & h & Hj & Hl & _).
    destruct (lookup_None_above hs i j h); [done | lia | done].
Qed.

Lemma get_header_from_None (hs : list HttpHeader) (n i : nat) (key : string) :
  get_header_from hs n i key = None <->
  forall k h', i <= k < i + n -> hs !! k = Some h' ->
               strcasecmp0 (name h') key = false.
Proof.
  revert i; induction n as [|n IH]; intros i; simpl.
  { split; [intros _ k h' ?; lia | done]. }
  destruct (hs !! i) as [h0|] eqn:E.
  - destruct (strcasecmp0 (name h0) key) eqn:M.
    + split; [done |]. intros H. rewrite (H i h0) in M; [done | lia | done].
    + rewrite IH. split.
      * intros H k h' Hk Hk'. destruct (decide (k = i)) as [-> | Hne];
          [congruence | apply (H k h'); [lia | done]].
      * intros H k h' Hk Hk'. apply (H k h'); [lia | done].
  - split; [| done]. intros _ k h' Hk Hk'.
    destruct (lookup_None_above hs i k h'); [done | lia | done].
Qed.

Lemma get_header_Some (req : NyxHttpRequest) (d : HttpHeaderDict)
    (key v : string) :
  req_headers req = Some d ->
  nyx_http_request_get_header req (Some key) = Some v <->
  exists j h, first_match d key j h /\ value h = v.
Proof.
  intros Hd. unfold nyx_http_request_get_header. rewrite Hd.
  rewrite get_header_from_Some. unfold first_match. split.
  - intros (j & h & Hj & Hl & Hm & Hv & Hmin). exists j, h.
    repeat split; try done; try lia.
    intros k h' Hk. apply Hmin. lia.
  - intros (j & h & (Hj & Hl & Hm & Hmin) & Hv). exists j, h.
    repeat split; try done; try lia.
    intros k h' Hk. apply Hmin. lia.
Qed.

Lemma get_header_None (req : NyxHttpRequest) (d : HttpHeaderDict)
    (key : string) :
  req_headers req = Some d ->
  nyx_http_request_get_header req (Some key) = None <-> no_match d key.
Proof.
  intros Hd. unfold nyx_http_request_get_header. rewrite Hd.
  rewrite get_header_from_None. unfold no_match. split.
  - intros H k h' Hk. apply H. lia.
  - intros H k h' Hk. apply H. lia.
Qed.

Lemma set_header_room (resp : NyxHttpResponse) (d : HttpHeaderDict)
    (n v : string) :
  resp_headers resp = Some d -> count d < MAX_HEADERS ->
  nyx_http_response_set_header resp (Some n) (Some v) =
  set_resp_headers resp (dict_append d (str_prefix 127 n) (str_prefix 511 v)).
Proof.
  intros Hd Hc. unfold nyx_http_response_set_header. rewrite Hd.
  by destruct (Nat.leb_spec MAX_HEADERS (count d)); [lia |].
Qed.

Lemma set_header_full (resp : NyxHttpResponse) (d : HttpHeaderDict)
    (n v : option string) :
  resp_headers resp = Some d -> MAX_HEADERS <= count d ->
  nyx_http_response_set_header resp n v = resp.
Proof.
  intros Hd Hc. unfold nyx_http_response_set_header. rewrite Hd.
  destruct n, v; try done.
  by destruct (Nat.leb_spec MAX_HEADERS (count d)); [| lia].
Qed.

Lemma dict_append_wf (d : HttpHeaderDict) (n v : string) :
  wf_dict d -> count d < MAX_HEADERS -> wf_dict (dict_append d n v).
Proof.
  intros (Hl & Hc & Hz) H. unfold wf_dict, dict_append; simpl.
  split; [by rewrite length_insert |]. split; [lia |].
  rewrite drop_insert_lt by lia.
  rewrite <- drop_drop, Hz, drop_replicate. f_equal. lia.
Qed.

Lemma zero_dict_wf : wf_dict zero_dict.
Proof.
  unfold wf_dict, zero_dict; simpl count.
  split; [apply length_replicate |]. split; [unfold MAX_HEADERS; lia |].
  by rewrite drop_0, Nat.sub_0_r.
Qed.

Lemma dict_append_old (d : HttpHeaderDict) (n v : string) (i : nat) :
  i < count d -> headers (dict_append d n v) !! i = headers d !! i.
Proof. intros H. simpl. apply list_lookup_insert_ne. lia. Qed.

Lemma dict_append_new (d : HttpHeaderDict) (n v : string) :
  wf_dict d -> count d < MAX_HEADERS ->
  headers (dict_append d n v) !! count d = Some {| name := n; value := v |}.
Proof.
  intros (Hl & Hc & _) H. simpl. apply list_lookup_insert_eq. lia.
Qed.

(** Lookup after an append: an earlier match wins, otherwise the new
    entry is tried. *)
Lemma get_header_from_append (d : HttpHeaderDict) (n v key : string) :
  wf_dict d -> count d < MAX_HEADERS ->
  get_header_from (headers (dict_append d n v)) (count (dict_append d n v)) 0 key =
  match get_header_from (headers d) (count d) 0 key with
  | Some w => Some w
  | None => if strcasecmp0 n key then Some v else None
  end.
Proof.
  intros Hwf Hc.
  destruct (get_header_from (headers d) (count d) 0 key) as [w|] eqn:E.
  - apply get_header_from_Some in E as (j & h & Hj & Hl & Hm & Hv & Hmin).
    apply get_header_from_Some. exists j, h.
    repeat split; try done; try (simpl; lia).
    + rewrite dict_append_old; [done | lia].
    + intros k h' Hk Hk'. apply (Hmin k h'); [done |].
      rewrite dict_append_old in Hk'; [done | lia].
  - rewrite get_header_from_None in E.
    destruct (strcasecmp0 n key) eqn:M.
    + apply get_header_from_Some. exists (count d), {| name := n; value := v |}.
      repeat split; try done; try (simpl; lia).
      * by apply dict_append_new.
      * intros k h' Hk Hk'. apply (E k h'); [lia |].
        rewrite dict_append_old in Hk'; [done | lia].
    + apply get_header_from_None. intros k h' Hk Hk'.
      destruct (decide (k = count d)) as [-> | Hne].
      * rewrite dict_append_new in Hk' by done. by injection Hk' as <-.
      * simpl in Hk. rewrite dict_append_old in Hk' by lia.
        apply (E k h'); [lia | done].
Qed.

End HeaderContainer.

(** ** Response helpers *)

Section ResponseHelpers.

(** Setting a header touches nothing but the header container. *)
Lemma set_header_fields (resp : NyxHttpResponse) (n v : option string) :
  let r := nyx_http_response_set_header resp n v in
  status_code r = status_code resp /\ status_text r = status_text resp /\
  body r = body resp /\ body_length r = body_length resp /\
  close_connection r = close_connection resp.
Proof.
  unfold nyx_http_response_set_header.
  destruct (resp_headers resp) as [d|], n, v; try done.
  by destruct (MAX_HEADERS <=? count d).
Qed.

Lemma error_response (st : Statics) (resp : NyxHttpResponse) (status : Z)
    (message : option string) :
  exists r,
    nyx_http_response_error st resp status message =
      (r, {| error_body := rendered_error status message |}) /\
    status_code r = status /\ body r = BodyErrorPage /\
    body_length r = String.length (rendered_error status message) /\
    resp_headers r =
      resp_headers
        (nyx_http_response_set_header resp (Some "Content-Type")
           (Some "text/html")).
Proof.
  eexists. split; [reflexivity |].
  pose proof (set_header_fields
    (set_status_body resp status BodyErrorPage
       (String.length (rendered_error status message)))
    (Some "Content-Type") (Some "text/html")) as (H1 & _ & H2 & H3 & _).
  repeat split; try done.
  unfold nyx_http_response_set_header, set_status_body; cbn [resp_headers].
  destruct (resp_headers resp) as [d|] eqn:E;
    [destruct (MAX_HEADERS <=? count d) |]; cbn [resp_headers];
    by rewrite ?E.
Qed.

(** The chain of comparisons of [nyx_http_response_file] agrees with the
    suffix table. *)
Lemma file_content_type (resp : NyxHttpResponse) (d : HttpHeaderDict)
    (ext : string) :
  resp_headers resp = Some d -> count d < MAX_HEADERS ->
  resp_headers
    (if String.eqb ext ".html" || String.eqb ext ".htm" then
       nyx_http_response_set_header resp
         (Some "Content-Type") (Some "text/html")
     else if String.eqb ext ".css" then
       nyx_http_response_set_header resp
         (Some "Content-Type") (Some "text/css")
     else if String.eqb ext ".js" then
       nyx_http_response_set_header resp
         (Some "Content-Type") (Some "application/javascript")
     else if String.eqb ext ".json" then
       nyx_http_response_set_header resp
         (Some "Content-Type") (Some "application/json")
     else if String.eqb ext ".png" then
       nyx_http_response_set_header resp
         (Some "Content-Type") (Some "image/png")
     else if String.eqb ext ".jpg" || String.eqb ext ".jpeg" then
       nyx_http_response_set_header resp
         (Some "Content-Type") (Some "image/jpeg")
     else resp) =
  Some match table_lookup mime_table ext with
       | Some mime => dict_append d "Content-Type" mime
       | None => d
       end.
Proof.
  intros Hd Hc. unfold mime_table, table_lookup.
  repeat match goal with
         | |- context [String.eqb ext ?s] =>
             destruct (String.eqb ext s); cbn [orb];
             [by rewrite (set_header_room resp d _ _ Hd Hc) |]
         end.
  done.
Qed.

End ResponseHelpers.

(** ** Middleware chain and route dispatch *)

Section Dispatch.

Lemma invoke_req (h : NyxHttpHandler) (ud : Z) (ev : Event) (c : Conn) :
  c_req (invoke h ud ev c) = c_req c.
Proof.
  unfold invoke. by destruct (h (c_req c) (c_resp c) ud (c_statics c)).
Qed.

Lemma invoke_trace (h : NyxHttpHandler) (ud : Z) (ev : Event) (c : Conn) :
  c_trace (invoke h ud ev c) = c_trace c ++ [ev].
Proof.
  unfold invoke. by destruct (h (c_req c) (c_resp c) ud (c_statics c)).
Qed.

Lemma apply_op_registered (server : NyxHttpServer) (op : ServerOp) :
  wf_server server -> counts_bounded server -> registered server ->
  registered (apply_op server op).
Proof.
  intros (Hlr & Hlm & Hld) [Hcr Hcm] [Hm Hr].
  destruct op as [m p h ud | mw ud]; simpl.
  - unfold nyx_httpd_route. destruct m as [m|], p as [p|], h as [h|]; try done.
    destruct (Nat.leb_spec MAX_ROUTES (route_count server)); [done |].
    split; simpl; [done |]. intros i Hi.
    destruct (decide (i = route_count server)) as [-> | Hne].
    + eexists _, h. split; [apply list_lookup_insert_eq; lia | done].
    + rewrite list_lookup_insert_ne by done. apply Hr. lia.
  - unfold nyx_httpd_middleware. destruct mw as [mw|]; try done.
    destruct (Nat.leb_spec MAX_MIDDLEWARE (middleware_count server));
      [done |].
    split; simpl; [| done]. intros i Hi.
    destruct (decide (i = middleware_count server)) as [-> | Hne].
    + exists mw, ud. split; apply list_lookup_insert_eq; lia.
    + rewrite !list_lookup_insert_ne by done. apply Hm. lia.
Qed.

Lemma run_ops_registered (ops : list ServerOp) (server : NyxHttpServer) :
  wf_server server -> counts_bounded server -> registered server ->
  registered (run_ops ops server).
Proof.
  revert server; induction ops as [|op ops IH]; intros server ???; [done |].
  apply IH; [by apply apply_op_wf | by apply apply_op_bounded
            | by apply apply_op_registered].
Qed.

Lemma created_registered (ops : list ServerOp) :
  registered (run_ops ops nyx_httpd_create) /\
  wf_server (run_ops ops nyx_httpd_create) /\
  counts_bounded (run_ops ops nyx_httpd_create).
Proof.
  assert (counts_bounded nyx_httpd_create) by (split; simpl; lia).
  assert (registered nyx_httpd_create) by (split; simpl; intros; lia).
  pose proof nyx_httpd_create_wf.
  split; [by apply run_ops_registered |].
  split; [by apply run_ops_wf | by apply run_ops_bounded].
Qed.

(** The middleware loop calls entries [i .. i+n-1] once each, in order, and
    leaves the request as it is. *)
Lemma run_middlewares_trace (server : NyxHttpServer) (n i : nat) (c : Conn) :
  registered server -> i + n <= middleware_count server ->
  exists c',
    run_middlewares server n i c = (Some tt, c') /\
    c_req c' = c_req c /\
    c_trace c' = c_trace c ++ (EvMiddleware <$> seq i n).
Proof.
  intros [Hm _]. revert i c; induction n as [|n IH]; intros i c Hi.
  { exists c. by rewrite app_nil_r. }
  destruct (Hm i) as (mw & data & Hmw & Hdata); [lia |].
  destruct (IH (S i) (invoke mw data (EvMiddleware i) c)) as (c' & Hrun & Hr & Ht);
    [lia |].
  exists c'. split.
  - cbn [run_middlewares]. unfold bind, call, bind. rewrite Hmw, Hdata.
    cbn [of_option ret update]. exact Hrun.
  - rewrite Hr, Ht, invoke_req, invoke_trace. by rewrite <- app_assoc.
Qed.

Lemma route_matches_parsed (route : HttpRoute) (req : NyxHttpRequest)
    (m p : string) :
  method req = Some m -> path req = Some p ->
  route_matches route req =
  Some (bool_decide (route_method route = m /\ route_path route = p)).
Proof.
  intros Hm Hp. unfold route_matches, strcmp0. rewrite Hm, Hp.
  destruct (String.eqb_spec (route_method route) m) as [-> | Hne].
  - destruct (String.eqb_spec (route_path route) p) as [-> | Hne].
    + by rewrite bool_decide_eq_true_2.
    + rewrite bool_decide_eq_false_2; [done | by intros [_ ?]].
  - rewrite bool_decide_eq_false_2; [done | by intros [? _]].
Qed.

Lemma route_matches_unset (route : HttpRoute) (req : NyxHttpRequest) :
  method req = None -> route_matches route req = None.
Proof. intros H. unfold route_matches, strcmp0. by rewrite H. Qed.

Section RouteLoop.

Context (server : NyxHttpServer) (c : Conn) (m p : string).
Hypothesis Hmethod : method (c_req c) = Some m.
Hypothesis Hpath : path (c_req c) = Some p.

(** One turn of the route loop on a request whose line has parsed. *)
Lemma match_route_step (n i : nat) (route : HttpRoute) :
  routes server !! i = Some route ->
  match_route server (S n) i c =
  if bool_decide (route_method route = m /\ route_path route = p)
  then (call (route_handler route) (route_user_data route) (EvHandler i) ;;
        ret true) c
  else match_route server n (S i) c.
Proof.
  intros Hl. cbn [match_route]. unfold bind at 1. rewrite Hl.
  cbn [of_option ret]. unfold bind at 1, request.
  unfold bind at 1. rewrite (route_matches_parsed _ _ m p) by done.
  cbn [of_option ret]. by destruct (bool_decide _).
Qed.

Lemma match_route_first (n i0 i : nat) (route : HttpRoute)
    (h : NyxHttpHandler) :
  i0 <= i < i0 + n -> routes server !! i = Some route ->
  route_method route = m -> route_path route = p ->
  route_handler route = Some h ->
  (forall k r, i0 <= k < i -> routes server !! k = Some r ->
               ~ (route_method r = m /\ route_path r = p)) ->
  match_route server n i0 c =
  (Some true, invoke h (route_user_data route) (EvHandler i) c).
Proof.
  intros Hi Hl Hrm Hrp Hh.
  revert i0 Hi; induction n as [|n IH]; intros i0 Hi Hmin; [lia |].
  destruct (decide (i0 = i)) as [-> | Hne].
  - rewrite (match_route_step _ _ route) by done.
    rewrite bool_decide_eq_true_2 by done.
    unfold bind, call, bind. by rewrite Hh.
  - assert (i0 < length (routes server)) as [r Hr]%lookup_lt_is_Some_2.
    { apply lookup_lt_Some in Hl. lia. }
    rewrite (match_route_step _ _ r) by done.
    rewrite bool_decide_eq_false_2 by (apply (Hmin i0); [lia | done]).
    apply IH; [lia |]. intros k r' Hk. apply Hmin. lia.
Qed.

Lemma match_route_none (n i0 : nat) :
  i0 + n <= length (routes server) ->
  (forall k r, i0 <= k < i0 + n -> routes server !! k = Some r ->
               ~ (route_method r = m /\ route_path r = p)) ->
  match_route server n i0 c = (Some false, c).
Proof.
  revert i0; induction n as [|n IH]; intros i0 Hi Hno; [done |].
  assert (i0 < length (routes server)) as [r Hr]%lookup_lt_is_Some_2 by lia.
  rewrite (match_route_step _ _ r) by done.
  rewrite bool_decide_eq_false_2 by (apply (Hno i0); [lia | done]).
  apply IH; [lia |]. intros k r' Hk. apply Hno. lia.
Qed.

End RouteLoop.

(** With the method unset, the first comparison of the route loop faults. *)
Lemma match_route_unset (server : NyxHttpServer) (n : nat) (c : Conn) :
  is_Some (routes server !! 0) -> method (c_req c) = None ->
  match_route server (S n) 0 c = (None, c).
Proof.
  intros [route Hr] H. cbn [match_route]. unfold bind at 1. rewrite Hr.
  cbn [of_option ret]. unfold bind at 1, request. unfold bind at 1.
  by rewrite route_matches_unset.
Qed.

(** Which route is taken depends on the server and the request only: what
    the middleware chain wrote to the response or to static storage plays
    no part. *)
Lemma match_route_selected (server : NyxHttpServer) (n i : nat) (c : Conn) :
  match_route server n i c =
  match selected_route server n i (c_req c) with
  | None => (None, c)
  | Some None => (Some false, c)
  | Some (Some k) =>
      match routes server !! k with
      | Some route =>
          match route_handler route with
          | Some h =>
              (Some true, invoke h (route_user_data route) (EvHandler k) c)
          | None => (None, c)
          end
      | None => (None, c)
      end
  end.
Proof.
  revert i; induction n as [|n IH]; intros i; [done |].
  cbn [match_route selected_route]. unfold bind at 1.
  destruct (routes server !! i) as [route|] eqn:E; [| done].
  cbn [of_option ret]. unfold bind at 1, request. unfold bind at 1.
  destruct (route_matches route (c_req c)) as [[|]|]; cbn [of_option ret];
    [| apply IH | done].
  unfold bind, call, bind.
  destruct (route_handler route) as [h|] eqn:Eh; [| done].
  by rewrite E, Eh.
Qed.

End Dispatch.

(** ** Serialisation *)

Section Serialisation.

Lemma buf_snprintf_fits (buffer s : string) :
  String.length buffer + String.length s < BUFFER_SIZE ->
  buf_snprintf (buffer, String.length buffer) s =
  Some (buffer +:+ s, String.length (buffer +:+ s)).
Proof.
  intros H. unfold buf_snprintf, snprintf.
  destruct (Nat.ltb_spec BUFFER_SIZE (String.length buffer)); [lia |].
  rewrite str_prefix_all by lia. by rewrite length_app.
Qed.

Lemma append_assoc (a b c : string) : (a +:+ b) +:+ c = a +:+ b +:+ c.
Proof. induction a as [|x a IH]; simpl; [done | by rewrite IH]. Qed.

Lemma render_headers_fits (hs : list HttpHeader) (n i : nat) (buffer : string) :
  i + n <= length hs ->
  String.length buffer + String.length (headers_text (take n (drop i hs)))
    < BUFFER_SIZE ->
  render_headers hs n i (buffer, String.length buffer) =
  Some (buffer +:+ headers_text (take n (drop i hs)),
        String.length (buffer +:+ headers_text (take n (drop i hs)))).
Proof.
  revert i buffer; induction n as [|n IH]; intros i buffer Hi Hfit.
  { simpl. replace (buffer +:+ "") with buffer; [done |].
    clear. induction buffer as [|c b IH]; simpl; [done | by rewrite <- IH]. }
  assert (i < length hs) as [h Hh]%lookup_lt_is_Some_2 by lia.
  rewrite (drop_S _ _ _ Hh) in Hfit |- *.
  cbn [take headers_text] in Hfit |- *. rewrite length_app in Hfit.
  cbn [render_headers]. rewrite Hh. cbn [mbind option_bind].
  fold (header_text h). rewrite buf_snprintf_fits by lia.
  cbn [mbind option_bind]. rewrite IH; [| lia | rewrite length_app; lia].
  by rewrite append_assoc.
Qed.

Lemma int_of_size_t_small (n : nat) :
  (Z.of_nat n < 2 ^ 31)%Z -> int_of_size_t n = Z.of_nat n.
Proof.
  intros H. unfold int_of_size_t.
  rewrite Z.mod_small by lia.
  by destruct (Z.ltb_spec (Z.of_nat n) (2 ^ 31)); [| lia].
Qed.

(** The header block, when it fits the buffer, is what the first [send]
    is given. *)
Lemma render_head_fits (resp : NyxHttpResponse) (dict : HttpHeaderDict) :
  resp_headers resp = Some dict -> count dict <= length (headers dict) ->
  String.length (head_text resp dict) < BUFFER_SIZE ->
  render_head resp = Some (head_text resp dict).
Proof.
  intros Hd Hc Hfit. unfold render_head, head_text in *.
  fold (status_line resp) in *.
  set (sl := status_line resp) in *.
  set (hdrs := headers_text (take (count dict) (headers dict))) in *.
  set (key := "Content-Length: ") in *.
  set (len := fmt_zu (body_length resp)) in *.
  rewrite !length_app in Hfit.
  change (buf_snprintf ("", 0) sl)
    with (buf_snprintf ("", String.length "") sl).
  rewrite (buf_snprintf_fits "" sl)
    by (change (String.length "") with 0; lia).
  cbn [mbind option_bind]. rewrite Hd. cbn [mbind option_bind].
  change ("" +:+ sl) with sl.
  pose proof (render_headers_fits (headers dict) (count dict) 0 sl) as Hr.
  rewrite drop_0 in Hr. fold hdrs in Hr. rewrite Hr by lia. clear Hr.
  cbn [mbind option_bind].
  rewrite buf_snprintf_fits by (rewrite !length_app; lia).
  cbn [mbind option_bind].
  rewrite buf_snprintf_fits by (rewrite !length_app; lia).
  cbn [mbind option_bind].
  rewrite !append_assoc.
  set (head := sl +:+ hdrs +:+ key +:+ len +:+ CRLF +:+ CRLF).
  assert (String.length head < BUFFER_SIZE)
    by (unfold head; rewrite !length_app; lia).
  destruct (Nat.ltb_spec BUFFER_SIZE (String.length head)); [lia |].
  replace (sl +:+ hdrs +:+ key +:+ len +:+ CRLF +:+ CRLF +:+ String NUL "")
    with (head +:+ String NUL "")
    by (unfold head; by rewrite !append_assoc).
  by rewrite str_prefix_app.
Qed.

Lemma fmt_zu_value (n : nat) :
  Nat.of_uint <$> NilZero.uint_of_string (fmt_zu n) = Some n.
Proof.
  unfold fmt_zu.
  destruct (NilZero.usu_gen (Nat.to_uint n)) as [-> | H].
  - simpl. f_equal. apply DecimalNat.Unsigned.of_to.
  - rewrite H. simpl. f_equal.
    destruct (Decimal.uint_eq_dec (Nat.to_uint n) Decimal.Nil) as [E | E].
    + pose proof (DecimalNat.Unsigned.of_to n) as Hn. rewrite E in Hn.
      by rewrite <- Hn.
    + apply NilZero.usu in E. rewrite E in H. injection H as H.
      pose proof (DecimalNat.Unsigned.of_to n) as Hn. rewrite H in Hn.
      by rewrite <- Hn.
Qed.

(** Beyond the buffer: 64 headers of 511-byte values make [len] pass the
    size of the buffer, and the next [snprintf] writes outside the
    array. *)
Example send_response_overflow :
  send_response initial_statics big_response = ([], false).
Proof. vm_compute. reflexivity. Qed.

End Serialisation.

(** ** The pipeline as a whole *)

Section Pipeline.

Lemma c_str_nonempty (bytes : string) :
  c_str bytes <> "" -> (String.length bytes =? 0) = false.
Proof. by destruct bytes. Qed.

Lemma app_CRLF_nonempty (line rest : string) : line +:+ CRLF +:+ rest <> "".
Proof. by destruct line. Qed.

Lemma parse_stage_ok (buffer : string) (c : Conn) (req : NyxHttpRequest) :
  parse_request buffer (c_req c) = Some req ->
  parse_stage buffer c =
  (Some tt, {| c_req := req; c_resp := c_resp c; c_statics := c_statics c;
               c_trace := c_trace c |}).
Proof.
  intros H. unfold parse_stage, bind, request. by rewrite H.
Qed.

Lemma parse_stage_fault (buffer : string) (c : Conn) :
  parse_request buffer (c_req c) = None -> parse_stage buffer c = (None, c).
Proof.
  intros H. unfold parse_stage, bind, request. by rewrite H.
Qed.

(** With a CRLF in the buffer, the pipeline reaches route dispatch after
    running the whole middleware chain, once each and in order, whatever
    the request line was. *)
Lemma handle_client_reaches_dispatch (ops : list ServerOp) (st : Statics)
    (pending line rest addr : string) (port : Z) :
  let server := run_ops ops nyx_httpd_create in
  c_str (str_prefix (BUFFER_SIZE - 1) pending) = line +:+ CRLF +:+ rest ->
  strstr line CRLF = None ->
  exists req c2,
    parse_request (line +:+ CRLF +:+ rest)
      (set_remote create_request (Some addr) port) = Some req /\
    c_req c2 = req /\
    c_trace c2 = EvMiddleware <$> seq 0 (middleware_count server) /\
    handle_client server st (Some pending) addr port =
    match (dispatch server ;; send_stage) c2 with
    | (Some _, c) => Completed c
    | (None, c) => Crashed c
    end.
Proof.
  intros server Hbuf Hline.
  destruct (created_registered ops) as (Hreg & _ & _). fold server in Hreg.
  destruct (parse_request_total line rest
              (set_remote create_request (Some addr) port) Hline)
    as [req Hreq]; [by eexists |].
  destruct (run_middlewares_trace server (middleware_count server) 0
              {| c_req := req; c_resp := create_response; c_statics := st;
                 c_trace := [] |} Hreg)
    as (c2 & Hmw & Hr & Ht); [lia |].
  exists req, c2. repeat split; try done.
  unfold handle_client. rewrite c_str_nonempty, Hbuf.
  - unfold pipeline. unfold bind at 1.
    rewrite (parse_stage_ok _
               {| c_req := set_remote create_request (Some addr) port;
                  c_resp := create_response; c_statics := st;
                  c_trace := [] |} req Hreq).
    cbn [c_resp c_statics c_trace]. unfold bind at 1. by rewrite Hmw.
  - rewrite Hbuf. apply app_CRLF_nonempty.
Qed.

(** The exchange of the test program: one middleware, [GET /] answered
    with an HTML body. *)
Example handle_client_hello :
  exists c,
    handle_client sample_server initial_statics
      (Some ("GET / HTTP/1.1" +:+ CRLF +:+ "Host: x" +:+ CRLF +:+ CRLF))
      "127.0.0.1" 4242 = Completed c /\
    host (c_req c) = Some "x" /\
    c_trace c =
    [EvMiddleware 0; EvHandler 0;
     EvSend ("HTTP/1.1 200 OK" +:+ CRLF +:+
             "Content-Type: text/html; charset=utf-8" +:+ CRLF +:+
             "Content-Length: 5" +:+ CRLF +:+ CRLF);
     EvSend "hello"].
Proof. eexists. split; [| split]; vm_compute; reflexivity. Qed.

End Pipeline.

(** ** More on the parsers: what a successful parse tells *)

Section ParsedLines.

Lemma strchr_bound (s : string) (c : ascii) (i : nat) :
  strchr s c = Some i -> i < String.length s.
Proof.
  revert i; induction s as [|x s IH]; simpl; [done |]. intros i.
  destruct (Ascii.eqb x c); [intros [= <-]; lia |].
  destruct (strchr s c) as [j|]; [| done]. intros [= <-].
  specialize (IH j eq_refl). lia.
Qed.

(** The string splits at the byte [strchr] finds. *)
Lemma strchr_split (s : string) (c : ascii) (i : nat) :
  strchr s c = Some i ->
  s = str_prefix i s +:+ String c (str_from (i + 1) s) /\
  strchr (str_prefix i s) c = None /\
  String.length (str_prefix i s) = i.
Proof.
  revert i; induction s as [|x s IH]; simpl; [done |]. intros i.
  destruct (Ascii.eqb_spec x c) as [-> | Hne].
  - intros [= <-]. done.
  - destruct (strchr s c) as [j|]; [| done]. intros [= <-].
    destruct (IH j eq_refl) as (Hs & Hn & Hl). simpl.
    rewrite <- Hs, Hn, Hl.
    by destruct (Ascii.eqb_spec x c).
Qed.

Lemma strchr_app (a b : string) (c : ascii) :
  strchr (a +:+ b) c =
  match strchr a c with
  | Some i => Some i
  | None => (fun i => String.length a + i) <$> strchr b c
  end.
Proof.
  destruct (strchr a c) as [i|] eqn:E; [| by apply strchr_app_None].
  revert i E; induction a as [|x a IH]; simpl; [done |]. intros i.
  destruct (Ascii.eqb x c); [done |].
  destruct (strchr a c) as [j|]; [| done]. intros [= <-].
  by rewrite (IH j eq_refl).
Qed.

(** The first [c] of [a ++ d :: b] lies beyond [a]: then [a] has none and
    the rest is searched. *)
Lemma strchr_app_beyond (a b : string) (c d : ascii) (i : nat) :
  strchr (a +:+ String d b) c = Some i -> String.length a < i ->
  strchr a c = None /\ d <> c /\ strchr b c = Some (i - String.length a - 1).
Proof.
  rewrite strchr_app. destruct (strchr a c) as [j|] eqn:E.
  - intros [= <-] H. apply strchr_bound in E. lia.
  - simpl. destruct (Ascii.eqb_spec d c) as [-> | Hne].
    + intros [= <-]. lia.
    + destruct (strchr b c) as [j|]; [| done]. intros [= <-] _.
      repeat split; try done. f_equal. lia.
Qed.

Lemma strchr_app_within (a b : string) (c d : ascii) (i : nat) :
  strchr (a +:+ String d b) c = Some i -> i < String.length a ->
  strchr a c = Some i.
Proof.
  rewrite strchr_app. destruct (strchr a c) as [j|] eqn:E; [done |].
  simpl. destruct (Ascii.eqb d c); [intros [= <-]; lia |].
  destruct (strchr b c); [| done]. intros [= <-]. lia.
Qed.

Lemma skip_blanks_split (s : string) :
  exists ws, blank ws = true /\ s = ws +:+ skip_blanks s /\
             trimmed (skip_blanks s).
Proof.
  induction s as [|c s (ws & Hws & Hs & Ht)]; [by exists "" |]. simpl.
  destruct (Ascii.eqb_spec c SP) as [-> | H1]; simpl.
  { exists (String SP ws). simpl. rewrite Hws. split; [done |].
    by rewrite <- Hs. }
  destruct (Ascii.eqb_spec c TAB) as [-> | H2]; simpl.
  { exists (String TAB ws). simpl. rewrite Hws. split; [done |].
    by rewrite <- Hs. }
  by exists "".
Qed.

(** The path of a request line without query string: up to the second
    space, with no [?] before it. *)
Lemma path_without_query (P : string) (s2 : nat) :
  strchr P SP = Some s2 ->
  strchr P "?" = None \/ (exists i, strchr P "?" = Some i /\ s2 <= i) ->
  P = str_prefix s2 P +:+ String SP (str_from (s2 + 1) P) /\
  String.length (str_prefix s2 P) = s2 /\
  strchr (str_prefix s2 P) SP = None /\
  strchr (str_prefix s2 P) "?" = None.
Proof.
  intros E2 Hq. apply strchr_split in E2 as (HP & Hpsp & Hplen).
  repeat split; try done.
  destruct (strchr (str_prefix s2 P) "?") as [j|] eqn:Ej; [| done].
  pose proof (strchr_bound _ _ _ Ej) as Hj.
  rewrite HP, strchr_app, Ej in Hq.
  destruct Hq as [Hq | (i & Hq & Hi)]; [done |].
  injection Hq as <-. lia.
Qed.

(** A successful parse of the request line: where the fields come from. *)
Lemma parse_request_line_Some (line m p q pr : string) :
  parse_request_line line = Some (m, p, q, pr) ->
  String.length m < 16 /\ String.length p < 256 /\
  String.length q < 512 /\ String.length pr < 16 /\
  strchr m SP = None /\ strchr p SP = None /\ strchr p "?" = None /\
  strchr q SP = None /\
  (line = line_with_query m p q pr \/
   q = "" /\ line = line_without_query m p pr).
Proof.
  unfold parse_request_line.
  destruct (strchr line SP) as [s1|] eqn:E1; [| done].
  destruct (Nat.leb_spec 16 s1) as [| Hm]; [done |].
  apply strchr_split in E1 as (Hline & Hmsp & Hmlen).
  set (m0 := str_prefix s1 line) in *.
  set (P := str_from (s1 + 1) line) in *.
  destruct (strchr P SP) as [s2|] eqn:E2; [| done].
  cbv zeta.
  destruct (strchr P "?") as [qi|] eqn:Eq;
    [destruct (Nat.ltb_spec qi s2) as [Hlt | Hge] |].
  - (* a query string *)
    destruct (Nat.leb_spec 256 qi) as [| Hp]; [done |].
    destruct (Nat.leb_spec 512 (s2 - qi - 1)) as [| Hq]; [done |].
    destruct (Nat.leb_spec 16 (String.length (str_from (s2 + 1) P)))
      as [| Hpr]; [done |].
    intros [= <- <- <- <-].
    apply strchr_split in Eq as (HP & Hpq & Hplen).
    set (p0 := str_prefix qi P) in *.
    set (Q := str_from (qi + 1) P) in *.
    rewrite HP in E2.
    apply strchr_app_beyond in E2 as (Hpsp & _ & EQ); [| lia].
    rewrite Hplen in EQ.
    apply strchr_split in EQ as (HQ & Hqsp & Hqlen).
    replace (str_from (s2 + 1) P) with (str_from (s2 - qi - 1 + 1) Q) in *.
    2:{ unfold Q. rewrite <- str_from_add. f_equal. lia. }
    rewrite Hmlen, Hplen, Hqlen. repeat split; try done.
    left. unfold line_with_query.
    rewrite Hline at 1. rewrite HP at 1. by rewrite HQ at 1.
  - destruct (path_without_query P s2 E2) as (HP & Hplen & Hpsp & Hpq);
      [right; by exists qi |].
    destruct (Nat.leb_spec 256 s2) as [| Hp]; [done |].
    destruct (Nat.leb_spec 16 (String.length (str_from (s2 + 1) P)))
      as [| Hpr]; [done |].
    intros [= <- <- <- <-].
    rewrite Hmlen, Hplen. repeat split; try done; try (simpl; lia).
    right. split; [done |]. unfold line_without_query.
    rewrite Hline at 1. by rewrite HP at 1.
  - destruct (path_without_query P s2 E2) as (HP & Hplen & Hpsp & Hpq);
      [by left |].
    destruct (Nat.leb_spec 256 s2) as [| Hp]; [done |].
    destruct (Nat.leb_spec 16 (String.length (str_from (s2 + 1) P)))
      as [| Hpr]; [done |].
    intros [= <- <- <- <-].
    rewrite Hmlen, Hplen. repeat split; try done; try (simpl; lia).
    right. split; [done |]. unfold line_without_query.
    rewrite Hline at 1. by rewrite HP at 1.
Qed.

Lemma parse_header_Some (line n v : string) :
  parse_header line = Some (n, v) ->
  String.length n < 128 /\ String.length v < 512 /\
  strchr n ":" = None /\ trimmed v /\
  exists ws, blank ws = true /\ line = header_line n ws v.
Proof.
  unfold parse_header.
  destruct (strchr line ":") as [colon|] eqn:E; [| done].
  cbv zeta.
  destruct (Nat.leb_spec 128 colon) as [| Hn]; [done |].
  destruct (Nat.leb_spec 512
              (String.length (skip_blanks (str_from (colon + 1) line))))
    as [| Hv]; [done |].
  intros [= <- <-].
  apply strchr_split in E as (Hline & Hcolon & Hlen).
  destruct (skip_blanks_split (str_from (colon + 1) line))
    as (ws & Hws & Hsplit & Htrim).
  rewrite Hlen. repeat split; try done.
  exists ws. split; [done |]. unfold header_line.
  rewrite Hline at 1. by rewrite Hsplit at 1.
Qed.

End ParsedLines.

(** ** Header blocks: parsing, storing and looking up *)

Ltac conjs := repeat match goal with |- _ /\ _ => split end.

Section HeaderBlocks.

Lemma strcasecmp0_key (a k k' : string) :
  lower k = lower k' -> strcasecmp0 a k = strcasecmp0 a k'.
Proof.
  intros Hk.
  destruct (strcasecmp0 a k) eqn:E1, (strcasecmp0 a k') eqn:E2; try done.
  - apply strcasecmp0_lower in E1. rewrite Hk in E1.
    apply strcasecmp0_lower in E1. congruence.
  - apply strcasecmp0_lower in E2. rewrite <- Hk in E2.
    apply strcasecmp0_lower in E2. congruence.
Qed.

Lemma get_header_from_key (hs : list HttpHeader) (n i : nat) (k k' : string) :
  lower k = lower k' ->
  get_header_from hs n i k = get_header_from hs n i k'.
Proof.
  intros Hk. revert i; induction n as [|n IH]; intros i; simpl; [done |].
  destruct (hs !! i) as [h|]; [| done].
  by rewrite (strcasecmp0_key _ k k' Hk), IH.
Qed.

Lemma line_text_nonempty (l : string * string * string) :
  String.length (line_text l) <> 0.
Proof.
  destruct l as [[n ws] v]. unfold line_text, header_line. simpl.
  rewrite length_app. simpl. lia.
Qed.

(** The header loop on a block of accepted lines closed by the blank line:
    the lines are stored in order and what follows is not looked at. *)
Lemma parse_headers_block (lines : list (string * string * string))
    (body : string) (fuel : nat) (req : NyxHttpRequest) :
  Forall wf_line lines ->
  String.length (header_block lines +:+ CRLF +:+ body) < fuel ->
  parse_headers fuel (header_block lines +:+ CRLF +:+ body) req =
  store_headers req (field_of <$> lines).
Proof.
  intros Hwf. revert fuel req.
  induction Hwf as [|l lines Hl _ IH]; intros fuel req Hfuel.
  { destruct fuel; [simpl in Hfuel; lia | done]. }
  destruct fuel as [|fuel]; [lia |].
  destruct Hl as (Hn & Hws & Hv & Hnl & Hvl & Hcrlf).
  cbn [header_block] in *. rewrite !append_assoc in *.
  cbn [parse_headers]. rewrite strstr_app_CRLF by done.
  pose proof (line_text_nonempty l) as Hne.
  destruct (String.length (line_text l)) as [|k] eqn:Ek; [done |].
  rewrite <- Ek.
  change (line_text l +:+ CRLF +:+ header_block lines +:+ CRLF +:+ body)
    with (line_text l +:+
          String "013" (String "010" (header_block lines +:+ CRLF +:+ body)))
    in *.
  autorewrite with cstr. unfold line_text at 1.
  rewrite parse_header_line by done.
  destruct (Nat.leb_spec 128 (String.length l.1.1)); [lia |].
  destruct (Nat.leb_spec 512 (String.length l.2)); [lia |].
  cbn [fmap list_fmap store_headers field_of fst snd].
  destruct (store_header req l.1.1 l.2) as [req'|]; [| done].
  cbn [mbind option_bind]. apply IH.
  rewrite length_app in Hfuel. cbn [String.length] in Hfuel. lia.
Qed.

Lemma parse_request_block (line : string)
    (lines : list (string * string * string)) (body : string)
    (req : NyxHttpRequest) :
  strstr line CRLF = None -> Forall wf_line lines ->
  parse_request (line +:+ CRLF +:+ header_block lines +:+ CRLF +:+ body) req =
  store_headers (with_request_line line req) (field_of <$> lines).
Proof.
  intros Hline Hwf. unfold parse_request.
  rewrite strstr_app_CRLF by done.
  set (rest := header_block lines +:+ CRLF +:+ body).
  change (line +:+ CRLF +:+ rest)
    with (line +:+ String "013" (String "010" rest)).
  autorewrite with cstr. apply parse_headers_block; [done |].
  cbn [String.length]. fold rest. lia.
Qed.

(** The store block on a request whose container has room. *)
Lemma store_header_room (req : NyxHttpRequest) (d : HttpHeaderDict)
    (n v : string) :
  req_headers req = Some d -> count d < MAX_HEADERS ->
  exists req',
    store_header req n v = Some req' /\
    req_headers req' = Some (dict_append d n v) /\
    host req' = (if strcasecmp0 n "Host" then Some v else host req) /\
    content_type req' =
      (if strcasecmp0 n "Content-Type" then Some v else content_type req) /\
    content_length req' =
      (if strcasecmp0 n "Content-Length" then (atoi v mod 2 ^ 64)%Z
       else content_length req) /\
    req_body req' = req_body req /\
    req_body_length req' = req_body_length req /\
    remote_addr req' = remote_addr req /\
    remote_port req' = remote_port req.
Proof.
  intros Hd Hroom. unfold store_header. rewrite Hd. cbn [mbind option_bind].
  destruct (Nat.ltb_spec (count d) MAX_HEADERS) as [_ | ?]; [| lia].
  eexists; split; [done |].
  destruct (strcasecmp0 n "Host") eqn:E1.
  { apply strcasecmp0_lower in E1.
    destruct (strcasecmp0 n "Content-Type") eqn:E2.
    { apply strcasecmp0_lower in E2. rewrite E1 in E2. done. }
    destruct (strcasecmp0 n "Content-Length") eqn:E3.
    { apply strcasecmp0_lower in E3. rewrite E1 in E3. done. }
    done. }
  destruct (strcasecmp0 n "Content-Type") eqn:E2.
  { apply strcasecmp0_lower in E2.
    destruct (strcasecmp0 n "Content-Length") eqn:E3.
    { apply strcasecmp0_lower in E3. rewrite E2 in E3. done. }
    done. }
  by destruct (strcasecmp0 n "Content-Length").
Qed.

Lemma store_header_full (req : NyxHttpRequest) (d : HttpHeaderDict)
    (n v : string) :
  req_headers req = Some d -> MAX_HEADERS <= count d ->
  store_header req n v = Some req.
Proof.
  intros Hd Hfull. unfold store_header. rewrite Hd. cbn [mbind option_bind].
  by destruct (Nat.ltb_spec (count d) MAX_HEADERS) as [? | _]; [lia |].
Qed.

Lemma store_headers_full (req : NyxHttpRequest) (d : HttpHeaderDict)
    (fields : list (string * string)) :
  req_headers req = Some d -> MAX_HEADERS <= count d ->
  store_headers req fields = Some req.
Proof.
  intros Hd Hfull. induction fields as [|f fields IH]; [done |].
  cbn [store_headers]. by rewrite (store_header_full req d).
Qed.

Lemma find_header_app (a b : list (string * string)) (key : string) :
  find_header (a ++ b) key =
  match find_header a key with
  | Some v => Some v
  | None => find_header b key
  end.
Proof.
  induction a as [|f a IH]; [done |]. simpl.
  by destruct (strcasecmp0 f.1 key).
Qed.

(** What the stored headers of a request are after the store block has run
    over [fields]: the fields the container had room for, and the mirrored
    members. *)
Lemma store_headers_spec (fields : list (string * string))
    (req : NyxHttpRequest) (d : HttpHeaderDict) :
  req_headers req = Some d -> wf_dict d ->
  let kept := take (MAX_HEADERS - count d) fields in
  exists req' d',
    store_headers req fields = Some req' /\
    req_headers req' = Some d' /\ wf_dict d' /\
    count d' = count d + length kept /\
    entries d' = entries d ++ (header_of <$> kept) /\
    (forall key,
        get_header_from (headers d') (count d') 0 key =
        match get_header_from (headers d) (count d) 0 key with
        | Some w => Some w
        | None => find_header kept key
        end) /\
    host req' = (match last_header kept "Host" with
                 | Some v => Some v
                 | None => host req
                 end) /\
    content_type req' = (match last_header kept "Content-Type" with
                         | Some v => Some v
                         | None => content_type req
                         end) /\
    content_length req' = (match last_header kept "Content-Length" with
                           | Some v => (atoi v mod 2 ^ 64)%Z
                           | None => content_length req
                           end) /\
    req_body req' = req_body req /\
    req_body_length req' = req_body_length req /\
    remote_addr req' = remote_addr req /\
    remote_port req' = remote_port req.
Proof.
  revert req d; induction fields as [|[n v] fields IH]; intros req d Hd Hwf.
  { cbn zeta. rewrite take_nil. exists req, d.
    do 3 (split; [done |]). split; [simpl; lia |].
    split; [by rewrite app_nil_r |]. split; [| done].
    intros key. by destruct (get_header_from _ _ _ _). }
  cbn zeta.
  destruct (decide (count d < MAX_HEADERS)) as [Hroom | Hfull].
  - destruct (store_header_room req d n v Hd Hroom)
      as (r1 & Hs & Hd1 & Hh & Hct & Hcl & Hb & Hbl & Ha & Hp).
    destruct (IH r1 _ Hd1 (dict_append_wf d n v Hwf Hroom))
      as (req' & d' & Hs' & Hd' & Hwf' & Hc' & He' & Hget & Hh' & Hct' & Hcl'
          & Hb' & Hbl' & Ha' & Hp').
    replace (MAX_HEADERS - count (dict_append d n v))
      with (MAX_HEADERS - count d - 1) in * by (simpl; lia).
    replace (MAX_HEADERS - count d) with (S (MAX_HEADERS - count d - 1))
      by lia.
    cbn [take]. set (kept := take (MAX_HEADERS - count d - 1) fields) in *.
    exists req', d'. cbn [store_headers fst snd]. rewrite Hs.
    split; [done |]. split; [done |]. split; [done |].
    split; [rewrite Hc'; simpl; lia |].
    split.
    { rewrite He'. unfold entries, dict_append. cbn [count headers fmap list_fmap].
      rewrite Nat.add_1_r, (take_S_r _ _ {| name := n; value := v |}).
      - rewrite take_insert_ge by lia. by rewrite <- app_assoc.
      - apply list_lookup_insert_eq. destruct Hwf as (-> & _). lia. }
    split.
    { intros key. rewrite Hget, get_header_from_append by done.
      destruct (get_header_from (headers d) (count d) 0 key); [done |].
      simpl. by destruct (strcasecmp0 n key). }
    unfold last_header in *. rewrite reverse_cons, !find_header_app.
    cbn [find_header fst snd].
    rewrite Hh', Hct', Hcl', Hh, Hct, Hcl, Hb', Hbl', Ha', Hp'.
    repeat split; try done.
    + destruct (find_header (reverse kept) "Host"); [done |].
      by destruct (strcasecmp0 n "Host").
    + destruct (find_header (reverse kept) "Content-Type"); [done |].
      by destruct (strcasecmp0 n "Content-Type").
    + destruct (find_header (reverse kept) "Content-Length"); [done |].
      by destruct (strcasecmp0 n "Content-Length").
  - replace (MAX_HEADERS - count d) with 0 by lia. cbn [take].
    exists req, d. rewrite (store_headers_full req d _ Hd) by lia.
    do 3 (split; [done |]). split; [simpl; lia |].
    split; [by rewrite app_nil_r |]. split; [| done].
    intros key. by destruct (get_header_from _ _ _ _).
Qed.

Lemma zero_dict_fits : fits zero_dict.
Proof. apply Forall_replicate. simpl. lia. Qed.

Lemma dict_append_fits (d : HttpHeaderDict) (n v : string) :
  fits d -> String.length n < 128 -> String.length v < 512 ->
  fits (dict_append d n v).
Proof.
  intros Hf Hn Hv. unfold fits, dict_append. cbn [headers].
  destruct (decide (count d < length (headers d))) as [Hlt | Hge].
  - by apply Forall_insert.
  - by rewrite list_insert_ge by lia.
Qed.

(** The header loop keeps the container of the request in order, whatever
    the text is. *)
Lemma parse_headers_keeps (fuel : nat) (s : string) (req : NyxHttpRequest)
    (d : HttpHeaderDict) :
  req_headers req = Some d -> wf_dict d -> fits d ->
  exists req' d',
    parse_headers fuel s req = Some req' /\
    req_headers req' = Some d' /\ wf_dict d' /\ fits d' /\
    count d <= count d' /\
    (forall i, i < count d -> headers d' !! i = headers d !! i) /\
    same_request_line req req' /\
    req_body req' = req_body req /\
    req_body_length req' = req_body_length req /\
    remote_addr req' = remote_addr req /\
    remote_port req' = remote_port req.
Proof.
  revert s req d; induction fuel as [|fuel IH]; intros s req d Hd Hwf Hfit.
  { exists req, d. by conjs. }
  cbn [parse_headers].
  destruct (strstr s CRLF) as [[|k]|];
    try (exists req, d; by conjs).
  destruct (parse_header (str_prefix (S k) s)) as [[n v]|] eqn:Ep;
    cbn [mbind option_bind]; [| by apply IH].
  apply parse_header_Some in Ep as (Hn & Hv & _).
  destruct (decide (count d < MAX_HEADERS)) as [Hroom | Hfull].
  - destruct (store_header_room req d n v Hd Hroom)
      as (r1 & Hs & Hd1 & _ & _ & _ & Hb & Hbl & Ha & Hp).
    rewrite Hs. cbn [mbind option_bind].
    pose proof (store_header_request_line req r1 n v Hs) as (?&?&?&?).
    destruct (IH (str_from (S k + 2) s) r1 _ Hd1
                (dict_append_wf d n v Hwf Hroom)
                (dict_append_fits d n v Hfit Hn Hv))
      as (req' & d' & -> & Hd' & Hwf' & Hfit' & Hc & Hold & (?&?&?&?) & Hb'
          & Hbl' & Ha' & Hp').
    exists req', d'. conjs; try done; try congruence.
    + simpl in Hc. lia.
    + intros i Hi. rewrite Hold by (simpl; lia). by apply dict_append_old.
    + unfold same_request_line. conjs; congruence.
  - rewrite (store_header_full req d n v Hd) by lia.
    cbn [mbind option_bind]. by apply IH.
Qed.

Lemma parse_request_keeps (buffer : string) (req req' : NyxHttpRequest)
    (d : HttpHeaderDict) :
  req_headers req = Some d -> wf_dict d -> fits d ->
  parse_request buffer req = Some req' ->
  exists d',
    req_headers req' = Some d' /\ wf_dict d' /\ fits d' /\
    count d <= count d' /\
    (forall i, i < count d -> headers d' !! i = headers d !! i) /\
    req_body req' = req_body req /\
    req_body_length req' = req_body_length req /\
    remote_addr req' = remote_addr req /\
    remote_port req' = remote_port req.
Proof.
  intros Hd Hwf Hfit. unfold parse_request.
  destruct (strstr buffer CRLF) as [line_end|]; [| done].
  set (req1 := match parse_request_line _ with Some _ => _ | None => _ end).
  assert (req_headers req1 = Some d /\ req_body req1 = req_body req /\
          req_body_length req1 = req_body_length req /\
          remote_addr req1 = remote_addr req /\
          remote_port req1 = remote_port req) as (Hd1 & Hb & Hbl & Ha & Hp).
  { unfold req1. by destruct (parse_request_line _) as [[[[??]?]?]|]. }
  destruct (parse_headers_keeps (S (String.length buffer))
              (str_from (line_end + 2) buffer) req1 d Hd1 Hwf Hfit)
    as (r & d' & -> & Hd' & Hwf' & Hfit' & Hc & Hold & _ & Hb' & Hbl' & Ha'
        & Hp').
  intros [= <-]. exists d'. conjs; try done; congruence.
Qed.

(** The request line of a parsed message. *)
Lemma parse_request_line_kept (line rest : string)
    (req req' : NyxHttpRequest) :
  strstr line CRLF = None ->
  parse_request (line +:+ CRLF +:+ rest) req = Some req' ->
  same_request_line (with_request_line line req) req'.
Proof.
  intros Hl. unfold parse_request. rewrite strstr_app_CRLF by done.
  change (line +:+ CRLF +:+ rest)
    with (line +:+ String "013" (String "010" rest)).
  rewrite str_prefix_app. apply parse_headers_request_line.
Qed.

End HeaderBlocks.

(** ** Responses built by the helpers *)

Section HelperBuilt.

Lemma set_header_keeps (resp : NyxHttpResponse) (d : HttpHeaderDict)
    (n v : option string) :
  resp_headers resp = Some d -> wf_dict d -> fits d ->
  exists d',
    resp_headers (nyx_http_response_set_header resp n v) = Some d' /\
    wf_dict d' /\ fits d' /\ count d' <= count d + 1 /\
    forall key w,
      get_header_from (headers d) (count d) 0 key = Some w ->
      get_header_from (headers d') (count d') 0 key = Some w.
Proof.
  intros Hd Hwf Hfit.
  destruct (decide (count d < MAX_HEADERS)) as [Hroom | Hfull];
    [destruct n as [n|], v as [v|] |].
  - rewrite (set_header_room resp d n v Hd Hroom). eexists.
    split; [done |]. split; [by apply dict_append_wf |].
    split; [| split; [simpl; lia |]].
    + apply dict_append_fits; [done | |];
        rewrite str_prefix_length; lia.
    + intros key w Hw. by rewrite get_header_from_append, Hw.
  - exists d. unfold nyx_http_response_set_header. rewrite Hd.
    conjs; try done. lia.
  - exists d. unfold nyx_http_response_set_header. rewrite Hd.
    conjs; try done. lia.
  - exists d. unfold nyx_http_response_set_header. rewrite Hd.
    conjs; try done. lia.
  - exists d. rewrite (set_header_full resp d n v Hd) by lia.
    conjs; try done. lia.
Qed.

(** One helper call on a response in order. *)
Lemma apply_response_op_keeps (rs : NyxHttpResponse * Statics)
    (op : ResponseOp) (d : HttpHeaderDict) :
  resp_headers rs.1 = Some d -> wf_dict d -> fits d ->
  status_text rs.1 = Some "OK" -> body_consistent rs.2 rs.1 ->
  exists d',
    resp_headers (apply_response_op rs op).1 = Some d' /\
    wf_dict d' /\ fits d' /\ count d' <= count d + 1 /\
    (forall key w,
        get_header_from (headers d) (count d) 0 key = Some w ->
        get_header_from (headers d') (count d') 0 key = Some w) /\
    status_text (apply_response_op rs op).1 = Some "OK" /\
    body_consistent (apply_response_op rs op).2 (apply_response_op rs op).1.
Proof.
  destruct rs as [resp st]. cbn [fst snd]. intros Hd Hwf Hfit Hst Hbody.
  assert (forall status b len n v,
    body_length (set_status_body resp status b len) =
      from_option String.length 0 (body_text st b) ->
    exists d',
      resp_headers (nyx_http_response_set_header
                      (set_status_body resp status b len) n v) = Some d' /\
      wf_dict d' /\ fits d' /\ count d' <= count d + 1 /\
      (forall key w,
          get_header_from (headers d) (count d) 0 key = Some w ->
          get_header_from (headers d') (count d') 0 key = Some w) /\
      status_text (nyx_http_response_set_header
                     (set_status_body resp status b len) n v) = Some "OK" /\
      body_consistent st (nyx_http_response_set_header
                            (set_status_body resp status b len) n v))
    as Hhelper.
  { intros status b len n v Hlen.
    destruct (set_header_keeps (set_status_body resp status b len) d n v)
      as (d' & Hd' & Hwf' & Hfit' & Hc & Hget); try done.
    destruct (set_header_fields (set_status_body resp status b len) n v)
      as (_ & Ht & Hb & Hl & _).
    exists d'. conjs; try done.
    - by rewrite Ht.
    - unfold body_consistent. by rewrite Hb, Hl. }
  assert (forall status message,
    exists d',
      resp_headers (nyx_http_response_error st resp status message).1 =
        Some d' /\
      wf_dict d' /\ fits d' /\ count d' <= count d + 1 /\
      (forall key w,
          get_header_from (headers d) (count d) 0 key = Some w ->
          get_header_from (headers d') (count d') 0 key = Some w) /\
      status_text (nyx_http_response_error st resp status message).1 =
        Some "OK" /\
      body_consistent (nyx_http_response_error st resp status message).2
        (nyx_http_response_error st resp status message).1) as Herror.
  { intros status message. unfold nyx_http_response_error. cbn [fst snd].
    set (rendered := (snprintf 1024 _).1).
    destruct (set_header_keeps
                (set_status_body resp status BodyErrorPage
                   (String.length rendered)) d
                (Some "Content-Type") (Some "text/html"))
      as (d' & Hd' & Hwf' & Hfit' & Hc & Hget); try done.
    destruct (set_header_fields
                (set_status_body resp status BodyErrorPage
                   (String.length rendered))
                (Some "Content-Type") (Some "text/html"))
      as (_ & Ht & Hb & Hl & _).
    exists d'. conjs; try done.
    - by rewrite Ht.
    - unfold body_consistent. by rewrite Hb, Hl. }
  destruct op as [n v | status json | status html | status text
                 | status message | fopen_rb malloc_ok file_path];
    cbn [apply_response_op fst snd].
  - destruct (set_header_keeps resp d n v)
      as (d' & Hd' & Hwf' & Hfit' & Hc & Hget); try done.
    destruct (set_header_fields resp n v) as (_ & Ht & Hb & Hl & _).
    exists d'. conjs; try done.
    + by rewrite Ht.
    + unfold body_consistent in *. by rewrite Hb, Hl.
  - apply Hhelper. by destruct json.
  - apply Hhelper. by destruct html.
  - apply Hhelper. by destruct text.
  - apply Herror.
  - unfold nyx_http_response_file.
    destruct (fopen_rb file_path) as [content|].
    2:{ destruct (nyx_http_response_error st resp 404 _) as [r st'] eqn:E.
        specialize (Herror 404%Z (Some "File not found")).
        by rewrite E in Herror. }
    destruct malloc_ok; cbn [negb].
    2:{ destruct (nyx_http_response_error st resp 500 _) as [r st'] eqn:E.
        specialize (Herror 500%Z (Some "Memory allocation failed")).
        by rewrite E in Herror. }
    cbn [fst snd].
    set (resp1 := set_status_body resp 200 (BodyMem content)
                    (String.length content)).
    assert (exists d',
      resp_headers resp1 = Some d' /\ wf_dict d' /\ fits d' /\
      count d' <= count d + 1 /\
      (forall key w,
          get_header_from (headers d) (count d) 0 key = Some w ->
          get_header_from (headers d') (count d') 0 key = Some w) /\
      status_text resp1 = Some "OK" /\ body_consistent st resp1) as Hplain.
    { exists d. conjs; try done. lia. }
    destruct (strrchr file_path ".") as [dot|]; [| done].
    repeat match goal with
           | |- context [if ?b then _ else _] => destruct b
           end; try done; by apply Hhelper.
Qed.

Lemma run_response_ops_keeps (ops : list ResponseOp)
    (rs : NyxHttpResponse * Statics) (d : HttpHeaderDict) :
  resp_headers rs.1 = Some d -> wf_dict d -> fits d ->
  status_text rs.1 = Some "OK" -> body_consistent rs.2 rs.1 ->
  exists d',
    resp_headers (run_response_ops ops rs).1 = Some d' /\
    wf_dict d' /\ fits d' /\ count d' <= count d + length ops /\
    (forall key w,
        get_header_from (headers d) (count d) 0 key = Some w ->
        get_header_from (headers d') (count d') 0 key = Some w) /\
    status_text (run_response_ops ops rs).1 = Some "OK" /\
    body_consistent (run_response_ops ops rs).2 (run_response_ops ops rs).1.
Proof.
  revert rs d; induction ops as [|op ops IH]; intros rs d Hd Hwf Hfit Hst Hb.
  { exists d. conjs; try done. simpl. lia. }
  destruct (apply_response_op_keeps rs op d)
    as (d1 & Hd1 & Hwf1 & Hfit1 & Hc1 & Hget1 & Hst1 & Hb1); try done.
  destruct (IH (apply_response_op rs op) d1)
    as (d' & Hd' & Hwf' & Hfit' & Hc' & Hget' & Hst' & Hb'); try done.
  exists d'. cbn [run_response_ops foldl] in *. conjs; try done.
  - simpl. lia.
  - intros key w Hw. by apply Hget', Hget1.
Qed.

(** A response in order goes out whole when its header block fits. *)
Lemma send_response_whole (st : Statics) (resp : NyxHttpResponse)
    (dict : HttpHeaderDict) :
  resp_headers resp = Some dict -> wf_dict dict ->
  body_consistent st resp ->
  String.length (head_text resp dict) < BUFFER_SIZE ->
  (Z.of_nat (body_length resp) < 2 ^ 31)%Z ->
  send_response st resp = (head_text resp dict :: body_writes st resp, true).
Proof.
  intros Hd (Hlen & Hc & _) Hbody Hfit Hsmall.
  unfold send_response, body_writes.
  rewrite (render_head_fits resp dict) by (done || lia).
  unfold body_consistent in Hbody.
  rewrite int_of_size_t_small by done. unfold read_body.
  destruct (body resp) as [| |bytes] eqn:Eb; cbn [is_null negb andb body_text]
    in *; [done | |].
  - rewrite Hbody. cbn [from_option].
    destruct (Nat.ltb_spec 0 (String.length (error_body st))); [| done].
    destruct (Z.ltb_spec (Z.of_nat (String.length (error_body st))) 0);
      [lia |].
    rewrite Nat2Z.id, Nat.leb_refl. by rewrite str_prefix_all.
  - rewrite Hbody. cbn [from_option].
    destruct (Nat.ltb_spec 0 (String.length bytes)); [| done].
    destruct (Z.ltb_spec (Z.of_nat (String.length bytes)) 0); [lia |].
    rewrite Nat2Z.id, Nat.leb_refl. by rewrite str_prefix_all.
Qed.

End HelperBuilt.

(** ** A header block that fills the buffer *)

Section FullBuffer.

Lemma str_prefix_app_more (a b : string) (k : nat) :
  str_prefix (String.length a + k) (a +:+ b) = a +:+ str_prefix k b.
Proof. induction a as [|c a IH]; simpl; [done | by rewrite IH]. Qed.

(** [snprintf] at the end of the text in [buffer], with or without room
    for all of [s]: what does not fit before the last byte of the array
    is cut, and [len] counts it all the same. *)
Lemma buf_snprintf_cut (buffer s : string) :
  String.length buffer <= BUFFER_SIZE ->
  buf_snprintf (buffer, String.length buffer) s =
  Some (buffer +:+ str_prefix (BUFFER_SIZE - String.length buffer - 1) s,
        String.length buffer + String.length s).
Proof.
  intros H. unfold buf_snprintf, snprintf.
  by destruct (Nat.ltb_spec BUFFER_SIZE (String.length buffer)); [lia |].
Qed.

(** The block of exactly [BUFFER_SIZE] bytes: the last [snprintf] has room
    for one byte and the terminator. *)
Lemma render_head_full (resp : NyxHttpResponse) (dict : HttpHeaderDict) :
  resp_headers resp = Some dict -> count dict <= length (headers dict) ->
  String.length (head_text resp dict) = BUFFER_SIZE ->
  render_head resp =
  Some (str_prefix (BUFFER_SIZE - 1) (head_text resp dict) +:+ String NUL "").
Proof.
  intros Hd Hc Hfull. unfold render_head, head_text in *.
  fold (status_line resp) in *.
  set (sl := status_line resp) in *.
  set (hdrs := headers_text (take (count dict) (headers dict))) in *.
  set (key := "Content-Length: ") in *.
  set (len := fmt_zu (body_length resp)) in *.
  rewrite !length_app in Hfull.
  change (String.length CRLF) with 2 in Hfull.
  change (buf_snprintf ("", 0) sl)
    with (buf_snprintf ("", String.length "") sl).
  rewrite (buf_snprintf_fits "" sl)
    by (change (String.length "") with 0; lia).
  cbn [mbind option_bind]. rewrite Hd. cbn [mbind option_bind].
  change ("" +:+ sl) with sl.
  pose proof (render_headers_fits (headers dict) (count dict) 0 sl) as Hr.
  rewrite drop_0 in Hr. fold hdrs in Hr. rewrite Hr by lia. clear Hr.
  cbn [mbind option_bind].
  rewrite buf_snprintf_fits
    by (rewrite !length_app; change (String.length CRLF) with 2; lia).
  cbn [mbind option_bind].
  rewrite !append_assoc.
  set (block := sl +:+ hdrs +:+ key +:+ len +:+ CRLF).
  assert (String.length block + 2 = BUFFER_SIZE) as Hblock.
  { unfold block. rewrite !length_app.
    change (String.length CRLF) with 2. lia. }
  replace (sl +:+ hdrs +:+ key +:+ len +:+ CRLF +:+ CRLF)
    with (block +:+ CRLF) by (unfold block; by rewrite !append_assoc).
  rewrite buf_snprintf_cut by lia. cbn [mbind option_bind].
  replace (BUFFER_SIZE - String.length block - 1) with 1 by lia.
  change (String.length CRLF) with 2.
  destruct (Nat.ltb_spec BUFFER_SIZE (String.length block + 2)); [lia |].
  replace (BUFFER_SIZE - 1) with (String.length block + 1) by lia.
  rewrite str_prefix_app_more. f_equal.
  apply str_prefix_all. rewrite !length_app. simpl. lia.
Qed.

End FullBuffer.

(** ** Registration order *)

Section RegistrationOrder.

Lemma take_take_app {A : Type} (n : nat) (a b : list A) :
  take n (take n a ++ b) = take n (a ++ b).
Proof.
  destruct (decide (length a <= n)) as [Hle | Hgt].
  - by rewrite (take_ge a n) by lia.
  - rewrite !take_app_le by (rewrite ?length_take; lia).
    rewrite take_take. f_equal. lia.
Qed.

Lemma apply_op_holds (server : NyxHttpServer) (op : ServerOp)
    (l : list (NyxHttpHandler * Z)) :
  wf_server server -> middleware_count server <= MAX_MIDDLEWARE ->
  holds_middlewares server l ->
  holds_middlewares (apply_op server op)
    (take MAX_MIDDLEWARE (l ++ option_list (middleware_of op))).
Proof.
  intros (_ & Hlm & Hld) Hc [Hlen Hl].
  assert (take MAX_MIDDLEWARE l = l) as Hsame by (apply take_ge; lia).
  destruct op as [m p h ud | [mw|] ud]; cbn [apply_op middleware_of option_list].
  - rewrite app_nil_r, Hsame. unfold nyx_httpd_route.
    destruct m, p, h; try done.
    by destruct (MAX_ROUTES <=? route_count server).
  - unfold nyx_httpd_middleware.
    destruct (Nat.leb_spec MAX_MIDDLEWARE (middleware_count server)).
    + rewrite take_app_le by lia. by rewrite Hsame.
    + rewrite take_ge by (rewrite List.length_app; simpl; lia).
      cbn [snd]. split; cbn [middleware_count middlewares middleware_data].
      { rewrite List.length_app. simpl. lia. }
      intros i mw' Hi. rewrite Hlen.
      destruct (decide (i = length l)) as [-> | Hne].
      * rewrite lookup_app_r, Nat.sub_diag in Hi by lia.
        injection Hi as <-.
        split; apply list_lookup_insert_eq; lia.
      * rewrite !list_lookup_insert_ne by done. apply Hl.
        apply lookup_lt_Some in Hi as Hlt. rewrite List.length_app in Hlt.
        simpl in Hlt. rewrite lookup_app_l in Hi by lia. done.
  - by rewrite app_nil_r, Hsame.
Qed.

Lemma run_ops_holds (ops : list ServerOp) (server : NyxHttpServer)
    (l : list (NyxHttpHandler * Z)) :
  wf_server server -> counts_bounded server ->
  holds_middlewares server l ->
  holds_middlewares (run_ops ops server)
    (take MAX_MIDDLEWARE (l ++ omap middleware_of ops)).
Proof.
  revert server l; induction ops as [|op ops IH]; intros server l Hwf Hb Hl.
  { cbn [omap list_omap run_ops foldl]. rewrite app_nil_r, take_ge; [done |].
    destruct Hl as [<- _]. apply Hb. }
  cbn [run_ops foldl].
  pose proof (IH (apply_op server op) _ (apply_op_wf _ op Hwf)
                (apply_op_bounded _ op Hb)
                (apply_op_holds _ op l Hwf (proj2 Hb) Hl)) as H.
  rewrite take_take_app, <- app_assoc in H.
  replace (omap middleware_of (op :: ops))
    with (option_list (middleware_of op) ++ omap middleware_of ops); [done |].
  cbn [omap list_omap]. by destruct (middleware_of op).
Qed.

Lemma created_holds (ops : list ServerOp) :
  holds_middlewares (run_ops ops nyx_httpd_create) (accepted_middlewares ops).
Proof.
  apply (run_ops_holds ops nyx_httpd_create []).
  - apply nyx_httpd_create_wf.
  - split; simpl; lia.
  - split; [done |]. intros i mw Hi. by rewrite lookup_nil in Hi.
Qed.

(** The middleware loop over a server holding [l] is the chain of [l]. *)
Lemma run_middlewares_chain (server : NyxHttpServer)
    (l k : list (NyxHttpHandler * Z)) (i : nat) (c : Conn) :
  holds_middlewares server l -> drop i l = k ->
  run_middlewares server (length k) i c = (Some tt, chain k i c).
Proof.
  intros [_ Hl]. revert i c; induction k as [|mw k IH]; intros i c Hk; [done |].
  assert (l !! i = Some mw) as Hi.
  { rewrite <- (Nat.add_0_r i), <- lookup_drop. by rewrite Hk. }
  destruct (Hl i mw Hi) as [Hmw Hdata].
  cbn [length run_middlewares chain]. unfold bind, call, bind.
  rewrite Hmw, Hdata. cbn [of_option ret update].
  apply IH. rewrite (drop_S _ _ _ Hi) in Hk. by injection Hk.
Qed.

Lemma apply_op_routes (server : NyxHttpServer) (op : ServerOp) :
  route_count server <= route_count (apply_op server op) /\
  forall i, i < route_count server ->
            routes (apply_op server op) !! i = routes server !! i.
Proof.
  destruct op as [m p h ud | mw ud]; cbn [apply_op].
  - unfold nyx_httpd_route. destruct m, p, h; try done.
    destruct (MAX_ROUTES <=? route_count server); [done |].
    cbn [snd route_count routes]. split; [lia |]. intros i Hi.
    apply list_lookup_insert_ne. lia.
  - unfold nyx_httpd_middleware. destruct mw; [| done].
    by destruct (MAX_MIDDLEWARE <=? middleware_count server).
Qed.

Lemma first_route_apply_op (server : NyxHttpServer) (op : ServerOp)
    (m p : string) (i : nat) (route : HttpRoute) :
  first_route server m p i route ->
  first_route (apply_op server op) m p i route.
Proof.
  intros (Hi & Hl & Hm & Hp & Hmin).
  destruct (apply_op_routes server op) as [Hc Hsame].
  unfold first_route. conjs; try done.
  - lia.
  - by rewrite Hsame.
  - intros k r Hk. rewrite Hsame by lia. by apply Hmin.
Qed.

Lemma first_route_run_ops (ops : list ServerOp) (server : NyxHttpServer)
    (m p : string) (i : nat) (route : HttpRoute) :
  first_route server m p i route ->
  first_route (run_ops ops server) m p i route.
Proof.
  revert server; induction ops as [|op ops IH]; intros server H; [done |].
  apply IH. by apply first_route_apply_op.
Qed.

(** The route a successful registration stores is the first one for its
    method and path when none was there before. *)
Lemma registered_first_route (server : NyxHttpServer) (m p : string)
    (h : NyxHttpHandler) (ud : Z) :
  wf_server server -> route_count server < MAX_ROUTES ->
  String.length m <= 15 -> String.length p <= 255 ->
  no_route server m p ->
  nyx_httpd_route server (Some m) (Some p) (Some h) ud =
    (0%Z, apply_op server (OpRoute (Some m) (Some p) (Some h) ud)) /\
  first_route (apply_op server (OpRoute (Some m) (Some p) (Some h) ud))
    m p (route_count server)
    {| route_method := m; route_path := p; route_handler := Some h;
       route_user_data := ud |}.
Proof.
  intros (Hlr & _) Hroom Hm Hp Hno. cbn [apply_op].
  unfold nyx_httpd_route, strncpy.
  destruct (Nat.leb_spec MAX_ROUTES (route_count server)); [lia |].
  rewrite !str_prefix_all by done. split; [done |].
  unfold first_route. cbn [snd route_count routes route_method route_path].
  conjs; try done.
  - lia.
  - apply list_lookup_insert_eq. lia.
  - intros k r Hk. rewrite list_lookup_insert_ne by lia. apply Hno. lia.
Qed.

Lemma dispatch_first_route (server : NyxHttpServer) (c : Conn)
    (m p : string) (i : nat) (route : HttpRoute) (h : NyxHttpHandler) :
  method (c_req c) = Some m -> path (c_req c) = Some p ->
  first_route server m p i route -> route_handler route = Some h ->
  dispatch server c =
  (Some tt, invoke h (route_user_data route) (EvHandler i) c).
Proof.
  intros Hm Hp (Hi & Hl & Hrm & Hrp & Hmin) Hh. unfold dispatch, bind.
  rewrite (match_route_first server c m p Hm Hp _ 0 i route h);
    try done; try lia.
  intros k r Hk. apply Hmin. lia.
Qed.

End RegistrationOrder.

(** ** The connection from end to end *)

Section EndToEnd.

Lemma run_middlewares_req (server : NyxHttpServer) (n i : nat) (c : Conn) :
  c_req (run_middlewares server n i c).2 = c_req c.
Proof.
  revert i c; induction n as [|n IH]; intros i c; [done |].
  cbn [run_middlewares]. unfold bind, call, bind.
  destruct (middlewares server !! i) as [mw|]; [| done].
  destruct (middleware_data server !! i) as [data|]; [| done].
  destruct mw as [mw|]; [| done]. cbn [of_option ret update fault].
  by rewrite IH, invoke_req.
Qed.

Lemma match_route_req (server : NyxHttpServer) (n i : nat) (c : Conn) :
  c_req (match_route server n i c).2 = c_req c.
Proof.
  revert i c; induction n as [|n IH]; intros i c; [done |].
  cbn [match_route]. unfold bind, call, bind, request.
  destruct (routes server !! i) as [route|]; [| done].
  cbn [of_option ret].
  destruct (route_matches route (c_req c)) as [[|]|]; [| apply IH | done].
  cbn [of_option ret].
  destruct (route_handler route) as [h|]; [| done].
  cbn [of_option ret update snd]. apply invoke_req.
Qed.

Lemma dispatch_req (server : NyxHttpServer) (c : Conn) :
  c_req (dispatch server c).2 = c_req c.
Proof.
  unfold dispatch, bind.
  pose proof (match_route_req server (route_count server) 0 c) as H.
  destruct (match_route server (route_count server) 0 c) as [[[|]|] c'];
    cbn [snd] in *; done.
Qed.

Lemma send_stage_req (c : Conn) : c_req (send_stage c).2 = c_req c.
Proof. unfold send_stage. by destruct (send_response _ _). Qed.

(** What is left of the pipeline after the parsing leaves the request
    alone. *)
Lemma pipeline_rest_req (server : NyxHttpServer) (c : Conn) :
  c_req ((run_middlewares server (middleware_count server) 0 ;;
          dispatch server ;; send_stage) c).2 = c_req c.
Proof.
  unfold bind.
  pose proof (run_middlewares_req server (middleware_count server) 0 c) as H1.
  destruct (run_middlewares _ _ _ _) as [[[]|] c1]; cbn [snd] in *; [| done].
  pose proof (dispatch_req server c1) as H2.
  destruct (dispatch server c1) as [[[]|] c2]; cbn [snd] in *;
    [| congruence].
  rewrite send_stage_req. congruence.
Qed.

(** [handle_client] on a buffer that holds a line end. *)
Lemma handle_client_stages (ops : list ServerOp) (st : Statics)
    (pending line rest addr : string) (port : Z) :
  let server := run_ops ops nyx_httpd_create in
  c_str (str_prefix (BUFFER_SIZE - 1) pending) = line +:+ CRLF +:+ rest ->
  strstr line CRLF = None ->
  exists req,
    parse_request (line +:+ CRLF +:+ rest)
      (set_remote create_request (Some addr) port) = Some req /\
    handle_client server st (Some pending) addr port =
    outcome_of
      ((dispatch server ;; send_stage)
         (chain (accepted_middlewares ops) 0
            (with_request (fresh_conn st addr port) req))).
Proof.
  intros server Hbuf Hline.
  destruct (parse_request_total line rest
              (set_remote create_request (Some addr) port) Hline)
    as [req Hreq]; [by eexists |].
  exists req. split; [done |].
  unfold handle_client. rewrite c_str_nonempty, Hbuf.
  2:{ rewrite Hbuf. apply app_CRLF_nonempty. }
  fold (fresh_conn st addr port). unfold pipeline. unfold bind at 1.
  rewrite (parse_stage_ok _ (fresh_conn st addr port) req Hreq).
  fold (with_request (fresh_conn st addr port) req).
  unfold bind at 1.
  pose proof (created_holds ops) as Hholds. fold server in Hholds.
  rewrite (proj1 Hholds).
  by rewrite (run_middlewares_chain server (accepted_middlewares ops)
                (accepted_middlewares ops) 0 _ Hholds).
Qed.

End EndToEnd.

(** ** Numerals, NUL bytes and query strings *)

Section Numerals.

Lemma digits_value_uint (d : Decimal.uint) (acc : nat) :
  digits_value (Z.of_nat acc) (NilEmpty.string_of_uint d) =
  Z.of_nat (Nat.of_uint_acc d acc).
Proof.
  revert acc; induction d as [|d IH|d IH|d IH|d IH|d IH|d IH|d IH|d IH|d IH|d IH];
    intros acc; cbn [NilEmpty.string_of_uint Nat.of_uint_acc]; [done | ..];
    match goal with
    | |- digits_value ?a (String ?c ?s) = _ =>
        let v := eval vm_compute in (Z.of_nat (nat_of_ascii c) - 48)%Z in
        change (digits_value a (String c s))
          with (digits_value (10 * a + v) s)
    end;
    rewrite <- IH; f_equal; rewrite Nat.tail_mul_spec; lia.
Qed.

Lemma numeral_fmt_zu (n : nat) : numeral (fmt_zu n) = Z.of_nat n.
Proof.
  unfold fmt_zu. rewrite <- (DecimalNat.Unsigned.of_to n) at 2.
  unfold Nat.of_uint. rewrite <- digits_value_uint.
  by destruct (Nat.to_uint n).
Qed.

(** On a numeral in the range of [int], [atoi] is its value. *)
Lemma atoi_in_range (s : string) :
  (- 2 ^ 31 <= numeral s < 2 ^ 31)%Z -> atoi s = numeral s.
Proof.
  intros H. unfold atoi, strtol, int_of_long, LONG_MAX, LONG_MIN.
  rewrite Z.min_r, Z.max_r by lia.
  destruct (Z.ltb_spec (numeral s mod 2 ^ 32) (2 ^ 31)) as [Hlt | Hge].
  - destruct (Z.le_gt_cases 0 (numeral s)) as [Hpos | Hneg].
    + apply Z.mod_small. lia.
    + rewrite <- (Z.mod_add _ 1) in Hlt by lia.
      rewrite Z.mod_small in Hlt by lia. lia.
  - destruct (Z.le_gt_cases 0 (numeral s)) as [Hpos | Hneg].
    + rewrite Z.mod_small in Hge by lia. lia.
    + rewrite <- (Z.mod_add _ 1) by lia.
      rewrite Z.mod_small by lia. lia.
Qed.

(** [atoi] reads back what [%zu] prints, within the range of [int]. *)
Lemma atoi_fmt_zu (n : nat) :
  (Z.of_nat n < 2 ^ 31)%Z -> atoi (fmt_zu n) = Z.of_nat n.
Proof.
  intros H. rewrite atoi_in_range; rewrite numeral_fmt_zu; lia.
Qed.

End Numerals.

Section NulBytes.

(** The C string in a buffer ends at the first NUL byte. *)
Lemma c_str_cut (a b : string) (n : nat) :
  strchr a NUL = None ->
  c_str (str_prefix n (a +:+ String NUL b)) = c_str (str_prefix n a).
Proof.
  revert n; induction a as [|x a IH]; intros n; simpl.
  { intros _. by destruct n. }
  destruct (Ascii.eqb_spec x NUL) as [-> | Hne]; [done |].
  destruct (strchr a NUL) eqn:E; [done |]. intros _.
  destruct n as [|n]; [done |]. simpl.
  destruct (Ascii.eqb x NUL); [done |]. by rewrite IH.
Qed.

Lemma chain_req (mws : list (NyxHttpHandler * Z)) (i : nat) (c : Conn) :
  c_req (chain mws i c) = c_req c.
Proof.
  revert i c; induction mws as [|mw mws IH]; intros i c; [done |].
  cbn [chain]. by rewrite IH, invoke_req.
Qed.

Lemma chain_trace (mws : list (NyxHttpHandler * Z)) (i : nat) (c : Conn) :
  c_trace (chain mws i c) =
  c_trace c ++ (EvMiddleware <$> seq i (length mws)).
Proof.
  revert i c; induction mws as [|mw mws IH]; intros i c.
  { by rewrite app_nil_r. }
  cbn [chain length seq fmap list_fmap].
  by rewrite IH, invoke_trace, <- app_assoc.
Qed.

End NulBytes.

(** ** The claims of the specification *)

(** C1 (as the code has it): when the first line of the buffer does not parse,
    the request keeps method, path and protocol unset; with at least one route
    registered, route matching then compares the first route's method with
    the unset method, and the connection ends in a fault after the
    middleware chain, with no response sent. *)
Theorem C1_unparsed_request_faults_route_matching
    (ops : list ServerOp) (st : Statics) (pending line rest addr : string)
    (port : Z) :
  let server := run_ops ops nyx_httpd_create in
  0 < route_count server ->
  c_str (str_prefix (BUFFER_SIZE - 1) pending) = line +:+ CRLF +:+ rest ->
  strstr line CRLF = None ->
  parse_request_line line = None ->
  exists c,
    handle_client server st (Some pending) addr port = Crashed c /\
    method (c_req c) = None /\ path (c_req c) = None /\
    protocol (c_req c) = None /\
    c_trace c = EvMiddleware <$> seq 0 (middleware_count server).
Proof.
  intros server Hroutes Hbuf Hline Hparse.
  destruct (handle_client_reaches_dispatch ops st pending line rest addr port
              Hbuf Hline) as (req & c2 & Hreq & Hr & Ht & Hrun).
  fold server in Ht, Hrun.
  apply parse_request_unparsed in Hreq as (Hm & Hp & _ & Hpr); [| done ..].
  exists c2. rewrite Hr. repeat split; try done.
  rewrite Hrun. unfold bind at 1, dispatch, bind.
  destruct (created_registered ops) as ((_ & Hreg) & _ & _).
  destruct (Hreg 0 Hroutes) as (route & _ & Hroute & _). fold server in Hroute.
  destruct (route_count server) as [|n] eqn:E; [lia |].
  rewrite match_route_unset; [done | by eexists | by rewrite Hr].
Qed.

Lemma C1_witness :
  exists c,
    handle_client sample_server initial_statics
      (Some ("BROKEN" +:+ CRLF +:+ CRLF)) "127.0.0.1" 4242 = Crashed c /\
    method (c_req c) = None /\ path (c_req c) = None /\
    protocol (c_req c) = None /\
    c_trace c = [EvMiddleware 0].
Proof.
  apply (C1_unparsed_request_faults_route_matching
           [OpMiddleware (Some logging_middleware) 0;
            OpRoute (Some "GET") (Some "/") (Some h_hello) 0]
           initial_statics ("BROKEN" +:+ CRLF +:+ CRLF) "BROKEN" CRLF
           "127.0.0.1" 4242).
  - vm_compute. lia.
  - vm_compute. reflexivity.
  - vm_compute. reflexivity.
  - vm_compute. reflexivity.
Defined.

(** C2: route dispatch scans the routes in registration order; the first
    route whose method and path equal the request's is selected and its
    handler, and no other, is called; when no registered route matches, the
    response is the 404 error page, whose body contains "Not Found". *)
Theorem C2_route_dispatch (server : NyxHttpServer) (c : Conn) (m p : string) :
  route_count server <= length (routes server) ->
  method (c_req c) = Some m -> path (c_req c) = Some p ->
  (forall i route h,
      first_route server m p i route -> route_handler route = Some h ->
      exists resp st,
        h (c_req c) (c_resp c) (route_user_data route) (c_statics c) = (resp, st) /\
        dispatch server c =
        (Some tt, {| c_req := c_req c; c_resp := resp; c_statics := st;
                     c_trace := c_trace c ++ [EvHandler i] |})) /\
  (no_route server m p ->
   exists resp st,
     dispatch server c =
     (Some tt, {| c_req := c_req c; c_resp := resp; c_statics := st;
                  c_trace := c_trace c |}) /\
     status_code resp = 404%Z /\
     body_text st (body resp) =
       Some ("<html><head><title>404 Error</title></head>" +:+
             "<body><h1>404 Error</h1><p>" +:+ "Not Found" +:+
             "</p></body></html>") /\
     body_length resp = 97).
Proof.
  intros Hlen Hm Hp. split.
  - intros i route h (Hi & Hl & Hrm & Hrp & Hmin) Hh.
    destruct (h (c_req c) (c_resp c) (route_user_data route) (c_statics c))
      as [resp st] eqn:E.
    exists resp, st. split; [done |]. unfold dispatch, bind.
    rewrite (match_route_first server c m p Hm Hp _ 0 i route h);
      try done; try lia.
    + unfold ret, invoke. by rewrite E.
    + intros k r Hk. apply Hmin. lia.
  - intros Hno. unfold dispatch, bind.
    rewrite (match_route_none server c m p Hm Hp); try done.
    + unfold update, default_404.
      destruct (error_response (c_statics c) (c_resp c) 404 (Some "Not Found"))
        as (r & -> & Hs & Hb & Hl & _).
      eexists r, _. split; [done |]. rewrite Hs, Hb, Hl. done.
    + intros k r Hk. apply Hno. lia.
Qed.

Lemma C2_witness :
  (exists resp st,
     h_hello (request_for "GET" "/a") create_response 1%Z initial_statics = (resp, st) /\
     dispatch twice_server (sample_conn (request_for "GET" "/a")) =
     (Some tt, {| c_req := request_for "GET" "/a"; c_resp := resp;
                  c_statics := st; c_trace := [EvHandler 0] |})) /\
  (exists resp st,
     dispatch twice_server (sample_conn (request_for "GET" "/b")) =
     (Some tt, {| c_req := request_for "GET" "/b"; c_resp := resp;
                  c_statics := st; c_trace := [] |}) /\
     status_code resp = 404%Z /\
     body_text st (body resp) =
       Some ("<html><head><title>404 Error</title></head>" +:+
             "<body><h1>404 Error</h1><p>" +:+ "Not Found" +:+
             "</p></body></html>") /\
     body_length resp = 97).
Proof.
  split.
  - apply (proj1 (C2_route_dispatch twice_server
                    (sample_conn (request_for "GET" "/a")) "GET" "/a"
                    ltac:(vm_compute; lia) eq_refl eq_refl)
             0 {| route_method := "GET"; route_path := "/a";
                  route_handler := Some h_hello; route_user_data := 1 |}
             h_hello).
    + repeat split; try reflexivity.
      * vm_compute. lia.
      * intros k r Hk. lia.
    + reflexivity.
  - apply (proj2 (C2_route_dispatch twice_server
                    (sample_conn (request_for "GET" "/b")) "GET" "/b"
                    ltac:(vm_compute; lia) eq_refl eq_refl)).
    intros k r Hk Hr [_ Hpath].
    change (route_count twice_server) with 2 in Hk.
    destruct k as [|[|k]]; [| | lia]; vm_compute in Hr;
      injection Hr as <-; discriminate Hpath.
Defined.

(** C3: once 256 routes (32 middleware entries) are registered, a further
    registration returns -1 and leaves the server, hence the registry's
    entries and count, as it was; and from creation on, under any sequence of
    registrations, the route count stays within 256 and the middleware count
    within 32. *)
Theorem C3_registries_bounded :
  (forall server m p h ud,
      route_count server = MAX_ROUTES ->
      nyx_httpd_route server m p h ud = ((-1)%Z, server)) /\
  (forall server mw ud,
      middleware_count server = MAX_MIDDLEWARE ->
      nyx_httpd_middleware server mw ud = ((-1)%Z, server)) /\
  (forall ops,
      route_count (run_ops ops nyx_httpd_create) <= MAX_ROUTES /\
      middleware_count (run_ops ops nyx_httpd_create) <= MAX_MIDDLEWARE).
Proof.
  split; [| split].
  - intros server m p h ud H. apply nyx_httpd_route_full. lia.
  - intros server mw ud H. apply nyx_httpd_middleware_full. lia.
  - intros ops. apply (run_ops_bounded ops nyx_httpd_create).
    split; simpl; lia.
Qed.

Lemma C3_witness :
  nyx_httpd_route full_server (Some "POST") (Some "/new") (Some h_status) 7
    = ((-1)%Z, full_server) /\
  nyx_httpd_middleware full_server (Some logging_middleware) 7
    = ((-1)%Z, full_server).
Proof.
  split.
  - apply (proj1 C3_registries_bounded). vm_compute. reflexivity.
  - apply (proj1 (proj2 C3_registries_bounded)). vm_compute. reflexivity.
Defined.

(** C4 (amended): for a response whose header block fits the 8192-byte
    buffer, the first write is the status line, the stored headers in order,
    a Content-Length header whose numeral is the response's body length, and
    a blank line; the body, exactly that many bytes, follows in a second
    write when it is present and not empty, and a response without body is
    written in the one write of its header block. *)
Theorem C4_serialized_response (st : Statics) (resp : NyxHttpResponse)
    (dict : HttpHeaderDict) :
  resp_headers resp = Some dict -> count dict <= length (headers dict) ->
  String.length (head_text resp dict) < BUFFER_SIZE ->
  Nat.of_uint <$> NilZero.uint_of_string (fmt_zu (body_length resp)) =
    Some (body_length resp) /\
  (is_null (body resp) = true \/ body_length resp = 0 ->
   send_response st resp = ([head_text resp dict], true)) /\
  (forall text,
      body_text st (body resp) = Some text ->
      0 < body_length resp <= String.length text ->
      (Z.of_nat (body_length resp) < 2 ^ 31)%Z ->
      send_response st resp =
        ([head_text resp dict; str_prefix (body_length resp) text], true) /\
      String.length (str_prefix (body_length resp) text) = body_length resp).
Proof.
  intros Hd Hc Hfit. split; [apply fmt_zu_value |].
  unfold send_response. rewrite (render_head_fits resp dict Hd Hc Hfit). split.
  - intros [Hnull | Hzero]; [by rewrite Hnull | rewrite Hzero].
    by rewrite andb_false_r.
  - intros text Htext [Hpos Hlen] Hint.
    split; [| rewrite str_prefix_length; lia].
    assert (is_null (body resp) = false) as ->
      by (by destruct (body resp)).
    destruct (Nat.ltb_spec 0 (body_length resp)); [| lia].
    cbn [negb andb]. rewrite int_of_size_t_small by done.
    destruct (Z.ltb_spec (Z.of_nat (body_length resp)) 0); [lia |].
    unfold read_body. rewrite Htext, Nat2Z.id.
    by destruct (Nat.leb_spec (body_length resp) (String.length text)); [| lia].
Qed.

Lemma C4_witness :
  send_response initial_statics
    (nyx_http_response_html create_response 200 (Some "hello")) =
  (["HTTP/1.1 200 OK" +:+ CRLF +:+
    "Content-Type: text/html; charset=utf-8" +:+ CRLF +:+
    "Content-Length: 5" +:+ CRLF +:+ CRLF;
    "hello"], true) /\
  send_response initial_statics create_response =
  (["HTTP/1.1 200 OK" +:+ CRLF +:+ "Content-Length: 0" +:+ CRLF +:+ CRLF],
   true).
Proof.
  split.
  - apply (proj2 (proj2 (C4_serialized_response initial_statics
             (nyx_http_response_html create_response 200 (Some "hello"))
             (dict_append zero_dict "Content-Type" "text/html; charset=utf-8")
             eq_refl ltac:(vm_compute; lia) ltac:(vm_compute; lia)))
           "hello" eq_refl ltac:(vm_compute; lia) eq_refl).
  - apply (proj1 (proj2 (C4_serialized_response initial_statics
             create_response zero_dict
             eq_refl ltac:(vm_compute; lia) ltac:(vm_compute; lia)))).
    by left.
Defined.

(** C4 as stated fails for a valid request whose handler answers with an
    empty body: the response goes out in a single write. *)
Lemma C4_counterexample :
  exists c,
    handle_client no_content_server initial_statics
      (Some ("GET / HTTP/1.1" +:+ CRLF +:+ CRLF)) "127.0.0.1" 4242 =
    Completed c /\
    c_trace c =
    [EvHandler 0;
     EvSend ("HTTP/1.1 204 OK" +:+ CRLF +:+
             "Content-Type: text/plain; charset=utf-8" +:+ CRLF +:+
             "Content-Length: 0" +:+ CRLF +:+ CRLF)].
Proof. eexists. split; vm_compute; reflexivity. Qed.

(** C5 (amended): get scans the stored entries in insertion order and returns
    the value of the first one whose name equals the key up to case, or NULL
    when none does; set never updates in place: while fewer than 64 entries
    are stored it appends one entry, made of the first 127 bytes of the name
    and the first 511 bytes of the value, leaving the older entries as they
    are, and on a full container it does nothing; so setting a name of at
    most 127 bytes twice with room for two entries yields two entries and
    get still returns the earliest value registered under that name. *)
Theorem C5_header_container :
  (forall req d key,
      req_headers req = Some d ->
      (forall v, nyx_http_request_get_header req (Some key) = Some v <->
                 exists j h, first_match d key j h /\ value h = v) /\
      (nyx_http_request_get_header req (Some key) = None <-> no_match d key)) /\
  (forall resp d n v,
      resp_headers resp = Some d -> wf_dict d -> count d < MAX_HEADERS ->
      exists d1,
        resp_headers (nyx_http_response_set_header resp (Some n) (Some v)) =
          Some d1 /\
        wf_dict d1 /\
        count d1 = count d + 1 /\
        (forall i, i < count d -> headers d1 !! i = headers d !! i) /\
        headers d1 !! count d =
          Some {| name := str_prefix 127 n; value := str_prefix 511 v |}) /\
  (forall resp d n v1 v2,
      resp_headers resp = Some d -> wf_dict d -> count d + 2 <= MAX_HEADERS ->
      String.length n <= 127 ->
      exists d2,
        resp_headers
          (nyx_http_response_set_header
             (nyx_http_response_set_header resp (Some n) (Some v1))
             (Some n) (Some v2)) = Some d2 /\
        count d2 = count d + 2 /\
        (forall i, i < count d -> headers d2 !! i = headers d !! i) /\
        headers d2 !! count d =
          Some {| name := n; value := str_prefix 511 v1 |} /\
        headers d2 !! (count d + 1) =
          Some {| name := n; value := str_prefix 511 v2 |} /\
        forall before after,
          req_headers before = Some d -> req_headers after = Some d2 ->
          nyx_http_request_get_header after (Some n) =
          match nyx_http_request_get_header before (Some n) with
          | Some earlier => Some earlier
          | None => Some (str_prefix 511 v1)
          end) /\
  (forall resp d n v,
      resp_headers resp = Some d -> MAX_HEADERS <= count d ->
      nyx_http_response_set_header resp n v = resp).
Proof.
  split; [| split; [| split; [| apply set_header_full]]].
  - intros req d key Hd. split.
    + intros v. by apply get_header_Some.
    + by apply get_header_None.
  - intros resp d n v Hd Hwf Hroom.
    rewrite (set_header_room resp d n v Hd Hroom).
    exists (dict_append d (str_prefix 127 n) (str_prefix 511 v)).
    split; [done |]. split; [by apply dict_append_wf |].
    split; [done |]. split.
    + intros i Hi. by apply dict_append_old.
    + by apply dict_append_new.
  - intros resp d n v1 v2 Hd Hwf Hroom Hn.
    assert (count d < MAX_HEADERS) as Hc1 by lia.
    rewrite (set_header_room resp d n v1 Hd Hc1).
    rewrite (str_prefix_all 127 n) by lia.
    set (w1 := str_prefix 511 v1). set (w2 := str_prefix 511 v2).
    set (d1 := dict_append d n w1).
    assert (wf_dict d1) as Hwf1 by (by apply dict_append_wf).
    assert (count d1 < MAX_HEADERS) as Hc2 by (simpl; lia).
    rewrite (set_header_room (set_resp_headers resp d1) d1 n v2 eq_refl Hc2).
    rewrite (str_prefix_all 127 n) by lia. fold w2.
    exists (dict_append d1 n w2). split; [done |].
    split; [simpl; lia |].
    split; [| split; [| split]].
    + intros i Hi. rewrite dict_append_old by (simpl; lia).
      by apply dict_append_old.
    + rewrite dict_append_old by (simpl; lia). by apply dict_append_new.
    + replace (count d + 1) with (count d1) by done. by apply dict_append_new.
    + intros before after Hbefore Hafter.
      unfold nyx_http_request_get_header. rewrite Hbefore, Hafter.
      rewrite get_header_from_append by done.
      unfold d1. rewrite get_header_from_append by done.
      destruct (get_header_from (headers d) (count d) 0 n); [done |].
      by rewrite strcasecmp0_refl.
Qed.

Lemma C5_witness :
  (exists d1,
     resp_headers
       (nyx_http_response_set_header create_response
          (Some (pad 130 "n")) (Some (pad 600 "v"))) = Some d1 /\
     wf_dict d1 /\
     count d1 = 1 /\
     (forall i, i < 0 -> headers d1 !! i = headers zero_dict !! i) /\
     headers d1 !! 0 =
       Some {| name := pad 127 "n"; value := pad 511 "v" |}) /\
  (exists d2,
     resp_headers
       (nyx_http_response_set_header
          (nyx_http_response_set_header create_response
             (Some "Set-Cookie") (Some "a=1"))
          (Some "Set-Cookie") (Some "b=2")) = Some d2 /\
     count d2 = 2 /\
     (forall i, i < 0 -> headers d2 !! i = headers zero_dict !! i) /\
     headers d2 !! 0 = Some {| name := "Set-Cookie"; value := "a=1" |} /\
     headers d2 !! 1 = Some {| name := "Set-Cookie"; value := "b=2" |} /\
     forall after,
       req_headers after = Some d2 ->
       nyx_http_request_get_header after (Some "Set-Cookie") = Some "a=1").
Proof.
  split.
  - apply (proj1 (proj2 C5_header_container) create_response zero_dict
             (pad 130 "n") (pad 600 "v")).
    + reflexivity.
    + apply zero_dict_wf.
    + vm_compute. lia.
  - destruct (proj1 (proj2 (proj2 C5_header_container)) create_response
                zero_dict "Set-Cookie" "a=1" "b=2")
      as (d2 & Hd2 & Hc & Hold & H0 & H1 & Hget).
    5: { exists d2. repeat split; try done.
         intros after Hafter. apply (Hget create_request after eq_refl Hafter). }
    + reflexivity.
    + apply zero_dict_wf.
    + vm_compute. lia.
    + vm_compute. lia.
Defined.

(** C5 as stated fails at capacity: on a container that already holds 64
    entries, set stores nothing, so the name set is not found afterwards. *)
Lemma C5_counterexample :
  (count <$> resp_headers full_response) = Some 64 /\
  nyx_http_response_set_header full_response
    (Some "Content-Type") (Some "text/html") = full_response /\
  response_header
    (nyx_http_response_set_header
       (nyx_http_response_set_header full_response
          (Some "Content-Type") (Some "text/html"))
       (Some "Content-Type") (Some "text/html"))
    "Content-Type" = None.
Proof. split; [| split]; vm_compute; reflexivity. Qed.

(** C6 (as the code has it): when the buffer holds no CRLF, the header loop
    starts from a pointer computed from NULL and the connection ends in a
    fault before any middleware has been called, however many are
    registered. *)
Theorem C6_no_crlf_faults_before_middlewares
    (server : NyxHttpServer) (st : Statics) (pending addr : string) (port : Z) :
  pending <> "" ->
  strstr (c_str (str_prefix (BUFFER_SIZE - 1) pending)) CRLF = None ->
  exists c,
    handle_client server st (Some pending) addr port = Crashed c /\
    c_trace c = [].
Proof.
  intros Hne Hno. unfold handle_client.
  assert ((String.length (str_prefix (BUFFER_SIZE - 1) pending) =? 0) = false)
    as ->.
  { destruct pending; [done |]. reflexivity. }
  unfold pipeline. unfold bind at 1. rewrite parse_stage_fault.
  - by eexists.
  - unfold parse_request. by rewrite Hno.
Qed.

Lemma C6_witness :
  middleware_count sample_server = 1 /\
  exists c,
    handle_client sample_server initial_statics (Some "GET / HTTP/1.1")
      "127.0.0.1" 4242 = Crashed c /\
    c_trace c = [].
Proof.
  split; [reflexivity |].
  apply (C6_no_crlf_faults_before_middlewares sample_server initial_statics
           "GET / HTTP/1.1" "127.0.0.1" 4242).
  - discriminate.
  - vm_compute. reflexivity.
Defined.

(** C7: a request line whose method has 16 bytes or more, whose path has 256
    or more, whose query has 512 or more or whose protocol has 16 or more is
    rejected, and so is a header line whose name has 128 bytes or more or
    whose value has 512 or more; after a rejected request line the request
    keeps the request-line fields it had (none, for a fresh request), and a
    rejected header line leaves the request as it was. *)
Theorem C7_overlong_fields_rejected :
  (forall m p q pr,
      strchr m SP = None -> strchr p SP = None -> strchr p "?" = None ->
      strchr q SP = None ->
      16 <= String.length m \/ 256 <= String.length p \/
      512 <= String.length q \/ 16 <= String.length pr ->
      parse_request_line (line_with_query m p q pr) = None) /\
  (forall m p pr,
      strchr m SP = None -> strchr p SP = None -> strchr p "?" = None ->
      16 <= String.length m \/ 256 <= String.length p \/
      16 <= String.length pr ->
      parse_request_line (line_without_query m p pr) = None) /\
  (forall n ws v,
      strchr n ":" = None -> blank ws = true -> trimmed v ->
      128 <= String.length n \/ 512 <= String.length v ->
      parse_header (header_line n ws v) = None) /\
  (forall line rest req req',
      strstr line CRLF = None -> parse_request_line line = None ->
      parse_request (line +:+ CRLF +:+ rest) req = Some req' ->
      same_request_line req req') /\
  (forall fuel line rest req,
      strstr line CRLF = None -> line <> "" -> parse_header line = None ->
      parse_headers (S fuel) (line +:+ CRLF +:+ rest) req =
      parse_headers fuel rest req).
Proof.
  split; [| split; [| split; [| split]]].
  - intros m p q pr Hm Hp Hpq Hq Hlong.
    rewrite parse_request_line_with_query by done.
    case_bounds. lia.
  - intros m p pr Hm Hp Hpq Hlong.
    rewrite parse_request_line_without_query by done.
    case_bounds. lia.
  - intros n ws v Hn Hws Hv Hlong.
    rewrite parse_header_line by done.
    case_bounds. lia.
  - intros line rest req req'. apply parse_request_unparsed.
  - intros fuel line rest req. apply parse_headers_skip.
Qed.

Lemma C7_witness :
  parse_request_line
    (line_with_query "GET" "/search" (pad 512 "q") "HTTP/1.1") = None /\
  parse_request_line
    (line_without_query "ABCDEFGHIJKLMNOP" "/" "HTTP/1.1") = None /\
  parse_header (header_line (pad 128 "n") " " "v") = None /\
  (exists req',
     parse_request ("BROKEN" +:+ CRLF +:+ CRLF) create_request = Some req' /\
     same_request_line create_request req') /\
  parse_headers 9 ((pad 128 "n" +:+ ": v") +:+ CRLF +:+ CRLF) create_request =
  parse_headers 8 CRLF create_request.
Proof.
  destruct C7_overlong_fields_rejected as (Hq & Hnq & Hh & Hreq & Hskip).
  split; [| split; [| split; [| split]]].
  - apply Hq; try (vm_compute; reflexivity).
    right; right; left. vm_compute. lia.
  - apply Hnq; try (vm_compute; reflexivity). left. vm_compute. lia.
  - apply Hh; try (vm_compute; reflexivity).
    + split; discriminate.
    + left. vm_compute. lia.
  - eexists. split; [vm_compute; reflexivity |].
    apply (Hreq "BROKEN" CRLF); vm_compute; reflexivity.
  - apply Hskip; [vm_compute; reflexivity | discriminate
                 | vm_compute; reflexivity].
Defined.

(** C8 (amended): when the file cannot be opened, the response becomes the
    404 error page and the call returns -1; when the buffer cannot be
    allocated, the 500 error page and -1; otherwise the call returns 0 and
    the response has status 200, the whole file content as body and, if its
    header container has room, a Content-Type entry chosen from the path's
    extension by the fixed table, the container staying as it was for an
    extension outside the table. *)
Theorem C8_file_response (fopen_rb : string -> option string) (st : Statics)
    (resp : NyxHttpResponse) (file_path : string) :
  (fopen_rb file_path = None ->
   forall malloc_ok,
   exists r,
     nyx_http_response_file fopen_rb malloc_ok st resp file_path =
       ((-1)%Z, r, {| error_body := rendered_error 404 (Some "File not found") |}) /\
     status_code r = 404%Z /\ body r = BodyErrorPage /\
     body_length r = String.length (rendered_error 404 (Some "File not found"))) /\
  (forall content,
      fopen_rb file_path = Some content ->
      exists r,
        nyx_http_response_file fopen_rb false st resp file_path =
          ((-1)%Z, r,
           {| error_body := rendered_error 500 (Some "Memory allocation failed") |}) /\
        status_code r = 500%Z /\ body r = BodyErrorPage /\
        body_length r =
          String.length (rendered_error 500 (Some "Memory allocation failed"))) /\
  (forall content,
      fopen_rb file_path = Some content ->
      exists r,
        nyx_http_response_file fopen_rb true st resp file_path = (0%Z, r, st) /\
        status_code r = 200%Z /\ body r = BodyMem content /\
        body_length r = String.length content /\
        forall d,
          resp_headers resp = Some d -> wf_dict d -> count d < MAX_HEADERS ->
          resp_headers r =
          Some match mime_of_path file_path with
               | Some mime => dict_append d "Content-Type" mime
               | None => d
               end).
Proof.
  split; [| split].
  - intros Hopen malloc_ok. unfold nyx_http_response_file. rewrite Hopen.
    destruct (error_response st resp 404 (Some "File not found"))
      as (r & -> & Hs & Hb & Hl & _).
    by exists r.
  - intros content Hopen. unfold nyx_http_response_file. rewrite Hopen.
    cbn [negb].
    destruct (error_response st resp 500 (Some "Memory allocation failed"))
      as (r & -> & Hs & Hb & Hl & _).
    by exists r.
  - intros content Hopen. unfold nyx_http_response_file. rewrite Hopen.
    cbn [negb]. eexists. split; [reflexivity |].
    set (resp1 := set_status_body resp 200 (BodyMem content)
                    (String.length content)).
    assert (forall n v,
              let r := nyx_http_response_set_header resp1 n v in
              status_code r = 200%Z /\ body r = BodyMem content /\
              body_length r = String.length content) as Hset.
    { intros n v. cbv zeta.
      pose proof (set_header_fields resp1 n v) as H. cbv zeta in H.
      destruct H as (H1 & _ & H2 & H3 & _). by rewrite H1, H2, H3. }
    split; [| split; [| split]].
    1-3: destruct (strrchr file_path ".") as [dot|]; [| done];
         repeat match goal with
                | |- context [String.eqb ?e ?s] =>
                    destruct (String.eqb e s); cbn [orb]; [apply Hset |]
                end; done.
    intros d Hd _ Hc. unfold mime_of_path.
    destruct (strrchr file_path ".") as [dot|]; [| done].
    by apply file_content_type.
Qed.

Lemma C8_witness :
  (exists r,
     nyx_http_response_file one_file true initial_statics create_response
       "missing.txt" =
       ((-1)%Z, r, {| error_body := rendered_error 404 (Some "File not found") |}) /\
     status_code r = 404%Z /\ body r = BodyErrorPage /\
     body_length r = String.length (rendered_error 404 (Some "File not found"))) /\
  (exists r,
     nyx_http_response_file one_file false initial_statics create_response
       "style.css" =
       ((-1)%Z, r,
        {| error_body := rendered_error 500 (Some "Memory allocation failed") |}) /\
     status_code r = 500%Z /\ body r = BodyErrorPage /\
     body_length r =
       String.length (rendered_error 500 (Some "Memory allocation failed"))) /\
  (exists r,
     nyx_http_response_file one_file true initial_statics create_response
       "style.css" = (0%Z, r, initial_statics) /\
     status_code r = 200%Z /\ body r = BodyMem "body{}" /\
     body_length r = 6 /\
     response_header r "Content-Type" = Some "text/css").
Proof.
  split; [| split].
  - apply (proj1 (C8_file_response one_file initial_statics create_response
                    "missing.txt") eq_refl true).
  - apply (proj1 (proj2 (C8_file_response one_file initial_statics
                           create_response "style.css")) "body{}" eq_refl).
  - destruct (proj2 (proj2 (C8_file_response one_file initial_statics
                              create_response "style.css")) "body{}" eq_refl)
      as (r & Hr & Hs & Hb & Hl & Hh).
    exists r. repeat split; try done.
    unfold response_header.
    rewrite (Hh zero_dict eq_refl
               ltac:(split; [| split]; vm_compute; [reflexivity | lia | reflexivity])
               ltac:(vm_compute; lia)).
    vm_compute. reflexivity.
Defined.

(** C8 as stated fails on a response whose header container is full: the
    style sheet is served with status 200 but no Content-Type is stored. *)
Lemma C8_counterexample :
  exists r,
    nyx_http_response_file one_file true initial_statics full_response
      "style.css" = (0%Z, r, initial_statics) /\
    status_code r = 200%Z /\
    response_header r "Content-Type" = None /\
    resp_headers r = resp_headers full_response.
Proof.
  eexists. split; [vm_compute; reflexivity |].
  split; [reflexivity |]. split; vm_compute; reflexivity.
Qed.

(** C9: every error page lives in the one static buffer: after
    error(r1, s1, m1) and then error(r2, s2, m2), the bodies of both
    responses point to that buffer, which holds the page rendered for
    (s2, m2); the page r1 showed before the second call is gone. The 404 the
    pipeline synthesizes when no route matches goes through the same
    buffer. *)
Theorem C9_error_pages_share_buffer (st : Statics) (r1 r2 : NyxHttpResponse)
    (s1 s2 : Z) (m1 m2 : option string) :
  exists r1' st1 r2' st2,
    nyx_http_response_error st r1 s1 m1 = (r1', st1) /\
    nyx_http_response_error st1 r2 s2 m2 = (r2', st2) /\
    body r1' = body r2' /\ body r2' = BodyErrorPage /\
    body_text st1 (body r1') = Some (rendered_error s1 m1) /\
    body_text st2 (body r1') = Some (rendered_error s2 m2) /\
    body_text st2 (body r2') = Some (rendered_error s2 m2) /\
    forall server c,
      match_route server (route_count server) 0 c = (Some false, c) ->
      c_statics c = st1 ->
      exists c',
        dispatch server c = (Some tt, c') /\
        body (c_resp c') = body r1' /\
        body_text (c_statics c') (body r1') =
          Some (rendered_error 404 (Some "Not Found")).
Proof.
  destruct (error_response st r1 s1 m1) as (r1' & E1 & _ & Hb1 & _).
  destruct (error_response {| error_body := rendered_error s1 m1 |} r2 s2 m2)
    as (r2' & E2 & _ & Hb2 & _).
  eexists r1', _, r2', _. split; [exact E1 |]. split; [exact E2 |].
  rewrite Hb1, Hb2. repeat split; try done.
  intros server c Hno Hst. unfold dispatch, bind. rewrite Hno.
  unfold update, default_404.
  destruct (error_response (c_statics c) (c_resp c) 404 (Some "Not Found"))
    as (r & -> & _ & Hb & _).
  eexists. split; [reflexivity |]. cbn [c_resp c_statics]. by rewrite Hb.
Qed.

Lemma C9_witness :
  exists r1' st1 c',
    nyx_http_response_error initial_statics create_response 500
      (Some "Internal failure") = (r1', st1) /\
    body_text st1 (body r1') =
      Some ("<html><head><title>500 Error</title></head>" +:+
            "<body><h1>500 Error</h1><p>Internal failure</p></body></html>") /\
    dispatch nyx_httpd_create
      {| c_req := request_for "GET" "/"; c_resp := create_response;
         c_statics := st1; c_trace := [] |} = (Some tt, c') /\
    body (c_resp c') = body r1' /\
    body_text (c_statics c') (body r1') =
      Some ("<html><head><title>404 Error</title></head>" +:+
            "<body><h1>404 Error</h1><p>Not Found</p></body></html>").
Proof.
  destruct (C9_error_pages_share_buffer initial_statics create_response
              create_response 500 500 (Some "Internal failure")
              (Some "Internal failure"))
    as (r1' & st1 & r2' & st2 & E1 & E2 & Hsame & Hb & Ht1 & _ & _ & Hd).
  destruct (Hd nyx_httpd_create
              {| c_req := request_for "GET" "/"; c_resp := create_response;
                 c_statics := st1; c_trace := [] |} eq_refl eq_refl)
    as (c' & Hc' & Hbody & Htext).
  exists r1', st1, c'. repeat split; done.
Defined.

(** C10: with room in the route table (the next slot still zeroed, as
    [calloc] left it) and non-null arguments, registering a
    method longer than 15 bytes or a path longer than 255 bytes returns 0
    and stores the first 15 bytes of the method and the first 255 bytes of
    the path; the stored route matches exactly the requests whose method and
    path are these prefixes, and does not match the strings it was registered
    with. *)
Theorem C10_route_truncation (server : NyxHttpServer) (m p : string)
    (h : NyxHttpHandler) (ud : Z) :
  route_count server < MAX_ROUTES ->
  routes server !! route_count server = Some zero_route ->
  15 < String.length m \/ 255 < String.length p ->
  exists server' route,
    nyx_httpd_route server (Some m) (Some p) (Some h) ud = (0%Z, server') /\
    route_count server' = route_count server + 1 /\
    routes server' !! route_count server = Some route /\
    route_method route = str_prefix 15 m /\
    route_path route = str_prefix 255 p /\
    route_handler route = Some h /\
    (forall req rm rp,
        method req = Some rm -> path req = Some rp ->
        (route_matches route req = Some true <->
         rm = str_prefix 15 m /\ rp = str_prefix 255 p)) /\
    (forall req,
        method req = Some m -> path req = Some p ->
        route_matches route req = Some false).
Proof.
  intros Hroom Hslot%lookup_lt_Some Hlong. unfold nyx_httpd_route.
  destruct (Nat.leb_spec MAX_ROUTES (route_count server)); [lia |].
  eexists _, _. split; [reflexivity |]. cbn [route_count routes].
  split; [done |].
  split; [by apply list_lookup_insert_eq |].
  cbn [route_method route_path route_handler]. unfold strncpy.
  do 3 (split; [done |]). split.
  - intros req rm rp Hrm Hrp.
    rewrite (route_matches_parsed _ req rm rp Hrm Hrp).
    cbn [route_method route_path]. split.
    + intros [= H0]. apply bool_decide_eq_true in H0. by destruct H0.
    + intros [-> ->]. by rewrite bool_decide_eq_true_2.
  - intros req Hrm Hrp. rewrite (route_matches_parsed _ req m p Hrm Hrp).
    rewrite bool_decide_eq_false_2; [done |]. cbn [route_method route_path].
    intros [Hm Hp].
    destruct Hlong as [Hl | Hl];
      [by apply (str_prefix_shorter 15 m) | by apply (str_prefix_shorter 255 p)].
Qed.

Lemma C10_witness :
  exists server' route,
    nyx_httpd_route nyx_httpd_create (Some "PROPFIND-EXTENDED-X") (Some "/dav")
      (Some h_status) 0 = (0%Z, server') /\
    route_count server' = 1 /\
    routes server' !! 0 = Some route /\
    route_method route = "PROPFIND-EXTEND" /\
    route_path route = "/dav" /\
    route_handler route = Some h_status /\
    (forall req rm rp,
        method req = Some rm -> path req = Some rp ->
        (route_matches route req = Some true <->
         rm = "PROPFIND-EXTEND" /\ rp = "/dav")) /\
    (forall req,
        method req = Some "PROPFIND-EXTENDED-X" -> path req = Some "/dav" ->
        route_matches route req = Some false).
Proof.
  apply (C10_route_truncation nyx_httpd_create "PROPFIND-EXTENDED-X" "/dav"
           h_status 0).
  - vm_compute. lia.
  - vm_compute. reflexivity.
  - left. vm_compute. lia.
Defined.

(** * Further properties of the code *)

(** X1: [parse_request_line] succeeds exactly on the lines made of a method,
    a space, a path, optionally [?] and a query, a space and a protocol,
    where method, path and query hold no space, the path holds no [?], and
    the four fields are shorter than 16, 256, 512 and 16 bytes; the fields
    it returns are these parts of the line, the query being empty when the
    line has none. *)
Theorem X1_request_line_shape (line m p q pr : string) :
  parse_request_line line = Some (m, p, q, pr) <->
  String.length m < 16 /\ String.length p < 256 /\
  String.length q < 512 /\ String.length pr < 16 /\
  strchr m SP = None /\ strchr p SP = None /\ strchr p "?" = None /\
  strchr q SP = None /\
  (line = line_with_query m p q pr \/
   q = "" /\ line = line_without_query m p pr).
Proof.
  split; [apply parse_request_line_Some |].
  intros (Hm & Hp & Hq & Hpr & Hms & Hps & Hpq & Hqs & [-> | [-> ->]]).
  - rewrite parse_request_line_with_query by done.
    destruct (Nat.leb_spec 16 (String.length m)); [lia |].
    destruct (Nat.leb_spec 256 (String.length p)); [lia |].
    destruct (Nat.leb_spec 512 (String.length q)); [lia |].
    by destruct (Nat.leb_spec 16 (String.length pr)); [lia |].
  - rewrite parse_request_line_without_query by done.
    destruct (Nat.leb_spec 16 (String.length m)); [lia |].
    destruct (Nat.leb_spec 256 (String.length p)); [lia |].
    by destruct (Nat.leb_spec 16 (String.length pr)); [lia |].
Qed.

Lemma X1_witness :
  parse_request_line "GET /search?q=nyx HTTP/1.1" =
    Some ("GET", "/search", "q=nyx", "HTTP/1.1") /\
  parse_request_line "GET / HTTP/1.1" = Some ("GET", "/", "", "HTTP/1.1").
Proof.
  split.
  - apply (proj2 (X1_request_line_shape "GET /search?q=nyx HTTP/1.1"
                    "GET" "/search" "q=nyx" "HTTP/1.1")).
    simpl. repeat split; try lia. by left.
  - apply (proj2 (X1_request_line_shape "GET / HTTP/1.1"
                    "GET" "/" "" "HTTP/1.1")).
    simpl. repeat split; try lia. by right.
Defined.

(** X2: [parse_header] succeeds exactly on the lines made of a name without
    colon shorter than 128 bytes, a colon, any run of spaces and tabs, and
    a value shorter than 512 bytes that does not start with a space or a
    tab; it returns this name and this value. *)
Theorem X2_header_line_shape (line n v : string) :
  parse_header line = Some (n, v) <->
  String.length n < 128 /\ String.length v < 512 /\
  strchr n ":" = None /\ trimmed v /\
  exists ws, blank ws = true /\ line = header_line n ws v.
Proof.
  split; [apply parse_header_Some |].
  intros (Hn & Hv & Hcolon & Htrim & ws & Hws & ->).
  rewrite parse_header_line by done.
  destruct (Nat.leb_spec 128 (String.length n)); [lia |].
  by destruct (Nat.leb_spec 512 (String.length v)); [lia |].
Qed.

Lemma X2_witness :
  parse_header "Host:  example.org" = Some ("Host", "example.org").
Proof.
  apply (proj2 (X2_header_line_shape "Host:  example.org" "Host"
                  "example.org")).
  simpl. repeat split; try lia; try discriminate.
  by exists "  ".
Defined.

(** X3: the header lookup does not depend on the case of the name asked
    for: two names that agree after folding to lower case give the same
    result on every request. *)
Theorem X3_header_lookup_ignores_case (req : NyxHttpRequest) (k k' : string) :
  lower k = lower k' ->
  nyx_http_request_get_header req (Some k) =
  nyx_http_request_get_header req (Some k').
Proof.
  intros Hk. unfold nyx_http_request_get_header.
  destruct (req_headers req) as [d|]; [| done].
  by apply get_header_from_key.
Qed.

Lemma X3_witness :
  lower "content-type" = lower "Content-Type" /\
  nyx_http_request_get_header
    (set_req_headers create_request (dict_append zero_dict "CONTENT-TYPE" "text/css"))
    (Some "content-type") =
  nyx_http_request_get_header
    (set_req_headers create_request (dict_append zero_dict "CONTENT-TYPE" "text/css"))
    (Some "Content-Type").
Proof.
  split; [reflexivity |].
  apply (X3_header_lookup_ignores_case _ "content-type" "Content-Type").
  reflexivity.
Defined.

(** X4: on a message made of a first line, header lines that
    [parse_header] accepts, the blank line and any body, the parsing of
    [handle_client] leaves in a new request's container the (name, value)
    pairs of the first 64 header lines, in the order received; later header
    lines are dropped and the body is not looked at. *)
Theorem X4_header_block_stored (line : string)
    (lines : list (string * string * string)) (body : string)
    (req : NyxHttpRequest) :
  strstr line CRLF = None -> Forall wf_line lines ->
  req_headers req = Some zero_dict ->
  exists req' d',
    parse_request (line +:+ CRLF +:+ header_block lines +:+ CRLF +:+ body) req
      = Some req' /\
    req_headers req' = Some d' /\
    count d' = length lines `min` MAX_HEADERS /\
    entries d' = header_of <$> take MAX_HEADERS (field_of <$> lines).
Proof.
  intros Hline Hwf Hd. rewrite parse_request_block by done.
  destruct (store_headers_spec (field_of <$> lines)
              (with_request_line line req) zero_dict)
    as (req' & d' & Hs & Hd' & _ & Hc & He & _).
  { unfold with_request_line. by destruct (parse_request_line _) as [[[[??]?]?]|]. }
  { apply zero_dict_wf. }
  exists req', d'. split; [done |]. split; [done |].
  cbn [count zero_dict] in *. rewrite Nat.sub_0_r in *. split; [| done].
  rewrite Hc, length_take, length_fmap. lia.
Qed.

Lemma X4_witness :
  exists req' d',
    parse_request
      ("POST /submit HTTP/1.1" +:+ CRLF +:+
       header_block [("Host", " ", "example.org"); ("Content-Length", " ", "5")]
       +:+ CRLF +:+ "hello") create_request = Some req' /\
    req_headers req' = Some d' /\
    count d' = 2 /\
    entries d' = [{| name := "Host"; value := "example.org" |};
                  {| name := "Content-Length"; value := "5" |}].
Proof.
  apply (X4_header_block_stored "POST /submit HTTP/1.1"
           [("Host", " ", "example.org"); ("Content-Length", " ", "5")]
           "hello" create_request).
  - reflexivity.
  - repeat constructor; try (simpl; lia); discriminate.
  - reflexivity.
Defined.

(** X5: after such a message has been parsed into a new request, the
    header lookup returns, for every name, the value of the first of the 64
    stored header lines whose name equals it up to case, and NULL when
    there is none. *)
Theorem X5_sent_headers_found (line : string)
    (lines : list (string * string * string)) (body : string)
    (req : NyxHttpRequest) (key : string) :
  strstr line CRLF = None -> Forall wf_line lines ->
  req_headers req = Some zero_dict ->
  exists req',
    parse_request (line +:+ CRLF +:+ header_block lines +:+ CRLF +:+ body) req
      = Some req' /\
    nyx_http_request_get_header req' (Some key) =
    find_header (take MAX_HEADERS (field_of <$> lines)) key.
Proof.
  intros Hline Hwf Hd. rewrite parse_request_block by done.
  destruct (store_headers_spec (field_of <$> lines)
              (with_request_line line req) zero_dict)
    as (req' & d' & Hs & Hd' & _ & _ & _ & Hget & _).
  { unfold with_request_line. by destruct (parse_request_line _) as [[[[??]?]?]|]. }
  { apply zero_dict_wf. }
  exists req'. split; [done |].
  unfold nyx_http_request_get_header. rewrite Hd', Hget. done.
Qed.

Lemma X5_witness :
  exists req',
    parse_request
      ("GET / HTTP/1.1" +:+ CRLF +:+
       header_block [("Accept", " ", "text/html"); ("ACCEPT", " ", "image/png")]
       +:+ CRLF +:+ "") create_request = Some req' /\
    nyx_http_request_get_header req' (Some "accept") = Some "text/html".
Proof.
  apply (X5_sent_headers_found "GET / HTTP/1.1"
           [("Accept", " ", "text/html"); ("ACCEPT", " ", "image/png")]
           "" create_request "accept").
  - reflexivity.
  - repeat constructor; try (simpl; lia); discriminate.
  - reflexivity.
Defined.

(** X6: the members [host], [content_type] and [content_length] of the
    request mirror the last stored header line of that name (up to case),
    not the first: with two Host lines, [req->host] is the second one while
    the header lookup returns the first. [content_length] is the [int] that
    [atoi] returns for the value, converted to [size_t]. A header line
    beyond the 64th is not mirrored either. *)
Theorem X6_mirrored_members_hold_last (line : string)
    (lines : list (string * string * string)) (body : string)
    (req : NyxHttpRequest) :
  strstr line CRLF = None -> Forall wf_line lines ->
  req_headers req = Some zero_dict ->
  let kept := take MAX_HEADERS (field_of <$> lines) in
  exists req',
    parse_request (line +:+ CRLF +:+ header_block lines +:+ CRLF +:+ body) req
      = Some req' /\
    host req' = (match last_header kept "Host" with
                 | Some v => Some v
                 | None => host req
                 end) /\
    content_type req' = (match last_header kept "Content-Type" with
                         | Some v => Some v
                         | None => content_type req
                         end) /\
    content_length req' = (match last_header kept "Content-Length" with
                           | Some v => (atoi v mod 2 ^ 64)%Z
                           | None => content_length req
                           end) /\
    nyx_http_request_get_header req' (Some "Host") = find_header kept "Host".
Proof.
  intros Hline Hwf Hd kept. rewrite parse_request_block by done.
  destruct (store_headers_spec (field_of <$> lines)
              (with_request_line line req) zero_dict)
    as (req' & d' & Hs & Hd' & _ & _ & _ & Hget & Hh & Hct & Hcl & _).
  { unfold with_request_line. by destruct (parse_request_line _) as [[[[??]?]?]|]. }
  { apply zero_dict_wf. }
  exists req'. split; [done |].
  assert (host (with_request_line line req) = host req /\
          content_type (with_request_line line req) = content_type req /\
          content_length (with_request_line line req) = content_length req)
    as (E1 & E2 & E3).
  { unfold with_request_line. by destruct (parse_request_line _) as [[[[??]?]?]|]. }
  rewrite E1 in Hh. rewrite E2 in Hct. rewrite E3 in Hcl.
  split; [exact Hh |]. split; [exact Hct |]. split; [exact Hcl |].
  unfold nyx_http_request_get_header. rewrite Hd', Hget. done.
Qed.

Lemma X6_witness :
  exists req',
    parse_request
      ("GET / HTTP/1.1" +:+ CRLF +:+
       header_block [("Host", " ", "a.example"); ("host", " ", "b.example")]
       +:+ CRLF +:+ "") create_request = Some req' /\
    host req' = Some "b.example" /\
    content_type req' = None /\
    content_length req' = 0%Z /\
    nyx_http_request_get_header req' (Some "Host") = Some "a.example".
Proof.
  apply (X6_mirrored_members_hold_last "GET / HTTP/1.1"
           [("Host", " ", "a.example"); ("host", " ", "b.example")]
           "" create_request).
  - reflexivity.
  - repeat constructor; try (simpl; lia); discriminate.
  - reflexivity.
Defined.

(** X7: whatever bytes are parsed, the header loop of [handle_client]
    keeps the container of the request in order: the count stays within
    the 64 slots, the slots beyond it stay zeroed, every stored name is
    shorter than 128 bytes and every value shorter than 512 (so the
    [strcpy] calls stay inside the arrays), and the entries present before
    are not changed. *)
Theorem X7_parsing_keeps_container (buffer : string)
    (req req' : NyxHttpRequest) (d : HttpHeaderDict) :
  req_headers req = Some d -> wf_dict d -> fits d ->
  parse_request buffer req = Some req' ->
  exists d',
    req_headers req' = Some d' /\ wf_dict d' /\ fits d' /\
    count d <= count d' /\
    forall i, i < count d -> headers d' !! i = headers d !! i.
Proof.
  intros Hd Hwf Hfit Hp.
  destruct (parse_request_keeps buffer req req' d Hd Hwf Hfit Hp)
    as (d' & ? & ? & ? & ? & ? & _).
  by exists d'.
Qed.

Lemma X7_witness :
  exists req' d',
    parse_request
      ("GET / HTTP/1.1" +:+ CRLF +:+ "Host: x" +:+ CRLF +:+ CRLF)
      create_request = Some req' /\
    req_headers req' = Some d' /\ wf_dict d' /\ fits d' /\
    0 <= count d' /\
    forall i, i < 0 -> headers d' !! i = headers zero_dict !! i.
Proof.
  pose (buffer := "GET / HTTP/1.1" +:+ CRLF +:+ "Host: x" +:+ CRLF +:+ CRLF).
  pose (req' := default create_request (parse_request buffer create_request)).
  assert (parse_request buffer create_request = Some req') as Hp
    by (vm_compute; reflexivity).
  destruct (X7_parsing_keeps_container buffer create_request req' zero_dict
              eq_refl zero_dict_wf zero_dict_fits Hp) as (d' & H).
  exists req', d'. split; [exact Hp | exact H].
Defined.

(** X8: whatever sequence of helper calls (set_header, json, html, text,
    error, file) a handler makes on the response [create_response] hands
    out, the response stays in order: its container holds at most one entry
    per call and never more than 64, with names of at most 127 and values
    of at most 511 bytes; [body_length] is the length of the text [body]
    designates (0 for a NULL body); and [status_text] is still "OK", since
    no helper writes it, whatever the status code has become. *)
Theorem X8_helper_built_response_in_order (ops : list ResponseOp)
    (st : Statics) :
  let rs := run_response_ops ops (create_response, st) in
  (exists d, resp_headers rs.1 = Some d /\ wf_dict d /\ fits d /\
             count d <= length ops) /\
  status_text rs.1 = Some "OK" /\
  body_consistent rs.2 rs.1.
Proof.
  intros rs.
  destruct (run_response_ops_keeps ops (create_response, st) zero_dict)
    as (d & Hd & Hwf & Hfit & Hc & _ & Hst & Hb); try done.
  - apply zero_dict_wf.
  - apply zero_dict_fits.
  - split; [| done]. by exists d.
Qed.

(** X9: a response built by helper calls whose header block is shorter
    than the 8192-byte buffer and whose body is shorter than 2^31 bytes is
    sent whole and without a fault: one write with the header block, and,
    unless the body is NULL or empty, one write with the entire body
    text. *)
Theorem X9_helper_built_response_sent (ops : list ResponseOp) (st : Statics)
    (d : HttpHeaderDict) :
  let rs := run_response_ops ops (create_response, st) in
  resp_headers rs.1 = Some d ->
  String.length (head_text rs.1 d) < BUFFER_SIZE ->
  (Z.of_nat (body_length rs.1) < 2 ^ 31)%Z ->
  send_response rs.2 rs.1 = (head_text rs.1 d :: body_writes rs.2 rs.1, true).
Proof.
  intros rs Hd Hfit Hsmall.
  destruct (run_response_ops_keeps ops (create_response, st) zero_dict)
    as (d' & Hd' & Hwf & _ & _ & _ & _ & Hb); try done.
  - apply zero_dict_wf.
  - apply zero_dict_fits.
  - fold rs in Hd', Hb. rewrite Hd in Hd'. injection Hd' as <-.
    by apply send_response_whole.
Qed.

Lemma X9_witness :
  let rs :=
    run_response_ops [RJson 200 (Some "{}"); RError 500 (Some "late failure")]
      (create_response, initial_statics) in
  send_response rs.2 rs.1 =
  (["HTTP/1.1 500 OK" +:+ CRLF +:+
    "Content-Type: application/json" +:+ CRLF +:+
    "Content-Type: text/html" +:+ CRLF +:+
    "Content-Length: 100" +:+ CRLF +:+ CRLF;
    "<html><head><title>500 Error</title></head>" +:+
    "<body><h1>500 Error</h1><p>late failure</p></body></html>"], true).
Proof.
  intros rs.
  pose (d := default zero_dict (resp_headers rs.1)).
  unfold rs.
  rewrite (X9_helper_built_response_sent
             [RJson 200 (Some "{}"); RError 500 (Some "late failure")]
             initial_statics d eq_refl
             ltac:(vm_compute; lia) ltac:(vm_compute; reflexivity)).
  vm_compute. reflexivity.
Defined.

(** X10: the 8192-byte buffer of [send_response] holds a header block of
    at most 8191 bytes: when the block (status line, stored headers,
    Content-Length line, blank line) is exactly 8192 bytes long, the last
    [snprintf] cuts it, and the first write is the first 8191 bytes of the
    block followed by a NUL byte in place of the final line feed. *)
Theorem X10_head_filling_buffer_cut (st : Statics) (resp : NyxHttpResponse)
    (dict : HttpHeaderDict) :
  resp_headers resp = Some dict -> count dict <= length (headers dict) ->
  String.length (head_text resp dict) = BUFFER_SIZE ->
  exists rest finished,
    send_response st resp =
    ((str_prefix (BUFFER_SIZE - 1) (head_text resp dict) +:+ String NUL "")
       :: rest, finished) /\
    String.length
      (str_prefix (BUFFER_SIZE - 1) (head_text resp dict) +:+ String NUL "") =
      BUFFER_SIZE.
Proof.
  intros Hd Hc Hfull. unfold send_response.
  rewrite (render_head_full resp dict Hd Hc Hfull).
  assert (String.length
            (str_prefix (BUFFER_SIZE - 1) (head_text resp dict) +:+
             String NUL "") = BUFFER_SIZE) as Hlen.
  { pose proof Hfull as Hpos. unfold head_text in Hpos.
    rewrite !length_app in Hpos. change (String.length CRLF) with 2 in Hpos.
    rewrite length_app, str_prefix_length, Hfull. cbn [String.length]. lia. }
  destruct (negb (is_null (body resp)) && (0 <? body_length resp));
    [| by eexists _, _].
  destruct (int_of_size_t (body_length resp) <? 0)%Z; [by eexists _, _ |].
  destruct (read_body st (body resp) _); by eexists _, _.
Qed.

Lemma X10_witness :
  exists rest finished,
    send_response initial_statics brimful_response =
    ((str_prefix (BUFFER_SIZE - 1)
        (head_text brimful_response
           (default zero_dict (resp_headers brimful_response))) +:+
      String NUL "") :: rest, finished) /\
    String.length
      (str_prefix (BUFFER_SIZE - 1)
         (head_text brimful_response
            (default zero_dict (resp_headers brimful_response))) +:+
       String NUL "") = BUFFER_SIZE.
Proof.
  apply (X10_head_filling_buffer_cut initial_statics brimful_response
           (default zero_dict (resp_headers brimful_response))).
  - vm_compute. reflexivity.
  - vm_compute. lia.
  - vm_compute. reflexivity.
Defined.

(** X11: the headers of a response are write-once for the lookup: once a
    name has a value after some helper calls, no later helper call changes
    what the lookup returns for it. A second helper that sets Content-Type
    therefore adds a second line and leaves the first in force. *)
Theorem X11_response_headers_write_once (ops later : list ResponseOp)
    (st : Statics) (key w : string) :
  response_header (run_response_ops ops (create_response, st)).1 key = Some w ->
  response_header
    (run_response_ops (ops ++ later) (create_response, st)).1 key = Some w.
Proof.
  unfold response_header, run_response_ops. rewrite foldl_app.
  fold (run_response_ops ops (create_response, st)).
  set (rs := run_response_ops ops (create_response, st)).
  fold (run_response_ops later rs).
  destruct (run_response_ops_keeps ops (create_response, st) zero_dict)
    as (d & Hd & Hwf & Hfit & _ & _ & Hst & Hb);
    [done | apply zero_dict_wf | apply zero_dict_fits | done | done |].
  fold rs in Hd, Hst, Hb. rewrite Hd.
  destruct (run_response_ops_keeps later rs d Hd Hwf Hfit Hst Hb)
    as (d' & -> & _ & _ & _ & Hget & _).
  apply Hget.
Qed.

Lemma X11_witness :
  response_header
    (run_response_ops ([RHtml 200 (Some "<p>hi</p>")] ++ [RJson 200 (Some "{}")])
       (create_response, initial_statics)).1 "content-type" =
    Some "text/html; charset=utf-8".
Proof.
  apply (X11_response_headers_write_once
           [RHtml 200 (Some "<p>hi</p>")] [RJson 200 (Some "{}")]
           initial_statics "content-type" "text/html; charset=utf-8").
  vm_compute. reflexivity.
Defined.

(** X12: on a server built by any sequence of registration calls that has
    a free route slot and no route yet for a method of at most 15 and a
    path of at most 255 bytes, registering a handler for them returns 0 and
    makes the dispatch of every request with this method and path call that
    handler with its user data; no registration made afterwards changes
    this. *)
Theorem X12_registered_route_dispatched (ops later : list ServerOp)
    (m p : string) (h : NyxHttpHandler) (ud : Z) (c : Conn) :
  let server := run_ops ops nyx_httpd_create in
  route_count server < MAX_ROUTES ->
  String.length m <= 15 -> String.length p <= 255 ->
  no_route server m p ->
  method (c_req c) = Some m -> path (c_req c) = Some p ->
  fst (nyx_httpd_route server (Some m) (Some p) (Some h) ud) = 0%Z /\
  dispatch (run_ops (OpRoute (Some m) (Some p) (Some h) ud :: later) server) c =
  (Some tt, invoke h ud (EvHandler (route_count server)) c).
Proof.
  intros server Hroom Hml Hpl Hno Hm Hp.
  destruct (created_registered ops) as (_ & Hwf & _). fold server in Hwf.
  destruct (registered_first_route server m p h ud Hwf Hroom Hml Hpl Hno)
    as [Hret Hfirst].
  split; [by rewrite Hret |].
  apply (first_route_run_ops later) in Hfirst.
  change (run_ops (OpRoute (Some m) (Some p) (Some h) ud :: later) server)
    with (run_ops later
            (apply_op server (OpRoute (Some m) (Some p) (Some h) ud))).
  by rewrite (dispatch_first_route _ c m p _ _ h Hm Hp Hfirst).
Qed.

Lemma X12_witness :
  fst (nyx_httpd_route sample_server (Some "GET") (Some "/about")
         (Some h_status) 7) = 0%Z /\
  dispatch
    (run_ops [OpRoute (Some "GET") (Some "/about") (Some h_status) 7;
              OpRoute (Some "GET") (Some "/about") (Some h_hello) 8]
       sample_server)
    (sample_conn (request_for "GET" "/about")) =
  (Some tt,
   invoke h_status 7 (EvHandler 1) (sample_conn (request_for "GET" "/about"))).
Proof.
  apply (X12_registered_route_dispatched
           [OpMiddleware (Some logging_middleware) 0;
            OpRoute (Some "GET") (Some "/") (Some h_hello) 0]
           [OpRoute (Some "GET") (Some "/about") (Some h_hello) 8]
           "GET" "/about" h_status 7
           (sample_conn (request_for "GET" "/about"))).
  - vm_compute. lia.
  - simpl. lia.
  - simpl. lia.
  - intros k r Hk Hr [_ Hpath].
    change (route_count (run_ops [OpMiddleware (Some logging_middleware) 0;
                                  OpRoute (Some "GET") (Some "/")
                                    (Some h_hello) 0] nyx_httpd_create))
      with 1 in Hk.
    destruct k as [|k]; [| lia]. vm_compute in Hr.
    injection Hr as <-. discriminate Hpath.
  - reflexivity.
  - reflexivity.
Defined.

(** X13: a server built by any sequence of registration calls holds, as its
    middleware chain, the first 32 middlewares registered with a non-NULL
    function, in registration order; the middleware loop calls them in that
    order, each on the response and the static state the one before left,
    and never faults. *)
Theorem X13_middlewares_chained (ops : list ServerOp) (c : Conn) :
  let server := run_ops ops nyx_httpd_create in
  middleware_count server = length (accepted_middlewares ops) /\
  run_middlewares server (middleware_count server) 0 c =
  (Some tt, chain (accepted_middlewares ops) 0 c).
Proof.
  intros server. pose proof (created_holds ops) as Hholds.
  fold server in Hholds. split; [apply Hholds |].
  rewrite (proj1 Hholds).
  by apply (run_middlewares_chain server (accepted_middlewares ops)).
Qed.

(** X14: on received bytes that hold a line end, [handle_client] is the
    composition of its stages: the request is parsed (this never fails),
    the accepted middlewares run in registration order, once each, on the
    parsed request and the new response, then the route dispatch and
    [send_response] run on what the middlewares left; the connection ends
    completed or in a fault as these two end. *)
Theorem X14_connection_stages (ops : list ServerOp) (st : Statics)
    (pending line rest addr : string) (port : Z) :
  let server := run_ops ops nyx_httpd_create in
  c_str (str_prefix (BUFFER_SIZE - 1) pending) = line +:+ CRLF +:+ rest ->
  strstr line CRLF = None ->
  exists req c2,
    parse_request (line +:+ CRLF +:+ rest)
      (set_remote create_request (Some addr) port) = Some req /\
    c2 = chain (accepted_middlewares ops) 0
           (with_request (fresh_conn st addr port) req) /\
    c_req c2 = req /\
    c_trace c2 = EvMiddleware <$> seq 0 (middleware_count server) /\
    handle_client server st (Some pending) addr port =
    outcome_of ((dispatch server ;; send_stage) c2).
Proof.
  intros server Hbuf Hline.
  destruct (handle_client_stages ops st pending line rest addr port Hbuf Hline)
    as (req & Hreq & Hstages).
  exists req, (chain (accepted_middlewares ops) 0
                 (with_request (fresh_conn st addr port) req)).
  split; [done |]. split; [done |].
  split; [by rewrite chain_req |].
  split; [| done].
  rewrite chain_trace. pose proof (created_holds ops) as [Hlen _].
  fold server in Hlen. by rewrite Hlen.
Qed.

Lemma X14_witness :
  exists req c2,
    parse_request ("GET / HTTP/1.1" +:+ CRLF +:+ CRLF)
      (set_remote create_request (Some "127.0.0.1") 4242) = Some req /\
    c2 = chain [(logging_middleware, 0%Z)] 0
           (with_request (fresh_conn initial_statics "127.0.0.1" 4242) req) /\
    c_req c2 = req /\
    c_trace c2 = [EvMiddleware 0] /\
    handle_client sample_server initial_statics
      (Some ("GET / HTTP/1.1" +:+ CRLF +:+ CRLF)) "127.0.0.1" 4242 =
    outcome_of ((dispatch sample_server ;; send_stage) c2).
Proof.
  apply (X14_connection_stages
           [OpMiddleware (Some logging_middleware) 0;
            OpRoute (Some "GET") (Some "/") (Some h_hello) 0]
           initial_statics ("GET / HTTP/1.1" +:+ CRLF +:+ CRLF)
           "GET / HTTP/1.1" CRLF "127.0.0.1" 4242).
  - reflexivity.
  - reflexivity.
Defined.

(** X15: on a server without middleware, a request whose first line parses
    and for whose method and path no route is registered is answered, on
    every input, with exactly two writes: the header block with status line
    "HTTP/1.1 404 OK", Content-Type text/html and Content-Length 97, and
    the 97-byte Not Found page; the connection completes. *)
Theorem X15_unrouted_request_gets_404 (ops : list ServerOp) (st : Statics)
    (pending line rest addr : string) (port : Z) (m p q pr : string) :
  let server := run_ops ops nyx_httpd_create in
  middleware_count server = 0 ->
  c_str (str_prefix (BUFFER_SIZE - 1) pending) = line +:+ CRLF +:+ rest ->
  strstr line CRLF = None ->
  parse_request_line line = Some (m, p, q, pr) ->
  no_route server m p ->
  exists c,
    handle_client server st (Some pending) addr port = Completed c /\
    status_code (c_resp c) = 404%Z /\
    c_trace c =
    [EvSend ("HTTP/1.1 404 OK" +:+ CRLF +:+
             "Content-Type: text/html" +:+ CRLF +:+
             "Content-Length: 97" +:+ CRLF +:+ CRLF);
     EvSend ("<html><head><title>404 Error</title></head>" +:+
             "<body><h1>404 Error</h1><p>Not Found</p></body></html>")].
Proof.
  intros server Hnone Hbuf Hline Hparse Hno.
  destruct (handle_client_stages ops st pending line rest addr port Hbuf Hline)
    as (req & Hreq & Hstages).
  fold server in Hstages. rewrite Hstages. clear Hstages.
  pose proof (created_holds ops) as [Hlen _]. fold server in Hlen.
  rewrite Hnone in Hlen. symmetry in Hlen. apply length_zero_iff_nil in Hlen.
  rewrite Hlen. cbn [chain].
  apply parse_request_line_kept in Hreq as (Hm & Hp & _); [| done].
  unfold with_request_line in Hm, Hp. rewrite Hparse in Hm, Hp.
  cbn [set_request_line method path] in Hm, Hp.
  destruct (created_registered ops) as (_ & (Hlr & _) & (Hcr & _)).
  fold server in Hlr, Hcr.
  unfold bind, dispatch, bind.
  rewrite (match_route_none server
             (with_request (fresh_conn st addr port) req) m p Hm Hp).
  - eexists. split; [vm_compute; reflexivity |].
    split; vm_compute; reflexivity.
  - lia.
  - intros k r Hk. apply Hno. lia.
Qed.

Lemma X15_witness :
  exists c,
    handle_client no_content_server initial_statics
      (Some ("GET /missing HTTP/1.1" +:+ CRLF +:+ CRLF)) "127.0.0.1" 4242 =
    Completed c /\
    status_code (c_resp c) = 404%Z /\
    c_trace c =
    [EvSend ("HTTP/1.1 404 OK" +:+ CRLF +:+
             "Content-Type: text/html" +:+ CRLF +:+
             "Content-Length: 97" +:+ CRLF +:+ CRLF);
     EvSend ("<html><head><title>404 Error</title></head>" +:+
             "<body><h1>404 Error</h1><p>Not Found</p></body></html>")].
Proof.
  apply (X15_unrouted_request_gets_404
           [OpRoute (Some "GET") (Some "/") (Some h_no_content) 0]
           initial_statics ("GET /missing HTTP/1.1" +:+ CRLF +:+ CRLF)
           "GET /missing HTTP/1.1" CRLF "127.0.0.1" 4242
           "GET" "/missing" "" "HTTP/1.1").
  - reflexivity.
  - reflexivity.
  - reflexivity.
  - reflexivity.
  - intros k r Hk Hr [_ Hpath].
    change (route_count (run_ops [OpRoute (Some "GET") (Some "/")
                                    (Some h_no_content) 0] nyx_httpd_create))
      with 1 in Hk.
    destruct k as [|k]; [| lia]. vm_compute in Hr.
    injection Hr as <-. discriminate Hpath.
Defined.

(** X16: whatever was received and however the connection ends, the
    request record of the connection, which middlewares and handlers only
    read, ends with [body] NULL and [body_length] 0 (the bytes after the
    headers are never attached to it), with the address and port of the
    client, and with a header container in order. *)
Theorem X16_request_passed_to_handlers (server : NyxHttpServer)
    (st : Statics) (pending addr : string) (port : Z) (c : Conn) :
  handle_client server st (Some pending) addr port = Completed c \/
  handle_client server st (Some pending) addr port = Crashed c ->
  req_body (c_req c) = None /\ req_body_length (c_req c) = 0 /\
  remote_addr (c_req c) = Some addr /\ remote_port (c_req c) = port /\
  exists d, req_headers (c_req c) = Some d /\ wf_dict d /\ fits d.
Proof.
  unfold handle_client.
  destruct (String.length (str_prefix (BUFFER_SIZE - 1) pending) =? 0);
    [by intros [? | ?] |].
  set (buffer := c_str _). fold (fresh_conn st addr port).
  set (c0 := fresh_conn st addr port).
  assert (forall r,
    c_req r = c_req c0 \/ parse_request buffer (c_req c0) = Some (c_req r) ->
    req_body (c_req r) = None /\ req_body_length (c_req r) = 0 /\
    remote_addr (c_req r) = Some addr /\ remote_port (c_req r) = port /\
    exists d, req_headers (c_req r) = Some d /\ wf_dict d /\ fits d) as Hfields.
  { intros r [-> | Hp].
    - conjs; try done. exists zero_dict.
      split; [done |]. split; [apply zero_dict_wf | apply zero_dict_fits].
    - destruct (parse_request_keeps buffer (c_req c0) (c_req r) zero_dict
                  eq_refl zero_dict_wf zero_dict_fits Hp)
        as (d & Hd & Hwf & Hfit & _ & _ & -> & -> & -> & ->).
      conjs; try done. by exists d. }
  destruct (parse_request buffer (c_req c0)) as [req|] eqn:Hreq.
  - assert (pipeline server buffer c0 =
            (run_middlewares server (middleware_count server) 0 ;;
             dispatch server ;; send_stage) (with_request c0 req)) as ->.
    { unfold pipeline. unfold bind at 1.
      by rewrite (parse_stage_ok buffer c0 req Hreq). }
    pose proof (pipeline_rest_req server (with_request c0 req)) as Hrest.
    destruct ((run_middlewares server (middleware_count server) 0 ;;
               dispatch server ;; send_stage) (with_request c0 req))
      as [[[]|] c']; cbn [snd] in Hrest; intros [H | H]; try discriminate H;
      injection H as <-; apply Hfields; right; by rewrite Hrest.
  - assert (pipeline server buffer c0 = (None, c0)) as ->.
    { unfold pipeline. unfold bind at 1.
      by rewrite (parse_stage_fault buffer c0 Hreq). }
    intros [H | H]; [discriminate H |]. injection H as <-.
    apply Hfields. by left.
Qed.

Lemma X16_witness :
  exists c,
    handle_client sample_server initial_statics
      (Some ("POST / HTTP/1.1" +:+ CRLF +:+ "Content-Length: 5" +:+ CRLF +:+
             CRLF +:+ "hello")) "127.0.0.1" 4242 = Completed c /\
    req_body (c_req c) = None /\ req_body_length (c_req c) = 0 /\
    remote_addr (c_req c) = Some "127.0.0.1" /\
    remote_port (c_req c) = 4242%Z /\
    exists d, req_headers (c_req c) = Some d /\ wf_dict d /\ fits d.
Proof.
  pose (pending := "POST / HTTP/1.1" +:+ CRLF +:+ "Content-Length: 5" +:+
                   CRLF +:+ CRLF +:+ "hello").
  pose (c := match handle_client sample_server initial_statics (Some pending)
                     "127.0.0.1" 4242 with
             | Completed c => c
             | _ => sample_conn create_request
             end).
  assert (handle_client sample_server initial_statics (Some pending)
            "127.0.0.1" 4242 = Completed c) as H
    by (vm_compute; reflexivity).
  exists c. split; [exact H |].
  exact (X16_request_passed_to_handlers sample_server initial_statics pending
           "127.0.0.1" 4242 c (or_introl H)).
Defined.

(** X17: a header named Content-Length, in any case, whose value is the
    decimal numeral of a number below 2^31 (as [%zu] prints it) is stored
    with room in the container and sets [content_length] to that number:
    [atoi] reads back what the response side prints. *)
Theorem X17_content_length_numeral (req : NyxHttpRequest)
    (d : HttpHeaderDict) (n : string) (len : nat) :
  req_headers req = Some d -> count d < MAX_HEADERS ->
  lower n = lower "Content-Length" ->
  (Z.of_nat len < 2 ^ 31)%Z ->
  exists req',
    store_header req n (fmt_zu len) = Some req' /\
    content_length req' = Z.of_nat len.
Proof.
  intros Hd Hroom Hn Hlen.
  destruct (store_header_room req d n (fmt_zu len) Hd Hroom)
    as (req' & Hs & _ & _ & _ & Hcl & _).
  exists req'. split; [done |].
  rewrite Hcl, (proj2 (strcasecmp0_lower n "Content-Length") Hn).
  rewrite atoi_fmt_zu by done. apply Z.mod_small. lia.
Qed.

Lemma X17_witness :
  exists req',
    store_header create_request "content-length" (fmt_zu 1024) = Some req' /\
    content_length req' = 1024%Z.
Proof.
  apply (X17_content_length_numeral create_request zero_dict
           "content-length" 1024).
  - reflexivity.
  - vm_compute. lia.
  - reflexivity.
  - lia.
Defined.

(** X18: the received bytes are used as a C string: when they hold a NUL
    byte after at least one other byte, [handle_client] behaves exactly as
    if the bytes before the NUL were all that was received. *)
Theorem X18_bytes_after_nul_ignored (server : NyxHttpServer) (st : Statics)
    (a b addr : string) (port : Z) :
  a <> "" -> strchr a NUL = None ->
  handle_client server st (Some (a +:+ String NUL b)) addr port =
  handle_client server st (Some a) addr port.
Proof.
  intros Hne Hnul. unfold handle_client. rewrite c_str_cut by done.
  assert (exists k, BUFFER_SIZE - 1 = S k) as [k ->] by (by eexists).
  destruct a as [|x a]; [done |]. done.
Qed.

Lemma X18_witness :
  handle_client sample_server initial_statics
    (Some (("GET / HTTP/1.1" +:+ CRLF +:+ CRLF) +:+ String NUL "trailing"))
    "127.0.0.1" 4242 =
  handle_client sample_server initial_statics
    (Some ("GET / HTTP/1.1" +:+ CRLF +:+ CRLF)) "127.0.0.1" 4242.
Proof.
  apply (X18_bytes_after_nul_ignored sample_server initial_statics
           ("GET / HTTP/1.1" +:+ CRLF +:+ CRLF) "trailing" "127.0.0.1" 4242).
  - discriminate.
  - reflexivity.
Defined.

(** X19: a request whose first line parses to a method and a path for
    which a route is registered is handled by the first such route,
    whatever its query string, headers and body are: after the accepted
    middlewares, in order, the handler of that route is called once with
    the parsed request, which carries the query string, and what it leaves
    in the response is what [send_response] is given. *)
Theorem X19_routed_request_handled (ops : list ServerOp) (st : Statics)
    (pending line rest addr : string) (port : Z) (m p q pr : string)
    (i : nat) (route : HttpRoute) :
  let server := run_ops ops nyx_httpd_create in
  c_str (str_prefix (BUFFER_SIZE - 1) pending) = line +:+ CRLF +:+ rest ->
  strstr line CRLF = None ->
  parse_request_line line = Some (m, p, q, pr) ->
  first_route server m p i route ->
  exists req h,
    parse_request (line +:+ CRLF +:+ rest)
      (set_remote create_request (Some addr) port) = Some req /\
    method req = Some m /\ path req = Some p /\ query_string req = Some q /\
    route_handler route = Some h /\
    handle_client server st (Some pending) addr port =
    outcome_of
      (send_stage
         (invoke h (route_user_data route) (EvHandler i)
            (chain (accepted_middlewares ops) 0
               (with_request (fresh_conn st addr port) req)))).
Proof.
  intros server Hbuf Hline Hparse Hfirst.
  destruct (handle_client_stages ops st pending line rest addr port Hbuf Hline)
    as (req & Hreq & Hstages).
  fold server in Hstages.
  destruct (parse_request_line_kept line rest _ req Hline Hreq)
    as (Hm & Hp & Hq & _).
  unfold with_request_line in Hm, Hp, Hq. rewrite Hparse in Hm, Hp, Hq.
  cbn [set_request_line method path query_string] in Hm, Hp, Hq.
  destruct (created_registered ops) as ((_ & Hroutes) & _).
  fold server in Hroutes.
  destruct Hfirst as (Hi & Hl & Hrest).
  destruct (Hroutes i Hi) as (route' & h & Hl' & Hh).
  rewrite Hl in Hl'. injection Hl' as <-.
  exists req, h. conjs; try done.
  rewrite Hstages. unfold bind at 1.
  set (c2 := chain _ _ _).
  rewrite (dispatch_first_route server c2 m p i route h); try done.
  - unfold c2. by rewrite chain_req.
  - unfold c2. by rewrite chain_req.
Qed.

Lemma X19_witness :
  exists req h,
    parse_request ("GET /?lang=en HTTP/1.1" +:+ CRLF +:+ CRLF)
      (set_remote create_request (Some "127.0.0.1") 4242) = Some req /\
    method req = Some "GET" /\ path req = Some "/" /\
    query_string req = Some "lang=en" /\
    Some h_hello = Some h /\
    handle_client sample_server initial_statics
      (Some ("GET /?lang=en HTTP/1.1" +:+ CRLF +:+ CRLF)) "127.0.0.1" 4242 =
    outcome_of
      (send_stage
         (invoke h 0 (EvHandler 0)
            (chain [(logging_middleware, 0%Z)] 0
               (with_request (fresh_conn initial_statics "127.0.0.1" 4242)
                  req)))).
Proof.
  apply (X19_routed_request_handled
           [OpMiddleware (Some logging_middleware) 0;
            OpRoute (Some "GET") (Some "/") (Some h_hello) 0]
           initial_statics ("GET /?lang=en HTTP/1.1" +:+ CRLF +:+ CRLF)
           "GET /?lang=en HTTP/1.1" CRLF "127.0.0.1" 4242
           "GET" "/" "lang=en" "HTTP/1.1" 0
           {| route_method := "GET"; route_path := "/";
              route_handler := Some h_hello; route_user_data := 0 |}).
  - reflexivity.
  - reflexivity.
  - reflexivity.
  - repeat split; try reflexivity.
    + vm_compute. lia.
    + intros k r Hk. lia.
Defined.
